(** * Knox: request handlers of the key server and the key files of the daemon

    A shallow embedding of [server/routes.go] (the eight HTTP handlers and
    [authorizeRequest]) and of the daemon of the client ([update], [processKey]
    and the register file [KeysFile]), with the properties of their
    specification and further properties of the code.

    Go values are modelled as follows.
    - [string] is a Rocq [string]; [[]byte] is a [list byte].
    - A slice that the code compares with [nil] is a [slice]: [None] is the
      nil slice, [Some l] a slice holding [l].
    - [map[string]string] is a [gmap string string]; a missing key reads as
      the empty string, the two-result form [v, ok := m[k]] is the lookup.
    - An [error] is a value with an identity (which package-level variable it
      is, for [==] and [os.IsNotExist]) and the text of its [Error()] method.
    - A pair of results [(T, error)] whose first component is only read when
      the error is nil is a sum [error + T].
    - A panic is an explicit outcome; [recover] is a match on it. *)

From Stdlib Require Import Strings.Ascii Strings.Byte.
From stdpp Require Import base option list strings pretty gmap.

(** ** Go runtime values shared by both packages *)

Module golang.

(** [[]T]: [None] is [nil]. *)
Definition slice (A : Type) : Type := option (list A).

(** The elements a [range] loop visits. *)
Definition elems {A} (s : slice A) : list A := default [] s.

(** [append(s, x)] *)
Definition append {A} (s : slice A) (x : A) : slice A := Some (elems s ++ [x]).

(** [==] on bytes, decided on their codes. *)
#[global] Instance byte_eq_dec : EqDecision byte.
Proof.
  intros x y. destruct (decide (Byte.to_N x = Byte.to_N y)) as [E|E].
  - left. apply (f_equal Byte.of_N) in E. rewrite !Byte.of_to_N in E. congruence.
  - right. congruence.
Defined.

(** [[]byte(s)] *)
Definition bytes (s : string) : list byte := String.list_byte_of_string s.

(** [m[k]] on a [map[string]string]: the zero value when [k] is missing. *)
Definition index (m : gmap string string) (k : string) : string :=
  default EmptyString (m !! k).

(** The value handed to [panic], kept as the text [%v] prints for it.  Since
    Go 1.21 [recover] never returns nil inside a panicking goroutine. *)
Definition panic_value : Type := string.

(** What a call that may panic produces. *)
Inductive outcome (A : Type) : Type :=
| Returns (a : A)
| Panics (r : panic_value).
Arguments Returns {A} a.
Arguments Panics {A} r.

(** *** Statements with early [return]

    A function body is a sequence of statements over a state [W] of the
    world outside the program.  A statement either falls through to the next
    one with a value, returns [R] from the function, or panics. *)

Inductive step (R A : Type) : Type :=
| Next (a : A)
| Return (r : R)
| Crash (p : panic_value).
Arguments Next {R A} a.
Arguments Return {R A} r.
Arguments Crash {R A} p.

Definition Go (W R A : Type) : Type := W -> step R A * W.

#[global] Instance Go_ret {W R} : MRet (Go W R) := fun A a w => (Next a, w).

#[global] Instance Go_bind {W R} : MBind (Go W R) := fun A B f m w =>
  match m w with
  | (Next a, w') => f a w'
  | (Return r, w') => (Return r, w')
  | (Crash p, w') => (Crash p, w')
  end.

(** [return r] *)
Definition exit {W R A} (r : R) : Go W R A := fun w => (Return r, w).

(** [panic(p)] *)
Definition panic {W R A} (p : panic_value) : Go W R A := fun w => (Crash p, w).

(** A call into the world. *)
Definition call {W R A} (f : W -> A * W) : Go W R A :=
  fun w => let '(a, w') := f w in (Next a, w').

End golang.

(** ** Package knox: the types shared by server and client *)

Module knox.
Import golang.

(** The package-level error variables the handlers compare with [==]. *)
Inductive sentinel : Type :=
| KeyIDNotFound | KeyVersionNotFound | KeyExists | InvalidKeyID
| PrimaryToActive | PrimaryToInactive | InactiveToPrimary.

(** Identity of an error value. *)
Inductive errid : Type :=
| Anonymous                 (* made by fmt.Errorf or errors.New at the call *)
| Var (s : sentinel)        (* one of knox.Err... *)
| NotExist.                 (* an error for which os.IsNotExist holds *)

Record error : Type := mkError { err_id : errid; Error : string }.

#[global] Instance sentinel_eq_dec : EqDecision sentinel.
Proof. solve_decision. Defined.
#[global] Instance errid_eq_dec : EqDecision errid.
Proof. solve_decision. Defined.

(** [err == knox.ErrX] *)
Definition is_var (e : error) (s : sentinel) : bool := bool_decide (err_id e = Var s).

(** [fmt.Errorf(text)] with the verbs already filled in. *)
Definition Errorf (text : string) : error := mkError Anonymous text.

(** Subcodes of an HTTP error.  In Go they are distinct integer constants of
    package knox. *)
Inductive code : Type :=
| InternalServerErrorCode | KeyIdentifierExistsCode | KeyVersionDoesNotExistCode
| KeyIdentifierDoesNotExistCode | UnauthorizedCode | NoKeyIDCode | NoKeyDataCode
| BadRequestDataCode | BadKeyFormatCode | BadPrincipalIdentifier.

Inductive VersionStatus : Type := Primary | Active | Inactive.

(** The tag of a rule, which selects how its ID is matched and validated. *)
Inductive PrincipalType : Type := User | UserGroup | Machine | MachinePrefix | Service | ServicePrefix.

Record KeyVersion : Type := mkKeyVersion {
  kv_ID : N;                      (* uint64 *)
  kv_Data : list byte;
  kv_Status : VersionStatus;
  kv_CreationTime : Z }.

Record RawPrincipal : Type := mkRawPrincipal { rp_ID : string; rp_Type : string }.

(** [None] is the access type that removes a rule; inside this module the
    name shadows the constructor of [option]. *)
Inductive AccessType : Type := None | Read | Write | Admin.

#[global] Instance AccessType_eq_dec : EqDecision AccessType.
Proof. solve_decision. Defined.

Record Access : Type := mkAccess {
  acc_Type : PrincipalType;
  acc_ID : string;
  acc_AccessType : AccessType }.

Definition ACL : Type := slice Access.

(** The fields of [knox.Key] that the handlers and the daemon read or
    write. *)
Record Key : Type := mkKey {
  key_ID : string;
  key_ACL : ACL;
  key_VersionList : slice KeyVersion;
  key_VersionHash : string;
  key_TinkKeyset : string }.

(** The interface [knox.Principal]. *)
Record Principal : Type := mkPrincipal {
  GetID : string;
  Type_ : string;
  CanAccess : ACL -> AccessType -> bool;
  Raw : list RawPrincipal }.

Record AccessCallbackInput : Type := mkAccessCallbackInput {
  in_Key : Key;
  in_Principals : list RawPrincipal;
  in_AccessType : AccessType }.

End knox.

(** ** Package server: [routes.go] *)

Module server.
Import golang.

(** [*HTTPError]; [errF] builds one from a subcode and a message. *)
Record HTTPError : Type := mkHTTPError { Subcode : knox.code; Message : string }.

Definition errF (c : knox.code) (m : string) : option HTTPError := Some (mkHTTPError c m).

(** The [interface{}] a handler returns. *)
Inductive value : Type :=
| Nil
| KeyIDs (ids : list string)
| VersionID (id : N)
| KeyPtr (key : knox.Key)
| ACLValue (acl : knox.ACL).

(** What a handler returns: [(interface{}, *HTTPError)]. *)
Definition reply : Type := value * option HTTPError.

(** [return v, e] *)
Definition return_ {W A} (v : value) (e : option HTTPError) : Go W reply A :=
  exit (v, e).

(** [if b { return nil, e }] *)
Definition check {W} (b : bool) (e : option HTTPError) : Go W reply unit :=
  if b then return_ Nil e else mret tt.

(** [v, ok := m[k]; if !ok { return nil, e }] *)
Definition present {W A} (o : option A) (e : option HTTPError) : Go W reply A :=
  match o with Some a => mret a | None => return_ Nil e end.

(** [v, err := f(...); if err != nil { return nil, h(err) }] *)
Definition try {W A} (r : knox.error + A) (h : knox.error -> option HTTPError) : Go W reply A :=
  match r with inr a => mret a | inl err => return_ Nil (h err) end.

(** The interface [KeyManager].  A method that takes a pointer returns the
    value it leaves behind it. *)
Record KeyManager (W : Type) : Type := mkKeyManager {
  GetAllKeyIDs : W -> (knox.error + list string) * W;
  GetUpdatedKeyIDs : gmap string string -> W -> (knox.error + list string) * W;
  GetKey : string -> knox.VersionStatus -> W -> (knox.error + knox.Key) * W;
  AddNewKey : knox.Key -> W -> (knox.Key * option knox.error) * W;
  DeleteKey : string -> W -> option knox.error * W;
  UpdateAccess : string -> knox.ACL -> W -> option knox.error * W;
  AddVersion : string -> knox.KeyVersion -> W -> (knox.KeyVersion * option knox.error) * W;
  UpdateVersion : string -> N -> knox.VersionStatus -> W -> option knox.error * W }.
Arguments GetAllKeyIDs {W} _ _.
Arguments GetUpdatedKeyIDs {W} _ _ _.
Arguments GetKey {W} _ _ _ _.
Arguments AddNewKey {W} _ _ _.
Arguments DeleteKey {W} _ _ _.
Arguments UpdateAccess {W} _ _ _ _.
Arguments AddVersion {W} _ _ _ _.
Arguments UpdateVersion {W} _ _ _ _ _.

(** What [routes.go] uses and does not define: functions of the Go standard
    library, of packages knox and auth, and the package-level variables of
    package server. *)
Record Deps (W : Type) : Type := mkDeps {
  (* url.ParseQuery, whose error the caller drops *)
  url_ParseQuery : string -> gmap string (list string);
  (* json.Unmarshal into a knox.ACL *)
  json_Unmarshal_ACL : list byte -> knox.error + knox.ACL;
  (* json.Unmarshal into a knox.Access: the value found behind the pointer,
     the value left there and the error *)
  json_Unmarshal_Access : list byte -> knox.Access -> knox.Access * option knox.error;
  base64_StdEncoding_DecodeString : string -> knox.error + slice byte;
  base64_RawURLEncoding_DecodeString : string -> knox.error + slice byte;
  VersionStatus_UnmarshalJSON : list byte -> knox.error + knox.VersionStatus;
  (* strconv.ParseUint(s, 10, 64) *)
  strconv_ParseUint : string -> knox.error + N;
  auth_IsUser : knox.Principal -> bool;
  newKey : string -> knox.ACL -> slice byte -> knox.Principal -> W -> knox.Key * W;
  newKeyVersion : slice byte -> knox.VersionStatus -> W -> knox.KeyVersion * W;
  (* access.Type.IsValidPrincipal(access.ID, extraPrincipalValidators) *)
  IsValidPrincipal : knox.PrincipalType -> string -> option knox.error;
  (* knox.Access{}, the zero value declared in package knox *)
  Access_zero : knox.Access;
  (* var accessCallback; nil when none is installed *)
  accessCallback : option (knox.AccessCallbackInput -> outcome (bool * option knox.error)) }.
Arguments url_ParseQuery {W} _ _.
Arguments json_Unmarshal_ACL {W} _ _.
Arguments json_Unmarshal_Access {W} _ _ _.
Arguments base64_StdEncoding_DecodeString {W} _ _.
Arguments base64_RawURLEncoding_DecodeString {W} _ _.
Arguments VersionStatus_UnmarshalJSON {W} _ _.
Arguments strconv_ParseUint {W} _ _.
Arguments auth_IsUser {W} _ _.
Arguments newKey {W} _ _ _ _ _ _.
Arguments newKeyVersion {W} _ _ _ _.
Arguments IsValidPrincipal {W} _ _ _.
Arguments Access_zero {W} _.
Arguments accessCallback {W} _.

Section Handlers.
Context {W : Type} (D : Deps W).

(** *** authorizeRequest (routes.go 476-496) *)

(** The named results [(allow bool, err error)]. *)
Record results : Type := mkResults { allow : bool; err : option knox.error }.

(** The body below the [defer]: the named results when the body ends, and
    the value of the panic that ended it, if one did. *)
Definition authorizeRequest_body (key : knox.Key) (principal : knox.Principal)
    (access : knox.AccessType) (r0 : results) : results * option panic_value :=
  let r1 := mkResults (knox.CanAccess principal (knox.key_ACL key) access) (err r0) in
  if negb (allow r1) then
    match accessCallback D with
    | Some callback =>
        match callback (knox.mkAccessCallbackInput key (knox.Raw principal) access) with
        | Returns (a, e) => (mkResults a e, None)
        | Panics r => (r1, Some r)
        end
    | None => (r1, None)
    end
  else (r1, None).

(** The deferred function: [if r := recover(); r != nil { err = ... }]. *)
Definition authorizeRequest_deferred (recovered : option panic_value) (rs : results) : results :=
  match recovered with
  | Some r => mkResults (allow rs) (Some (knox.Errorf ("Recovered from panic in access callback: " +:+ r)))
  | None => rs
  end.

Definition authorizeRequest (key : knox.Key) (principal : knox.Principal)
    (access : knox.AccessType) : bool * option knox.error :=
  let '(rs, recovered) := authorizeRequest_body key principal access (mkResults false None) in
  let rs' := authorizeRequest_deferred recovered rs in
  (allow rs', err rs').

(** *** Two blocks every handler of a single key repeats *)

(** [key, getErr := m.GetKey(keyID, status)] and the two returns under
    [if getErr != nil]. *)
Definition fetchKey (m : KeyManager W) (keyID : string) (status : knox.VersionStatus) : Go W reply knox.Key :=
  r ← call (GetKey m keyID status);
  match r with
  | inr key => mret key
  | inl getErr =>
      if knox.is_var getErr knox.KeyIDNotFound
      then return_ Nil (errF knox.KeyIdentifierDoesNotExistCode ("No such key " +:+ keyID))
      else return_ Nil (errF knox.InternalServerErrorCode (knox.Error getErr))
  end.

(** [authorized, authzErr := authorizeRequest(key, principal, access)] and the
    two returns that follow; [what] is the verb of the message. *)
Definition authorize (key : knox.Key) (principal : knox.Principal) (access : knox.AccessType)
    (what keyID : string) : Go W reply unit :=
  let '(authorized, authzErr) := authorizeRequest key principal access in
  match authzErr with
  | Some e => return_ Nil (errF knox.InternalServerErrorCode (knox.Error e))
  | None =>
      check (negb authorized)
        (errF knox.UnauthorizedCode
           ("Principal " +:+ knox.GetID principal +:+ " not authorized to " +:+ what +:+ " " +:+ keyID))
  end.

(** *** getKeysHandler (routes.go 108-134) *)

(** The two loops that fill [keyM]: every value of a name is assigned in
    turn. *)
Definition collapse (keyMap : gmap string (list string)) : gmap string string :=
  map_fold (fun k vs keyM => foldl (fun keyM v => <[k:=v]> keyM) keyM vs) ∅ keyMap.

Definition getKeysHandler (m : KeyManager W) (principal : knox.Principal)
    (parameters : gmap string string) : Go W reply Empty_set :=
  let queryString := index parameters "queryString" in
  let keyMap := url_ParseQuery D queryString in
  let keyM := collapse keyMap in
  if bool_decide (size keyMap = 0) then
    r ← call (GetAllKeyIDs m);
    keys ← try r (fun err => errF knox.InternalServerErrorCode (knox.Error err));
    return_ (KeyIDs keys) None
  else
    r ← call (GetUpdatedKeyIDs m keyM);
    keys ← try r (fun err => errF knox.InternalServerErrorCode (knox.Error err));
    return_ (KeyIDs keys) None.

(** *** postKeysHandler (routes.go 141-188) *)

Definition postKeysHandler (m : KeyManager W) (principal : knox.Principal)
    (parameters : gmap string string) : Go W reply Empty_set :=
  check (negb (auth_IsUser D principal))
    (errF knox.UnauthorizedCode
       ("Must be a user to create keys, principal is " +:+ knox.GetID principal));;
  keyID ← present (parameters !! "id") (errF knox.NoKeyIDCode "Missing parameter 'id'");
  data ← present (parameters !! "data") (errF knox.NoKeyDataCode "Missing parameter 'data'");
  check (bool_decide (data = EmptyString)) (errF knox.NoKeyDataCode "Parameter 'data' is empty");;
  acl ← match parameters !! "acl" with
        | Some aclStr =>
            try (json_Unmarshal_ACL D (bytes aclStr))
              (fun jsonErr => errF knox.BadRequestDataCode (knox.Error jsonErr))
        | None => mret (Some [])
        end;
  decodedData ← try (base64_StdEncoding_DecodeString D data)
                  (fun decodeErr => errF knox.BadRequestDataCode (knox.Error decodeErr));
  key ← call (newKey D keyID acl decodedData principal);
  '(key, err) ← call (AddNewKey m key);
  match err with
  | Some err =>
      if knox.is_var err knox.KeyExists then
        return_ Nil (errF knox.KeyIdentifierExistsCode ("Key " +:+ keyID +:+ " already exists"))
      else if knox.is_var err knox.InvalidKeyID then
        return_ Nil (errF knox.BadKeyFormatCode ("KeyID includes unsupported characters " +:+ keyID))
      else return_ Nil (errF knox.InternalServerErrorCode (knox.Error err))
  | None =>
      (* key.VersionList[0].ID *)
      match elems (knox.key_VersionList key) with
      | v :: _ => return_ (VersionID (knox.kv_ID v)) None
      | [] => panic "runtime error: index out of range [0] with length 0"
      end
  end.

(** *** getKeyHandler (routes.go 193-227) *)

Definition getKeyHandler (m : KeyManager W) (principal : knox.Principal)
    (parameters : gmap string string) : Go W reply Empty_set :=
  let keyID := index parameters "keyID" in
  status ← match parameters !! "status" with
           | Some statusStr =>
               try (VersionStatus_UnmarshalJSON D (bytes statusStr))
                 (fun statusErr => errF knox.BadRequestDataCode (knox.Error statusErr))
           | None => mret knox.Active
           end;
  key ← fetchKey m keyID status;
  authorize key principal knox.Read "read" keyID;;
  (* key.ACL = knox.ACL{} *)
  let key := knox.mkKey (knox.key_ID key) (Some []) (knox.key_VersionList key)
               (knox.key_VersionHash key) (knox.key_TinkKeyset key) in
  return_ (KeyPtr key) None.

(** *** deleteKeyHandler (routes.go 232-259) *)

Definition deleteKeyHandler (m : KeyManager W) (principal : knox.Principal)
    (parameters : gmap string string) : Go W reply Empty_set :=
  let keyID := index parameters "keyID" in
  key ← fetchKey m keyID knox.Primary;
  authorize key principal knox.Admin "delete" keyID;;
  err ← call (DeleteKey m keyID);
  match err with
  | Some err => return_ Nil (errF knox.InternalServerErrorCode (knox.Error err))
  | None => return_ Nil None
  end.

(** *** getAccessHandler (routes.go 263-280) *)

Definition getAccessHandler (m : KeyManager W) (principal : knox.Principal)
    (parameters : gmap string string) : Go W reply Empty_set :=
  let keyID := index parameters "keyID" in
  key ← fetchKey m keyID knox.Primary;
  return_ (ACLValue (knox.key_ACL key)) None.

(** *** putAccessHandler (routes.go 288-357) *)

(** The loop over [acl] that validates the principal of every rule whose
    access type is not [None]; the first failure returns. *)
Fixpoint validatePrincipals (acl : list knox.Access) : Go W reply unit :=
  match acl with
  | [] => mret tt
  | access :: rest =>
      (if bool_decide (knox.acc_AccessType access ≠ knox.None) then
         match IsValidPrincipal D (knox.acc_Type access) (knox.acc_ID access) with
         | Some principalErr =>
             return_ Nil (errF knox.BadPrincipalIdentifier (knox.Error principalErr))
         | None => mret tt
         end
       else mret tt);;
      validatePrincipals rest
  end.

(** Lines 291-317: the rules of the request, from [access] when it is there
    and from [acl] otherwise. *)
Definition requestedRules (parameters : gmap string string) : Go W reply knox.ACL :=
  let acl : knox.ACL := Some [] in
  match parameters !! "access", parameters !! "acl" with
  | Some accessStr, _ =>
      let access := Access_zero D in
      (* If JSON decode fails, try a base64 encoded JSON string *)
      match json_Unmarshal_Access D (bytes accessStr) access with
      | (access, None) => mret (append acl access)
      | (access, Some _) =>
          decodedData ← try (base64_RawURLEncoding_DecodeString D accessStr)
                          (fun decodeErr => errF knox.BadRequestDataCode (knox.Error decodeErr));
          match json_Unmarshal_Access D (elems decodedData) access with
          | (access, None) => mret (append acl access)
          | (_, Some jsonErr) => return_ Nil (errF knox.BadRequestDataCode (knox.Error jsonErr))
          end
      end
  | None, Some aclStr =>
      try (json_Unmarshal_ACL D (bytes aclStr))
        (fun jsonErr => errF knox.BadRequestDataCode (knox.Error jsonErr))
  | None, None => return_ Nil (errF knox.BadRequestDataCode "Missing acl and access parameters")
  end.

Definition putAccessHandler (m : KeyManager W) (principal : knox.Principal)
    (parameters : gmap string string) : Go W reply Empty_set :=
  let keyID := index parameters "keyID" in
  acl ← requestedRules parameters;
  key ← fetchKey m keyID knox.Primary;
  authorize key principal knox.Admin "update access for" keyID;;
  validatePrincipals (elems acl);;
  updateErr ← call (UpdateAccess m keyID acl);
  match updateErr with
  | Some updateErr => return_ Nil (errF knox.InternalServerErrorCode (knox.Error updateErr))
  | None => return_ Nil None
  end.

(** *** postVersionHandler (routes.go 363-409) *)

Definition postVersionHandler (m : KeyManager W) (principal : knox.Principal)
    (parameters : gmap string string) : Go W reply Empty_set :=
  let keyID := index parameters "keyID" in
  dataStr ← present (parameters !! "data") (errF knox.BadRequestDataCode "Missing parameter 'data'");
  check (bool_decide (dataStr = EmptyString))
    (errF knox.BadRequestDataCode "Parameter 'data' is empty");;
  decodedData ← try (base64_StdEncoding_DecodeString D dataStr)
                  (fun decodeErr => errF knox.BadRequestDataCode (knox.Error decodeErr));
  check (bool_decide (decodedData = None))
    (errF knox.BadRequestDataCode "Parameter 'data' decoded to nil");;
  key ← fetchKey m keyID knox.Inactive;
  authorize key principal knox.Write "write" keyID;;
  version ← call (newKeyVersion D decodedData knox.Active);
  '(version, err) ← call (AddVersion m keyID version);
  match err with
  | Some err => return_ Nil (errF knox.InternalServerErrorCode (knox.Error err))
  | None => return_ (VersionID (knox.kv_ID version)) None
  end.

(** *** putVersionsHandler (routes.go 424-474) *)

Definition putVersionsHandler (m : KeyManager W) (principal : knox.Principal)
    (parameters : gmap string string) : Go W reply Empty_set :=
  let keyID := index parameters "keyID" in
  let versionID := index parameters "versionID" in
  statusStr ← present (parameters !! "status")
                (errF knox.BadRequestDataCode "Missing parameter 'status'");
  status ← try (VersionStatus_UnmarshalJSON D (bytes statusStr))
             (fun statusErr => errF knox.BadRequestDataCode (knox.Error statusErr));
  id ← try (strconv_ParseUint D versionID)
         (fun intErr => errF knox.BadRequestDataCode (knox.Error intErr));
  key ← fetchKey m keyID knox.Inactive;
  authorize key principal knox.Write "write" keyID;;
  err ← call (UpdateVersion m keyID id status);
  match err with
  | None => return_ Nil None
  | Some err =>
      if knox.is_var err knox.KeyVersionNotFound then
        return_ Nil (errF knox.KeyVersionDoesNotExistCode (knox.Error err))
      else if knox.is_var err knox.PrimaryToInactive
              || knox.is_var err knox.PrimaryToActive
              || knox.is_var err knox.InactiveToPrimary then
        return_ Nil (errF knox.BadRequestDataCode (knox.Error err))
      else return_ Nil (errF knox.InternalServerErrorCode (knox.Error err))
  end.

End Handlers.
End server.

(** ** Package client: the daemon *)

Module client.
Import golang.

(** *** The file system the daemon works on

    A file has its bytes and its permission bits; the file system maps a
    path to the file found there. *)

Record file : Type := mkFile { data : list byte; mode : N }.

Abbreviation fs := (gmap string file).

(** A write that fails: the bytes that reached the file before it did. *)
Record short_write : Type := mkShortWrite { written : nat; write_err : knox.error }.

(** How [os.WriteFile] fails: at the open, which leaves the file alone, or at
    the write, after the file was truncated. *)
Inductive writeFile_failure : Type :=
| OpenFails (e : knox.error)
| WriteFails (w : short_write).

(** What the operating system decides during one call of the daemon: which
    of the system calls whose error the code reads fail, and the random part
    of the name of the temporary file.  [Close] and [os.Remove], whose
    results the code drops, are the calls that succeed. *)
Record Faults : Type := mkFaults {
  ReadFile_fails : option knox.error;
  WriteFile_fails : option writeFile_failure;
  CreateTemp_random : knox.error + string;
  Write_fails : option short_write;
  Rename_fails : option knox.error;
  Chmod_fails : option knox.error }.

(** What the daemon uses and does not define. *)
Record Deps : Type := mkDeps {
  path_Join : list string -> string;
  strings_Fields : string -> list string;
  json_Marshal : knox.Key -> knox.error + list byte;
  base64_StdEncoding_EncodeToString : list byte -> string;
  KeysetHandle : Type;
  getTinkKeysetHandleFromKnoxVersionList : slice knox.KeyVersion -> knox.error + KeysetHandle;
  convertTinkKeysetHandleToBytes : KeysetHandle -> knox.error + list byte }.

Definition defaultFilePermission : N := 438. (* 0666 *)
Definition tinkPrefix : string := "tink:".

(** [os.IsNotExist(err)] *)
Definition os_IsNotExist (e : knox.error) : bool := bool_decide (knox.err_id e = knox.NotExist).

(** The byte ['\n']. *)
Definition newline : byte := "010"%byte.

(** [pattern[:pos], pattern[pos+1:]] for the last [pos] holding [c]. *)
Fixpoint cutLast (c : ascii) (s : string) : option (string * string) :=
  match s with
  | EmptyString => None
  | String a s' =>
      match cutLast c s' with
      | Some (p, q) => Some (String a p, q)
      | None => if Ascii.eqb a c then Some (EmptyString, s') else None
      end
  end.

Fixpoint contains (c : ascii) (s : string) : bool :=
  match s with
  | EmptyString => false
  | String a s' => Ascii.eqb a c || contains c s'
  end.

Fixpoint endsWith (c : ascii) (s : string) : bool :=
  match s with
  | EmptyString => false
  | String a EmptyString => Ascii.eqb a c
  | String _ s' => endsWith c s'
  end.

(** The name [os.CreateTemp(dir, pattern)] tries for the random string
    [random]: the last star of the pattern is replaced. *)
Definition tempName (dir pattern random : string) : string :=
  let '(prefix, suffix) := default (pattern, EmptyString) (cutLast "*"%char pattern) in
  let name := prefix +:+ random +:+ suffix in
  if endsWith "/"%char dir then dir +:+ name else dir +:+ "/" +:+ name.

(** The interface [Keys], without [Lock] and [Unlock], which belong to the
    file-lock primitive.  A value of the interface is the table of its
    methods. *)
Record Keys : Type := mkKeys {
  Get : fs -> knox.error + list string;
  Add : list string -> fs -> option knox.error * fs;
  Overwrite : list string -> fs -> option knox.error * fs;
  Remove : list string -> fs -> option knox.error * fs }.

(** [KeysFile], without its lock. *)
Record KeysFile : Type := mkKeysFile { fn : string }.

(** The method of [knox.APIClient] that [processKey] calls. *)
Record APIClient : Type := mkAPIClient {
  NetworkGetKey : string -> knox.error + knox.Key }.

Record daemon : Type := mkDaemon {
  dir : string;
  registerFile : string;
  registerKeyFile : Keys;
  keysDir : string;
  cli : APIClient;
  updateErrCount : N;
  getKeyErrCount : N;
  successCount : N }.

(** [v, err := f(...); if err != nil { return h(err) }] *)
Definition try {W A} (r : knox.error + A) (h : knox.error -> knox.error) : Go W (option knox.error) A :=
  match r with inr a => mret a | inl err => exit (Some (h err)) end.

(** A call that changes the world and whose result, if any, is dropped. *)
Definition run {W R} (f : W -> W) : Go W R unit := fun w => (Next tt, f w).

Section Daemon.
Context (L : Deps) (sys : Faults).

(** *** System calls *)

Definition os_ReadFile (name : string) (w : fs) : knox.error + list byte :=
  match ReadFile_fails sys with
  | Some e => inl e
  | None =>
      match w !! name with
      | Some f => inr (data f)
      | None => inl (knox.mkError knox.NotExist ("open " +:+ name +:+ ": no such file or directory"))
      end
  end.

(** A file that is created takes [perm]; one that exists keeps its mode. *)
Definition os_WriteFile (name : string) (b : list byte) (perm : N) (w : fs) : option knox.error * fs :=
  let m := default perm (mode <$> w !! name) in
  match WriteFile_fails sys with
  | Some (OpenFails e) => (Some e, w)
  | Some (WriteFails s) => (Some (write_err s), <[name := mkFile (take (written s) b) m]> w)
  | None => (None, <[name := mkFile b m]> w)
  end.

(** [os.CreateTemp]: the name of the new, empty file.  The name is opened
    with O_EXCL, so a name that exists is never the one returned. *)
Definition os_CreateTemp (dir pattern : string) (w : fs) : (knox.error + string) * fs :=
  if contains "/"%char pattern then
    (inl (knox.Errorf "pattern contains path separator"), w)
  else
    match CreateTemp_random sys with
    | inl e => (inl e, w)
    | inr random =>
        let name := tempName dir pattern random in
        match w !! name with
        | Some _ => (inl (knox.Errorf ("open " +:+ name +:+ ": file exists")), w)
        | None => (inr name, <[name := mkFile [] 384 (* 0600 *)]> w)
        end
    end.

(** [f.Write(b)] on the file at [name] *)
Definition File_Write (name : string) (b : list byte) (w : fs) : option knox.error * fs :=
  let put bs := alter (fun f => mkFile (data f ++ bs) (mode f)) name w in
  match Write_fails sys with
  | Some s => (Some (write_err s), put (take (written s) b))
  | None => (None, put b)
  end.

Definition os_Remove (name : string) (w : fs) : fs := delete name w.

Definition os_Rename (oldpath newpath : string) (w : fs) : option knox.error * fs :=
  match Rename_fails sys with
  | Some e => (Some e, w)
  | None =>
      match w !! oldpath with
      | Some f => (None, <[newpath := f]> (delete oldpath w))
      | None =>
          (Some (knox.mkError knox.NotExist
                   ("rename " +:+ oldpath +:+ " " +:+ newpath +:+ ": no such file or directory")), w)
      end
  end.

Definition os_Chmod (name : string) (perm : N) (w : fs) : option knox.error * fs :=
  match Chmod_fails sys with
  | Some e => (Some e, w)
  | None =>
      match w !! name with
      | Some f => (None, <[name := mkFile (data f) perm]> w)
      | None =>
          (Some (knox.mkError knox.NotExist ("chmod " +:+ name +:+ ": no such file or directory")), w)
      end
  end.

(** *** KeysFile (daemon.go 380-467) *)

Definition KeysFile_Get (k : KeysFile) (w : fs) : knox.error + list string :=
  match os_ReadFile (fn k) w with
  | inl err => inl err
  | inr b => inr (strings_Fields L (String.string_of_list_byte b))
  end.

(** [oldKeys, err := k.Get()] and the [if err != nil] under it, as [Remove]
    and [Add] both have it: a file that does not exist holds no key. *)
Definition oldKeysOf (k : KeysFile) (w : fs) : knox.error + list string :=
  match KeysFile_Get k w with
  | inl err => if os_IsNotExist err then inr [] else inl err
  | inr oldKeys => inr oldKeys
  end.

(** [for k := range newKeys { buffer.WriteString(k); buffer.WriteByte('\n') }]
    Go leaves the order of the keys open; the model takes the one of
    [map_to_list]. *)
Definition writeKeys (newKeys : gmap string bool) : list byte :=
  foldl (fun buffer k => buffer ++ bytes k ++ [newline]) [] (map_to_list newKeys).*1.

(** The inner loop of [Remove], which breaks at the first match. *)
Fixpoint removeIt (oldK : string) (ks : list string) : bool :=
  match ks with
  | [] => false
  | k :: ks' => if bool_decide (k = oldK) then true else removeIt oldK ks'
  end.

Definition KeysFile_Remove (k : KeysFile) (ks : list string) (w : fs) : option knox.error * fs :=
  match oldKeysOf k w with
  | inl err => (Some err, w)
  | inr oldKeys =>
      let newKeys : gmap string bool :=
        foldl (fun newKeys oldK => if removeIt oldK ks then newKeys else <[oldK := true]> newKeys)
          ∅ oldKeys in
      os_WriteFile (fn k) (writeKeys newKeys) 438 w
  end.

Definition KeysFile_Add (k : KeysFile) (ks : list string) (w : fs) : option knox.error * fs :=
  match oldKeysOf k w with
  | inl err => (Some err, w)
  | inr oldKeys =>
      let newKeys : gmap string bool := foldl (fun newKeys k => <[k := true]> newKeys) ∅ oldKeys in
      let newKeys := foldl (fun newKeys k => <[k := true]> newKeys) newKeys ks in
      if bool_decide (size newKeys = length oldKeys) then (None, w)
      else os_WriteFile (fn k) (writeKeys newKeys) 438 w
  end.

Definition KeysFile_Overwrite (k : KeysFile) (ks : list string) (w : fs) : option knox.error * fs :=
  let newKeys : gmap string bool := foldl (fun newKeys k => <[k := true]> newKeys) ∅ ks in
  os_WriteFile (fn k) (writeKeys newKeys) 438 w.

Definition NewKeysFile (fn : string) : Keys :=
  let k := mkKeysFile fn in
  mkKeys (KeysFile_Get k) (KeysFile_Add k) (KeysFile_Overwrite k) (KeysFile_Remove k).

(** *** daemon (daemon.go 258-325) *)

Definition keyDir (d : daemon) : string := path_Join L [dir d; keysDir d].

Definition registerFilename (d : daemon) : string := path_Join L [dir d; registerFile d].

Definition keyFilename (d : daemon) (id : string) : string := path_Join L [dir d; keysDir d; id].

(** Lines 300-324 of [processKey]: write to a temporary file, move it to
    the name of the key file, close and remove on failures. *)
Definition replaceKeyFile (d : daemon) (keyID : string) (b : list byte)
    : Go fs (option knox.error) Empty_set :=
  r ← call (os_CreateTemp (dir d) (".*." +:+ keyID +:+ ".tmp"));
  tmpFile ← try r
    (fun err => knox.Errorf ("Error opening tmp file for key " +:+ keyID +:+ ": " +:+ knox.Error err));
  err ← call (File_Write tmpFile b);
  match err with
  | Some err =>
      (* tmpFile.Close() *)
      run (os_Remove tmpFile);;
      exit (Some (knox.Errorf ("Error writing key " +:+ keyID +:+ " to file: " +:+ knox.Error err)))
  | None => mret tt
  end;;
  (* Done writing: tmpFile.Close() *)
  err ← call (os_Rename tmpFile (keyFilename d keyID));
  match err with
  | Some err =>
      run (os_Remove tmpFile);;
      exit (Some (knox.Errorf ("Error renaming key " +:+ keyID +:+ " temporary file: "
                               +:+ knox.Error err)))
  | None => mret tt
  end;;
  err ← call (os_Chmod (keyFilename d keyID) defaultFilePermission);
  match err with
  | Some err =>
      exit (Some (knox.Errorf ("Failed to open up key file permissions: " +:+ knox.Error err)))
  | None => exit None
  end.

(** [processKey] (daemon.go 270-325) *)
Definition processKey (d : daemon) (keyID : string) : Go fs (option knox.error) Empty_set :=
  key ← match NetworkGetKey (cli d) keyID with
        | inl err =>
            (if bool_decide (knox.Error err = "User or machine not authorized")
                || bool_decide (knox.Error err = "Key identifer does not exist")
             then
               (* This removes keys that do not exist or the machine is
                  unauthorized to access *)
               run (fun w => (Remove (registerKeyFile d) [keyID] w).2)
             else mret tt);;
            exit (Some (knox.Errorf ("Error getting key " +:+ keyID +:+ ": " +:+ knox.Error err)))
        | inr key => mret key
        end;
  (* Do not cache any new keys if they have invalid content *)
  (if bool_decide (knox.key_ID key = EmptyString) || bool_decide (knox.key_ACL key = None)
      || bool_decide (knox.key_VersionList key = None)
      || bool_decide (knox.key_VersionHash key = EmptyString)
   then exit (Some (knox.Errorf "invalid key content returned"))
   else mret tt);;
  key ← (if String.prefix tinkPrefix keyID then
           keysetHandle ← try (getTinkKeysetHandleFromKnoxVersionList L (knox.key_VersionList key))
             (fun err => knox.Errorf ("Error fetching keyset handle for this tink key "
                                      +:+ keyID +:+ ": " +:+ knox.Error err));
           tinkKeyset ← try (convertTinkKeysetHandleToBytes L keysetHandle)
             (fun err => knox.Errorf ("Error converting tink keyset handle to bytes "
                                      +:+ keyID +:+ ": " +:+ knox.Error err));
           mret (knox.mkKey (knox.key_ID key) (knox.key_ACL key) (knox.key_VersionList key)
                   (knox.key_VersionHash key) (base64_StdEncoding_EncodeToString L tinkKeyset))
         else mret key);
  b ← try (json_Marshal L key)
        (fun err => knox.Errorf ("Error marshalling key " +:+ keyID +:+ ": " +:+ knox.Error err));
  replaceKeyFile d keyID b.

End Daemon.

(** ** update (daemon.go 165-256) *)

(** What [update] calls besides the files and [NetworkGetKey]: [Lock] and
    [Unlock] of the register file, which may touch the files, [os.ReadDir]
    and [os.Stat], and two more methods of [knox.APIClient], of which
    [CacheGetKey] reads the files. *)
Record Host : Type := mkHost {
  Lock : fs -> option knox.error * fs;
  Unlock : fs -> option knox.error * fs;
  os_ReadDir : string -> fs -> knox.error + list string;
  Stat_fails : option knox.error;
  CacheGetKey : string -> fs -> knox.error + knox.Key;
  GetKeys : gmap string string -> knox.error + list string }.

(** The calls of [update] that leave the process. *)
Inductive event : Type :=
| CallLock
| CallUnlock
| CallGetKeys (keyMap : gmap string string).

(** The state [update] works on: the files, the daemon [*d] behind the
    receiver, and the calls made so far. *)
Record process : Type := mkProcess {
  files : fs;
  this : daemon;
  calls : list event }.

(** [range] over [l] with the variables [s] the body assigns to. *)
Fixpoint range {W R A S} (l : list A) (s : S) (body : S -> A -> Go W R S) : Go W R S :=
  match l with
  | [] => mret s
  | x :: l' => s' ← body s x; range l' s' body
  end.

(** A call of a function with a body of its own: its [return] is the value
    of the call. *)
Definition invoke {W R A} (f : Go W A Empty_set) : Go W R A :=
  fun w =>
    match f w with
    | (Return a, w') => (Next a, w')
    | (Crash p, w') => (Crash p, w')
    | (Next nothing, _) => match nothing with end
    end.

(** A method of the daemon that works on the files. *)
Definition method {R A} (f : daemon -> Go fs R A) : Go process R A :=
  fun p => let '(s, w) := f (this p) (files p) in (s, mkProcess w (this p) (calls p)).

Definition record {R} (e : event) : Go process R unit :=
  fun p => (Next tt, mkProcess (files p) (this p) (calls p ++ [e])).

(** [d.getKeyErrCount++] on a [uint64] *)
Definition countGetKeyErr {R} : Go process R unit :=
  fun p =>
    let d := this p in
    (Next tt,
     mkProcess (files p)
       (mkDaemon (dir d) (registerFile d) (registerKeyFile d) (keysDir d) (cli d)
          (updateErrCount d) ((getKeyErrCount d + 1) mod 2 ^ 64)%N (successCount d))
       (calls p)).

Section Update.
Context (L : Deps) (sys : Faults) (H : Host).

Definition os_Stat (name : string) (w : fs) : option knox.error :=
  match Stat_fails H with
  | Some e => Some e
  | None =>
      match w !! name with
      | Some _ => None
      | None => Some (knox.mkError knox.NotExist ("stat " +:+ name +:+ ": no such file or directory"))
      end
  end.

(** [deleteKey] (daemon.go 242-244): [os.Remove] of the key file, whose
    error is the one for a file that is not there. *)
Definition deleteKey (d : daemon) (keyID : string) (w : fs) : option knox.error * fs :=
  let name := keyFilename L d keyID in
  match w !! name with
  | Some _ => (None, os_Remove name w)
  | None =>
      (Some (knox.mkError knox.NotExist ("remove " +:+ name +:+ ": no such file or directory")), w)
  end.

(** [currentRegisteredKeys] (daemon.go 246-256); [out] starts as nil. *)
Definition currentRegisteredKeys (d : daemon) (w : fs) : knox.error + slice string :=
  match os_ReadDir H (keyDir L d) w with
  | inl err => inl err
  | inr names => inr (foldl append None names)
  end.

(** The loop over [currentKeyIDs] (daemon.go 190-208): the version hash of
    a registered key that is cached goes to [keyMap]; the file of a key that
    is not registered, or that the cache cannot read, is deleted. *)
Definition cachedKeys (currentKeyIDs : slice string) (keyMap : gmap string string)
    : Go process (option knox.error) (gmap string string) :=
  range (elems currentKeyIDs) keyMap (fun keyMap keyID =>
    match keyMap !! keyID with
    | Some _ =>
        r ← method (fun d w => (Next (CacheGetKey H keyID w), w));
        match r with
        | inl _ =>
            (* Keep going in spite of failure *)
            err ← method (fun d w => (Next (os_Stat (keyFilename L d keyID) w), w));
            match err with
            | None => method (fun d => call (deleteKey d keyID));; mret keyMap
            | Some _ => mret keyMap
            end
        | inr key => mret (<[keyID := knox.key_VersionHash key]> keyMap)
        end
    | None => method (fun d => call (deleteKey d keyID));; mret keyMap
    end).

(** The loop over [updatedKeys] (daemon.go 216-225) *)
Definition processKeys (updatedKeys : list string) : Go process (option knox.error) unit :=
  range updatedKeys tt (fun _ k =>
    err ← method (fun d => invoke (processKey L sys d k));
    match err with
    | Some _ =>
        (* Keep going in spite of failure *)
        countGetKeyErr
    | None => mret tt
    end).

(** The body of [update] after the lock is taken.  The map [existingKeys]
    and the list [notFound] only feed the log and are left out. *)
Definition update_body : Go process (option knox.error) Empty_set :=
  r ← method (fun d w => (Next (Get (registerKeyFile d) w), w));
  keyIDs ← try r id;
  let keyMap : gmap string string :=
    foldl (fun keyMap k => <[k := EmptyString]> keyMap) ∅ keyIDs in
  r ← method (fun d w => (Next (currentRegisteredKeys d w), w));
  currentKeyIDs ← try r id;
  keyMap ← cachedKeys currentKeyIDs keyMap;
  (if bool_decide (0 < size keyMap) (* len(keyMap) > 0 *) then
     record (CallGetKeys keyMap);;
     updatedKeys ← try (GetKeys H keyMap) id;
     processKeys updatedKeys
   else mret tt);;
  exit None.

(** [d.registerKeyFile.Lock()] and [d.registerKeyFile.Unlock()] *)
Definition Keys_Lock {R} : Go process R (option knox.error) :=
  record CallLock;; method (fun _ => call (Lock H)).

Definition Keys_Unlock {R} : Go process R (option knox.error) :=
  record CallUnlock;; method (fun _ => call (Unlock H)).

(** [update]: the lock, and [defer d.registerKeyFile.Unlock()] around the
    body once the lock is held.  The deferred call runs when the body
    returns or panics, and its result is dropped. *)
Definition update : Go process (option knox.error) Empty_set :=
  err ← Keys_Lock;
  match err with
  | Some err => exit (Some err)
  | None => fun p => let '(s, p') := update_body p in (s, (Keys_Unlock (R := unit) p').2)
  end.

End Update.

End client.

(** ** Models of the Go standard library

    The embedding above takes the functions of the standard library as
    parameters.  The models here instantiate them where a statement is
    evaluated on concrete requests and files. *)

Module gostd.
Import golang.

(** *** encoding/base64: [DecodeString] *)

Record Encoding : Type := mkEncoding {
  decodeMap : byte -> option N;      (* the value of a character of the alphabet *)
  padChar : option byte }.           (* None is NoPadding *)

Definition between (lo hi n : N) : bool := (lo <=? n)%N && (n <=? hi)%N.

Definition alphabet (c62 c63 : byte) (c : byte) : option N :=
  let n := Byte.to_N c in
  if between 65 90 n then Some (n - 65)%N            (* A-Z *)
  else if between 97 122 n then Some (n - 71)%N      (* a-z *)
  else if between 48 57 n then Some (n + 4)%N        (* 0-9 *)
  else if bool_decide (c = c62) then Some 62%N
  else if bool_decide (c = c63) then Some 63%N
  else None.

Definition StdEncoding : Encoding := mkEncoding (alphabet "+" "/") (Some "="%byte).
Definition RawURLEncoding : Encoding := mkEncoding (alphabet "-" "_") None.

Definition CorruptInputError (at_ : N) : knox.error :=
  knox.Errorf ("illegal base64 data at input byte " +:+ pretty at_).

Definition isNewline (c : byte) : bool :=
  bool_decide (c = "010"%byte) || bool_decide (c = "013"%byte).

(** The bytes of a quantum of [dlen] characters: [dlen - 1] of them. *)
Definition quantumBytes (dbuf : list N) : list byte :=
  let d (i : nat) := default 0%N (dbuf !! i) in
  let val := (N.shiftl (d 0%nat) 18 + N.shiftl (d 1%nat) 12 + N.shiftl (d 2%nat) 6 + d 3%nat)%N in
  let b k := default "000"%byte (Byte.of_N (N.land (N.shiftr val k) 255)) in
  take (length dbuf - 1) [b 16%N; b 8%N; b 0%N].

Fixpoint skipNewlines (src : list byte) (si : N) : list byte * N :=
  match src with
  | c :: rest => if isNewline c then skipNewlines rest (si + 1)%N else (src, si)
  | [] => ([], si)
  end.

(** [Decode] from input byte [si] on, with the characters [dbuf] of the
    current quantum read and [out] decoded; [len] is the length of the whole
    input. *)
Fixpoint decodeFrom (enc : Encoding) (len : N) (src : list byte) (si : N)
    (dbuf : list N) (out : list byte) : knox.error + list byte :=
  let j := N.of_nat (length dbuf) in
  match src with
  | [] =>
      if bool_decide (j = 0%N) then inr out
      else if bool_decide (j = 1%N) || bool_decide (padChar enc ≠ None)
      then inl (CorruptInputError (si - j))
      else inr (out ++ quantumBytes dbuf)
  | c :: rest =>
      match decodeMap enc c with
      | Some v =>
          if bool_decide (j = 3%N)
          then decodeFrom enc len rest (si + 1)%N [] (out ++ quantumBytes (dbuf ++ [v]))
          else decodeFrom enc len rest (si + 1)%N (dbuf ++ [v]) out
      | None =>
          if isNewline c then decodeFrom enc len rest (si + 1)%N dbuf out
          else if bool_decide (padChar enc = Some c) then
            (* the end, with padding *)
            if bool_decide (j = 0%N) || bool_decide (j = 1%N) then inl (CorruptInputError si)
            else
              let after_first :=
                if bool_decide (j = 2%N) then
                  let '(rest1, si1) := skipNewlines rest (si + 1)%N in
                  match rest1 with
                  | [] => inl (CorruptInputError len)
                  | c1 :: rest2 =>
                      if bool_decide (padChar enc = Some c1) then inr (rest2, (si1 + 1)%N)
                      else inl (CorruptInputError (si1 - 1))
                  end
                else inr (rest, (si + 1)%N) in
              match after_first with
              | inl e => inl e
              | inr (rest3, si3) =>
                  let '(rest4, si4) := skipNewlines rest3 si3 in
                  match rest4 with
                  | [] => inr (out ++ quantumBytes dbuf)
                  | _ :: _ => inl (CorruptInputError si4)   (* trailing garbage *)
                  end
              end
          else inl (CorruptInputError si)
      end
  end.

(** The slice [DecodeString] returns is made with [make]: it is never nil. *)
Definition DecodeString (enc : Encoding) (s : string) : knox.error + slice byte :=
  let src := bytes s in
  match decodeFrom enc (N.of_nat (length src)) src 0 [] [] with
  | inl e => inl e
  | inr out => inr (Some out)
  end.

(** *** strings.Fields, on strings of ASCII characters *)

Definition asciiSpace (c : ascii) : bool :=
  let n := nat_of_ascii c in
  bool_decide (n = 9) || bool_decide (n = 10) || bool_decide (n = 11)
  || bool_decide (n = 12) || bool_decide (n = 13) || bool_decide (n = 32).

(** [cur] is the field being read. *)
Fixpoint FieldsFrom (cur : string) (s : string) : list string :=
  match s with
  | EmptyString => if bool_decide (cur = EmptyString) then [] else [cur]
  | String c s' =>
      if asciiSpace c then
        if bool_decide (cur = EmptyString) then FieldsFrom EmptyString s'
        else cur :: FieldsFrom EmptyString s'
      else FieldsFrom (cur +:+ String c EmptyString) s'
  end.

Definition Fields (s : string) : list string := FieldsFrom EmptyString s.

(** No character of [s] is a space. *)
Fixpoint spaceless (s : string) : bool :=
  match s with
  | EmptyString => true
  | String c s' => negb (asciiSpace c) && spaceless s'
  end.

(** *** path.Join, for elements without dot components

    The elements that are not empty are joined with a slash; a run of
    slashes becomes one and a slash that ends the path is dropped. *)

Fixpoint squeeze (after_slash : bool) (s : string) : string :=
  match s with
  | EmptyString => EmptyString
  | String c s' =>
      if Ascii.eqb c "/" then
        if after_slash then squeeze true s'
        else match squeeze true s' with
             | EmptyString => EmptyString
             | t => String c t
             end
      else String c (squeeze false s')
  end.

Definition Join (elem : list string) : string :=
  let joined := foldl (fun acc e =>
                  if bool_decide (e = EmptyString) then acc
                  else if bool_decide (acc = EmptyString) then e
                  else acc +:+ "/" +:+ e) EmptyString elem in
  match joined with
  | String c s' => if Ascii.eqb c "/" then String c (squeeze true s') else squeeze false joined
  | EmptyString => EmptyString
  end.

(** *** url.ParseQuery, for queries without percent escapes, plus signs and
    semicolons

    The query is cut at every ampersand, each piece that is not empty at its
    first equals sign; the values of a name are kept in the order they
    come. *)

Fixpoint cut (sep : ascii) (s : string) : string * option string :=
  match s with
  | EmptyString => (EmptyString, None)
  | String c s' =>
      if Ascii.eqb c sep then (EmptyString, Some s')
      else let '(before, after) := cut sep s' in (String c before, after)
  end.

Fixpoint pieces (fuel : nat) (query : string) : list string :=
  match fuel with
  | O => []
  | S fuel' =>
      match cut "&" query with
      | (key, Some rest) => key :: pieces fuel' rest
      | (key, None) => [key]
      end
  end.

Definition ParseQuery (query : string) : gmap string (list string) :=
  foldl (fun m piece =>
           if bool_decide (piece = EmptyString) then m
           else
             let '(key, value) := cut "=" piece in
             <[key := default [] (m !! key) ++ [default EmptyString value]]> m)
        ∅ (pieces (S (String.length query)) query).

End gostd.

(** ** A small deployment, for the examples

    An in-memory key manager, three principals and the two policies for the
    access callback, and a daemon with its files. *)

Module demo.
Import golang.

(** A string between double quotes, the way JSON writes it. *)
Definition quoted (s : string) : string :=
  String (ascii_of_nat 34) (s +:+ String (ascii_of_nat 34) EmptyString).

Definition Err (s : knox.sentinel) (text : string) : knox.error := knox.mkError (knox.Var s) text.
Definition ErrKeyIDNotFound := Err knox.KeyIDNotFound "KeyID not found".
Definition ErrKeyVersionNotFound := Err knox.KeyVersionNotFound "Key version not found".
Definition ErrKeyExists := Err knox.KeyExists "Key Exists".
Definition ErrPrimaryToActive := Err knox.PrimaryToActive "Primary Key can only be demoted by promoting another key".
Definition ErrPrimaryToInactive := Err knox.PrimaryToInactive "Version must be Active to demote to Inactive".
Definition ErrInactiveToPrimary := Err knox.InactiveToPrimary "Version must be Active to promote to Primary".

(** *** Principals: a rule grants what its access type reaches *)

Definition level (a : knox.AccessType) : nat :=
  match a with knox.None => 0 | knox.Read => 1 | knox.Write => 2 | knox.Admin => 3 end.

Definition grants (id : string) (acl : knox.ACL) (wanted : knox.AccessType) : bool :=
  existsb (fun rule => bool_decide (knox.acc_ID rule = id)
                       && bool_decide (level wanted <= level (knox.acc_AccessType rule)))
          (elems acl).

Definition user (id : string) : knox.Principal :=
  knox.mkPrincipal id "user" (grants id) [knox.mkRawPrincipal id "user"].

Definition alice : knox.Principal := user "alice".
Definition mallory : knox.Principal := user "mallory".
Definition host : knox.Principal :=
  knox.mkPrincipal "web01" "machine" (grants "web01") [knox.mkRawPrincipal "web01" "machine"].

(** *** The key manager: a map from key ID to key *)

Abbreviation store := (gmap string knox.Key).

Definition transition (from to : knox.VersionStatus) : option knox.error :=
  match from, to with
  | knox.Primary, knox.Active => Some ErrPrimaryToActive
  | knox.Primary, knox.Inactive => Some ErrPrimaryToInactive
  | knox.Inactive, knox.Primary => Some ErrInactiveToPrimary
  | _, _ => None
  end.

Definition setStatus (id : N) (to : knox.VersionStatus) (v : knox.KeyVersion) : knox.KeyVersion :=
  if bool_decide (knox.kv_ID v = id)
  then knox.mkKeyVersion (knox.kv_ID v) (knox.kv_Data v) to (knox.kv_CreationTime v)
  else match to, knox.kv_Status v with
       | knox.Primary, knox.Primary =>
           knox.mkKeyVersion (knox.kv_ID v) (knox.kv_Data v) knox.Active (knox.kv_CreationTime v)
       | _, _ => v
       end.

Definition withVersions (key : knox.Key) (vs : list knox.KeyVersion) : knox.Key :=
  knox.mkKey (knox.key_ID key) (knox.key_ACL key) (Some vs) (knox.key_VersionHash key)
    (knox.key_TinkKeyset key).

Definition memory : server.KeyManager store :=
  server.mkKeyManager store
    (fun w => (inr (map_to_list w).*1, w))
    (fun keyM w =>
       (inr (filter (fun id => knox.key_VersionHash <$> w !! id ≠ keyM !! id) (map_to_list keyM).*1), w))
    (fun id _ w =>
       match w !! id with
       | Some key => (inr key, w)
       | None => (inl ErrKeyIDNotFound, w)
       end)
    (fun key w =>
       match w !! knox.key_ID key with
       | Some _ => ((key, Some ErrKeyExists), w)
       | None => ((key, None), <[knox.key_ID key := key]> w)
       end)
    (fun id w => (None, delete id w))
    (fun id acl w =>
       (None, alter (fun key => knox.mkKey (knox.key_ID key) acl (knox.key_VersionList key)
                                  (knox.key_VersionHash key) (knox.key_TinkKeyset key)) id w))
    (fun id version w =>
       ((version, None), alter (fun key => withVersions key (version :: elems (knox.key_VersionList key))) id w))
    (fun id versionID status w =>
       match w !! id with
       | None => (Some ErrKeyIDNotFound, w)
       | Some key =>
           let vs := elems (knox.key_VersionList key) in
           match find (fun v => bool_decide (knox.kv_ID v = versionID)) vs with
           | None => (Some ErrKeyVersionNotFound, w)
           | Some v =>
               match transition (knox.kv_Status v) status with
               | Some e => (Some e, w)
               | None => (None, <[id := withVersions key (setStatus versionID status <$> vs)]> w)
               end
           end
       end).

(** *** What the handlers take from elsewhere *)

Definition admin (id : string) : knox.Access := knox.mkAccess knox.User id knox.Admin.

(** The JSON of the rule that lets bob read. *)
Definition bobReadsJSON : string :=
  "{" +:+ quoted "type" +:+ ":" +:+ quoted "User" +:+ "," +:+ quoted "id" +:+ ":" +:+ quoted "bob"
  +:+ "," +:+ quoted "access" +:+ ":" +:+ quoted "Read" +:+ "}".

Definition bobReads : knox.Access := knox.mkAccess knox.User "bob" knox.Read.

Definition syntaxError : knox.error := knox.Errorf "invalid character looking for beginning of value".

(** [json.Unmarshal] on the texts the examples send. *)
Definition unmarshalACL (b : list byte) : knox.error + knox.ACL :=
  if bool_decide (b = bytes "[]") then inr (Some [])
  else if bool_decide (b = bytes ("[" +:+ bobReadsJSON +:+ "]")) then inr (Some [bobReads])
  else inl syntaxError.

Definition unmarshalAccess (b : list byte) (access : knox.Access) : knox.Access * option knox.error :=
  if bool_decide (b = bytes bobReadsJSON) then (bobReads, None) else (access, Some syntaxError).

Definition unmarshalStatus (b : list byte) : knox.error + knox.VersionStatus :=
  if bool_decide (b = bytes (quoted "Primary")) then inr knox.Primary
  else if bool_decide (b = bytes (quoted "Active")) then inr knox.Active
  else if bool_decide (b = bytes (quoted "Inactive")) then inr knox.Inactive
  else inl (knox.Errorf "json: Invalid VersionStatus to convert").

(** [strconv.ParseUint(s, 10, 64)] *)
Fixpoint digits (acc : N) (s : string) : option N :=
  match s with
  | EmptyString => Some acc
  | String c s' =>
      let n := N.of_nat (nat_of_ascii c) in
      if gostd.between 48 57 n then digits (acc * 10 + (n - 48))%N s' else None
  end.

Definition ParseUint (s : string) : knox.error + N :=
  match s with
  | EmptyString => inl (knox.Errorf "strconv.ParseUint: parsing : invalid syntax")
  | _ =>
      match digits 0 s with
      | Some n =>
          if (n <? 2 ^ 64)%N then inr n
          else inl (knox.Errorf ("strconv.ParseUint: parsing " +:+ s +:+ ": value out of range"))
      | None => inl (knox.Errorf ("strconv.ParseUint: parsing " +:+ s +:+ ": invalid syntax"))
      end
  end.

(** The first version of a key of the store gets the next free number. *)
Definition newKey (id : string) (acl : knox.ACL) (d : slice byte) (creator : knox.Principal)
    (w : store) : knox.Key * store :=
  let v := knox.mkKeyVersion (N.of_nat (size w) + 1) (elems d) knox.Primary 0 in
  let acl' := if grants (knox.GetID creator) acl knox.Admin then acl
              else append acl (admin (knox.GetID creator)) in
  (knox.mkKey id acl' (Some [v]) ("h" +:+ pretty (knox.kv_ID v)) EmptyString, w).

Definition newKeyVersion (d : slice byte) (status : knox.VersionStatus) (w : store)
    : knox.KeyVersion * store :=
  (knox.mkKeyVersion (N.of_nat (size w) + 100) (elems d) status 0, w).

Definition validPrincipal (t : knox.PrincipalType) (id : string) : option knox.error :=
  if bool_decide (id = EmptyString) then Some (knox.Errorf "Invalid principal identifier") else None.

Definition deps (callback : option (knox.AccessCallbackInput -> outcome (bool * option knox.error)))
    : server.Deps store :=
  server.mkDeps store gostd.ParseQuery unmarshalACL unmarshalAccess
    (gostd.DecodeString gostd.StdEncoding) (gostd.DecodeString gostd.RawURLEncoding)
    unmarshalStatus ParseUint
    (fun p => bool_decide (knox.Type_ p = "user"))
    newKey newKeyVersion validPrincipal (knox.mkAccess knox.User EmptyString knox.None) callback.

(** A callback that dereferences a nil pointer. *)
Definition crashing (input : knox.AccessCallbackInput) : outcome (bool * option knox.error) :=
  Panics "runtime error: invalid memory address or nil pointer dereference".

(** The key of the scenarios of the specification: alice is its admin. *)
Definition password : knox.Key :=
  knox.mkKey "svc.db.password" (Some [admin "alice"])
    (Some [knox.mkKeyVersion 1 (bytes "hunter2") knox.Primary 0;
           knox.mkKeyVersion 2 (bytes "hunter3") knox.Active 0])
    "h1" EmptyString.

Definition keys : store := {[ "svc.db.password" := password ]}.

(** *** The daemon and its files *)

(** A stand-in for [json.Marshal]: the two fields the examples look at. *)
Definition marshal (key : knox.Key) : knox.error + list byte :=
  inr (bytes ("{" +:+ quoted "id" +:+ ":" +:+ quoted (knox.key_ID key) +:+ ","
              +:+ quoted "hash" +:+ ":" +:+ quoted (knox.key_VersionHash key) +:+ "}")).

(** The examples have no tink key: the two steps of that path are
    stand-ins. *)
Definition library : client.Deps :=
  client.mkDeps gostd.Join gostd.Fields marshal String.string_of_list_byte
    (list byte) (fun vs => inr (concat (knox.kv_Data <$> elems vs))) (fun h => inr h).

(** The server of the examples: one key to fetch, one that is gone, one that
    this machine may not read, and no answer for the others. *)
Definition api : client.APIClient :=
  client.mkAPIClient (fun keyID =>
    if bool_decide (keyID = "svc.db.password") then inr password
    else if bool_decide (keyID = "gone") then inl (knox.Errorf "Key identifer does not exist")
    else if bool_decide (keyID = "secret") then inl (knox.Errorf "User or machine not authorized")
    else inl (knox.Errorf "dial tcp: connection refused")).

(** No system call fails; the temporary file gets [random] in its name. *)
Definition healthy (random : string) : client.Faults :=
  client.mkFaults None None (inr random) None None None.

(** The disk is full after three bytes of the temporary file. *)
Definition diskFull (random : string) : client.Faults :=
  client.mkFaults None None (inr random)
    (Some (client.mkShortWrite 3 (knox.Errorf "write: no space left on device"))) None None.

Definition registerPath : string := "/var/lib/knox/.registered".

Definition knoxd (sys : client.Faults) : client.daemon :=
  client.mkDaemon "/var/lib/knox" "/.registered" (client.NewKeysFile library sys registerPath)
    "/v0/keys/" api 0 0 0.

(** A line of a file. *)
Definition line (s : string) : list byte := bytes s ++ [client.newline].

Definition registerOf (content : list byte) : gmap string client.file :=
  {[ registerPath := client.mkFile content 438 ]}.

(** *** The requests and the files of the examples *)

(** The text of the panic of [crashing]. *)
Definition nilDereference : string :=
  "runtime error: invalid memory address or nil pointer dereference".

(** The requests of the examples. *)
Definition readPassword : gmap string string := {[ "keyID" := "svc.db.password" ]}.

Definition demotePrimary : gmap string string :=
  {[ "keyID" := "svc.db.password"; "versionID" := "1"; "status" := quoted "Active" ]}.

Definition accessAndAcl : gmap string string :=
  {[ "keyID" := "svc.db.password"; "access" := bobReadsJSON; "acl" := "[]" ]}.

Definition emptyData : gmap string string := {[ "id" := "k"; "data" := EmptyString ]}.

(** The files of the daemon: two registered IDs and the key file of the
    first, as an earlier run left it. *)
Definition keyPath : string := "/var/lib/knox/v0/keys/svc.db.password".

Definition disk : gmap string client.file :=
  <[ keyPath := client.mkFile (bytes "previous") 438 ]>
    (registerOf (line "svc.db.password" ++ line "gone")).

Definition passwordJSON : list byte :=
  match marshal password with inr b => b | inl _ => [] end.

(** A file system on which no call fails, and one whose disk is full. *)
Definition works : client.Faults := healthy "1".
Definition full : client.Faults := diskFull "1".

(** A register file that holds the ID [a] on two lines. *)
Definition twice : gmap string client.file := registerOf (line "a" ++ line "a").


(** *** More of the daemon: other servers, other faults, and a host *)

(** A key without a version list, which [processKey] does not accept. *)
Definition unversioned : knox.Key :=
  knox.mkKey "svc.db.password" (Some [admin "alice"]) None "h1" EmptyString.

(** A server that answers every ID with [key]. *)
Definition answering (key : knox.Key) : client.APIClient :=
  client.mkAPIClient (fun _ => inr key).

Definition knoxdOf (cli : client.APIClient) (sys : client.Faults) : client.daemon :=
  client.mkDaemon "/var/lib/knox" "/.registered" (client.NewKeysFile library sys registerPath)
    "/v0/keys/" cli 0 0 0.

(** [os.Chmod] is not permitted. *)
Definition chmodDenied : client.Faults :=
  client.mkFaults None None (inr "1") None None
    (Some (knox.Errorf "chmod: operation not permitted")).

(** The rest of [s] behind [prefix]. *)
Fixpoint behind (prefix s : string) : option string :=
  match prefix, s with
  | EmptyString, _ => Some s
  | String a prefix', String b s' => if Ascii.eqb a b then behind prefix' s' else None
  | String _ _, EmptyString => None
  end.

(** The names of the files of a directory. *)
Definition listing (dir : string) (w : gmap string client.file) : knox.error + list string :=
  inr (omap (behind (dir +:+ "/")) (map_to_list w).*1).

(** The key cache: it reads the key file, and knows the JSON of the
    password. *)
Definition cache (keyID : string) (w : gmap string client.file) : knox.error + knox.Key :=
  match w !! ("/var/lib/knox/v0/keys/" +:+ keyID) with
  | Some f => if bool_decide (client.data f = passwordJSON) then inr password else inl syntaxError
  | None => inl (knox.mkError knox.NotExist "open: no such file or directory")
  end.

(** A host whose lock is free and leaves the files alone, with the answer
    of the server to [GetKeys]. *)
Definition machine (answer : gmap string string -> knox.error + list string) : client.Host :=
  client.mkHost (fun w => (None, w)) (fun w => (None, w)) listing None cache answer.

Definition unreachable (keyMap : gmap string string) : knox.error + list string :=
  inl (knox.Errorf "dial tcp: connection refused").

(** The server reports the two keys it will not give. *)
Definition refusing (keyMap : gmap string string) : knox.error + list string :=
  inr ["gone"; "secret"].

(** The files of the daemon with the key file of an ID that is no longer
    registered. *)
Definition oldPath : string := "/var/lib/knox/v0/keys/old".

Definition stale : gmap string client.file :=
  <[ oldPath := client.mkFile (bytes "previous") 438 ]> disk.

End demo.

(** ** Vocabulary of the statements *)

Module wording.
Import golang server.

(** The ACL of [key] denies [access] to [principal], a callback is
    installed, and it panics with [r] on this request. *)
Definition callbackPanics {W} (D : Deps W) (key : knox.Key) (principal : knox.Principal)
    (access : knox.AccessType) (r : panic_value) : Prop :=
  knox.CanAccess principal (knox.key_ACL key) access = false
  /\ exists callback,
       accessCallback D = Some callback
       /\ callback (knox.mkAccessCallbackInput key (knox.Raw principal) access) = Panics r.

(** The error [authorizeRequest] makes of a recovered panic. *)
Definition recovered (r : panic_value) : knox.error :=
  knox.Errorf ("Recovered from panic in access callback: " +:+ r).

(** The reply of a handler to an error of [authorizeRequest]. *)
Definition internalServerError (e : knox.error) : reply :=
  (Nil, errF knox.InternalServerErrorCode (knox.Error e)).

(** [status] is what [getKeyHandler] reads from the parameter of that name:
    Active when the parameter is missing. *)
Definition statusParameter {W} (D : Deps W) (parameters : gmap string string)
    (status : knox.VersionStatus) : Prop :=
  match parameters !! "status" with
  | Some statusStr => VersionStatus_UnmarshalJSON D (bytes statusStr) = inr status
  | None => status = knox.Active
  end.

(** The parameter [data] is there, is not empty and decodes to [decodedData],
    which is not nil. *)
Definition dataParameter {W} (D : Deps W) (parameters : gmap string string)
    (decodedData : slice byte) : Prop :=
  exists dataStr,
    parameters !! "data" = Some dataStr /\ dataStr <> EmptyString
    /\ base64_StdEncoding_DecodeString D dataStr = inr decodedData
    /\ decodedData <> None.

(** The parameters [status] and [versionID] of [putVersionsHandler] are
    there and are read as [status] and [id]. *)
Definition versionParameters {W} (D : Deps W) (parameters : gmap string string)
    (status : knox.VersionStatus) (id : N) : Prop :=
  (exists statusStr,
     parameters !! "status" = Some statusStr
     /\ VersionStatus_UnmarshalJSON D (bytes statusStr) = inr status)
  /\ strconv_ParseUint D (index parameters "versionID") = inr id.

(** The reply of [getKeysHandler] to what the key manager lists. *)
Definition keyIDsReply (r : knox.error + list string) : reply :=
  match r with
  | inr keys => (KeyIDs keys, None)
  | inl err => (Nil, errF knox.InternalServerErrorCode (knox.Error err))
  end.

(** *** The daemon *)

(** The IDs [ids], one per line, each line ended by a newline. *)
Definition lines (ids : list string) : list byte :=
  concat ((fun id => bytes id ++ [client.newline]) <$> ids).

(** The list of the register file at [fn]: the fields of its content, and
    no ID when the file is not there. *)
Definition registered (L : client.Deps) (fn : string) (w : gmap string client.file) : list string :=
  match w !! fn with
  | Some f => client.strings_Fields L (String.string_of_list_byte (client.data f))
  | None => []
  end.

(** What [strings.Fields] does with a file that holds, one per line, fields
    it found before: it finds them again. *)
Definition rereadsFields (L : client.Deps) : Prop :=
  forall (s : string) (ids : list string),
    ids ⊆ client.strings_Fields L s ->
    client.strings_Fields L (String.string_of_list_byte (lines ids)) = ids.

(** The two answers of the server after which the daemon forgets a key. *)
Definition refused (err : knox.error) : Prop :=
  knox.Error err = "User or machine not authorized"
  \/ knox.Error err = "Key identifer does not exist".

(** The content [processKey] accepts in a key. *)
Definition validKey (key : knox.Key) : Prop :=
  knox.key_ID key <> EmptyString /\ knox.key_ACL key <> None
  /\ knox.key_VersionList key <> None /\ knox.key_VersionHash key <> EmptyString.

(** [b] is the JSON [processKey] writes for [key]: the key itself, with its
    tink keyset when the ID has the tink prefix. *)
Definition serialized (L : client.Deps) (keyID : string) (key : knox.Key) (b : list byte) : Prop :=
  if String.prefix client.tinkPrefix keyID then
    exists keysetHandle tinkKeyset,
      client.getTinkKeysetHandleFromKnoxVersionList L (knox.key_VersionList key) = inr keysetHandle
      /\ client.convertTinkKeysetHandleToBytes L keysetHandle = inr tinkKeyset
      /\ client.json_Marshal L
           (knox.mkKey (knox.key_ID key) (knox.key_ACL key) (knox.key_VersionList key)
              (knox.key_VersionHash key) (client.base64_StdEncoding_EncodeToString L tinkKeyset))
         = inr b
  else client.json_Marshal L key = inr b.

(** The server answers with a key that [processKey] accepts and writes as
    [b]. *)
Definition fetched (L : client.Deps) (d : client.daemon) (keyID : string) (b : list byte) : Prop :=
  exists key,
    client.NetworkGetKey (client.cli d) keyID = inr key
    /\ validKey key /\ serialized L keyID key b.


(** *** Replies of the handlers *)

(** The reply to a key that [GetKey] does not return. *)
Definition lookupFailure (keyID : string) (getErr : knox.error) : reply :=
  if knox.is_var getErr knox.KeyIDNotFound
  then (Nil, errF knox.KeyIdentifierDoesNotExistCode ("No such key " +:+ keyID))
  else (Nil, errF knox.InternalServerErrorCode (knox.Error getErr)).

(** The reply to a request that [authorizeRequest] does not let through:
    the error, when there is one, and the refusal otherwise. *)
Definition notAuthorized (principal : knox.Principal) (what keyID : string)
    (authzErr : option knox.error) : reply :=
  match authzErr with
  | Some e => internalServerError e
  | None =>
      (Nil, errF knox.UnauthorizedCode
              ("Principal " +:+ knox.GetID principal +:+ " not authorized to " +:+ what +:+ " "
               +:+ keyID))
  end.

(** The request the callback is asked about. *)
Definition callbackInput (key : knox.Key) (principal : knox.Principal)
    (access : knox.AccessType) : knox.AccessCallbackInput :=
  knox.mkAccessCallbackInput key (knox.Raw principal) access.

(** The rule passes the check of [putAccessHandler]: it removes an entry, or
    its principal is valid. *)
Definition acceptable {W} (D : Deps W) (rule : knox.Access) : Prop :=
  knox.acc_AccessType rule <> knox.None ->
  IsValidPrincipal D (knox.acc_Type rule) (knox.acc_ID rule) = None.

(** The parameters of [postKeysHandler] are read as [keyID], [acl] and
    [decodedData]: [id] and [data] are there, [data] is not empty and
    decodes, and [acl], when it is there, is JSON. *)
Definition createParameters {W} (D : Deps W) (parameters : gmap string string)
    (keyID : string) (acl : knox.ACL) (decodedData : slice byte) : Prop :=
  parameters !! "id" = Some keyID
  /\ (exists data,
        parameters !! "data" = Some data /\ data <> EmptyString
        /\ base64_StdEncoding_DecodeString D data = inr decodedData)
  /\ match parameters !! "acl" with
     | Some aclStr => json_Unmarshal_ACL D (bytes aclStr) = inr acl
     | None => acl = Some []
     end.

(** *** More on the register file *)

(** [id] is a field of some text. *)
Definition isField (L : client.Deps) (id : string) : Prop :=
  exists s, id ∈ client.strings_Fields L s.

(** What [strings.Fields] does with fields written one per line: it finds
    them again, in their order. *)
Definition rereadsLines (L : client.Deps) : Prop :=
  forall ids : list string,
    Forall (isField L) ids ->
    client.strings_Fields L (String.string_of_list_byte (lines ids)) = ids.


(** The process after the call of [Lock], and after the call of [Unlock]. *)
Definition locked (H : client.Host) (p : client.process) : client.process :=
  client.mkProcess (client.Lock H (client.files p)).2 (client.this p)
    (client.calls p ++ [client.CallLock]).

Definition unlocked (H : client.Host) (p : client.process) : client.process :=
  client.mkProcess (client.Unlock H (client.files p)).2 (client.this p)
    (client.calls p ++ [client.CallUnlock]).

(** The daemon [d] after [n] more errors of [processKey]. *)
Definition counted (d : client.daemon) (n : N) : client.daemon :=
  client.mkDaemon (client.dir d) (client.registerFile d) (client.registerKeyFile d)
    (client.keysDir d) (client.cli d) (client.updateErrCount d)
    ((client.getKeyErrCount d + n) mod 2 ^ 64)%N (client.successCount d).

End wording.

(** * Properties *)

#[local] Set Warnings "-clear-no-such-hyp".

(** Running a sequence of statements. *)
Lemma bind_run {W R A B} (f : A -> golang.Go W R B) (c : golang.Go W R A) (w : W) :
  (c ≫= f) w = match c w with
               | (golang.Next a, w') => f a w'
               | (golang.Return r, w') => (golang.Return r, w')
               | (golang.Crash p, w') => (golang.Crash p, w')
               end.
Proof. reflexivity. Qed.

(** ** The handlers of the server *)

Section ServerProperties.
Import golang server wording.
Context {W : Type} (D : Deps W).
Implicit Types (m : KeyManager W) (principal : knox.Principal) (key : knox.Key).
Implicit Types (parameters : gmap string string) (w : W).

(** *** authorizeRequest *)

Lemma authorizeRequest_panic key principal access r :
  callbackPanics D key principal access r ->
  authorizeRequest D key principal access = (false, Some (recovered r)).
Proof.
  intros [Hdeny (callback & Hcb & Hpanic)].
  unfold authorizeRequest, authorizeRequest_body. cbn [allow err].
  rewrite Hdeny, Hcb, Hpanic. reflexivity.
Qed.

Lemma authorize_panic key principal access what keyID r w :
  callbackPanics D key principal access r ->
  authorize D key principal access what keyID w = (Return (internalServerError (recovered r)), w).
Proof.
  intros H. unfold authorize. rewrite (authorizeRequest_panic _ _ _ _ H). reflexivity.
Qed.

Lemma authorize_granted key principal access what keyID w :
  authorizeRequest D key principal access = (true, None) ->
  authorize D key principal access what keyID w = (Next tt, w).
Proof. intros H. unfold authorize. rewrite H. reflexivity. Qed.

Lemma fetchKey_found m keyID status key w w' :
  GetKey m keyID status w = (inr key, w') ->
  fetchKey m keyID status w = (Next key, w').
Proof. intros H. unfold fetchKey. rewrite bind_run. unfold call. rewrite H. reflexivity. Qed.

Ltac fetch_and_panic Hget Hpanic :=
  rewrite bind_run, (fetchKey_found _ _ _ _ _ _ Hget);
  rewrite bind_run, (authorize_panic _ _ _ _ _ _ _ Hpanic); reflexivity.

(** C1. When the ACL denies and the installed access callback panics,
    [authorizeRequest] catches the panic: it returns [allow = false] with an
    error that is not nil.  Each of the five handlers that call
    [authorizeRequest], once it has found the key, then returns the
    InternalServerError reply; none of them panics. *)
Theorem callback_panic_is_internal_server_error key principal access r :
  callbackPanics D key principal access r ->
  authorizeRequest D key principal access = (false, Some (recovered r))
  /\ (forall m parameters status w w',
        access = knox.Read ->
        statusParameter D parameters status ->
        GetKey m (index parameters "keyID") status w = (inr key, w') ->
        getKeyHandler D m principal parameters w
        = (Return (internalServerError (recovered r)), w'))
  /\ (forall m parameters w w',
        access = knox.Admin ->
        GetKey m (index parameters "keyID") knox.Primary w = (inr key, w') ->
        deleteKeyHandler D m principal parameters w
        = (Return (internalServerError (recovered r)), w'))
  /\ (forall m parameters acl w w',
        access = knox.Admin ->
        requestedRules D parameters w = (Next acl, w) ->
        GetKey m (index parameters "keyID") knox.Primary w = (inr key, w') ->
        putAccessHandler D m principal parameters w
        = (Return (internalServerError (recovered r)), w'))
  /\ (forall m parameters decodedData w w',
        access = knox.Write ->
        dataParameter D parameters decodedData ->
        GetKey m (index parameters "keyID") knox.Inactive w = (inr key, w') ->
        postVersionHandler D m principal parameters w
        = (Return (internalServerError (recovered r)), w'))
  /\ (forall m parameters status id w w',
        access = knox.Write ->
        versionParameters D parameters status id ->
        GetKey m (index parameters "keyID") knox.Inactive w = (inr key, w') ->
        putVersionsHandler D m principal parameters w
        = (Return (internalServerError (recovered r)), w')).
Proof.
  intros Hpanic. split; [by apply authorizeRequest_panic|].
  repeat split.
  - intros m parameters status w w' -> Hstatus Hget.
    unfold getKeyHandler, statusParameter in *. rewrite bind_run.
    destruct (parameters !! "status") as [statusStr|].
    + rewrite Hstatus. cbn [try mret Go_ret]. fetch_and_panic Hget Hpanic.
    + subst status. cbn [mret Go_ret]. fetch_and_panic Hget Hpanic.
  - intros m parameters w w' -> Hget.
    unfold deleteKeyHandler. fetch_and_panic Hget Hpanic.
  - intros m parameters acl w w' -> Hrules Hget.
    unfold putAccessHandler. rewrite bind_run, Hrules. fetch_and_panic Hget Hpanic.
  - intros m parameters decodedData w w' -> (dataStr & Hdata & Hne & Hdec & Hnil) Hget.
    unfold postVersionHandler. rewrite bind_run, Hdata. cbn [present mret Go_ret].
    rewrite bind_run. unfold check. rewrite bool_decide_eq_false_2 by done.
    cbn [mret Go_ret]. rewrite bind_run, Hdec. cbn [try mret Go_ret].
    rewrite bind_run, bool_decide_eq_false_2 by done. cbn [mret Go_ret].
    fetch_and_panic Hget Hpanic.
  - intros m parameters status id w w' -> [(statusStr & Hstatus & Hparse) Hid] Hget.
    unfold putVersionsHandler. rewrite bind_run, Hstatus. cbn [present mret Go_ret].
    rewrite bind_run, Hparse. cbn [try mret Go_ret].
    rewrite bind_run, Hid. cbn [try mret Go_ret].
    fetch_and_panic Hget Hpanic.
Qed.

(** *** putVersionsHandler *)

(** C2. On an authorized request for a key that exists, an error of
    [UpdateVersion] is mapped as follows: the three forbidden transitions give
    BadRequestData, a version that is not found gives KeyVersionDoesNotExist,
    which is another code, and every other error gives InternalServerError. *)
Theorem putVersionsHandler_maps_update_errors m principal parameters status id key e w w1 w2 :
  versionParameters D parameters status id ->
  GetKey m (index parameters "keyID") knox.Inactive w = (inr key, w1) ->
  authorizeRequest D key principal knox.Write = (true, None) ->
  UpdateVersion m (index parameters "keyID") id status w1 = (Some e, w2) ->
  exists c,
    putVersionsHandler D m principal parameters w = (Return (Nil, errF c (knox.Error e)), w2)
    /\ (knox.err_id e = knox.Var knox.PrimaryToActive
        \/ knox.err_id e = knox.Var knox.PrimaryToInactive
        \/ knox.err_id e = knox.Var knox.InactiveToPrimary -> c = knox.BadRequestDataCode)
    /\ (knox.err_id e = knox.Var knox.KeyVersionNotFound -> c = knox.KeyVersionDoesNotExistCode)
    /\ (knox.err_id e <> knox.Var knox.PrimaryToActive ->
        knox.err_id e <> knox.Var knox.PrimaryToInactive ->
        knox.err_id e <> knox.Var knox.InactiveToPrimary ->
        knox.err_id e <> knox.Var knox.KeyVersionNotFound -> c = knox.InternalServerErrorCode)
    /\ knox.KeyVersionDoesNotExistCode <> knox.BadRequestDataCode.
Proof.
  intros [(statusStr & Hstatus & Hparse) Hid] Hget Hauth Hupdate.
  assert (Hrun : putVersionsHandler D m principal parameters w
    = (if knox.is_var e knox.KeyVersionNotFound then
         return_ Nil (errF knox.KeyVersionDoesNotExistCode (knox.Error e))
       else if knox.is_var e knox.PrimaryToInactive || knox.is_var e knox.PrimaryToActive
               || knox.is_var e knox.InactiveToPrimary then
         return_ Nil (errF knox.BadRequestDataCode (knox.Error e))
       else return_ Nil (errF knox.InternalServerErrorCode (knox.Error e))) w2).
  { unfold putVersionsHandler. rewrite bind_run, Hstatus. cbn [present mret Go_ret].
    rewrite bind_run, Hparse. cbn [try mret Go_ret].
    rewrite bind_run, Hid. cbn [try mret Go_ret].
    rewrite bind_run, (fetchKey_found _ _ _ _ _ _ Hget).
    rewrite bind_run, (authorize_granted _ _ _ _ _ _ Hauth).
    rewrite bind_run. unfold call. rewrite Hupdate. reflexivity. }
  rewrite Hrun. unfold knox.is_var.
  destruct (knox.err_id e) as [|[]|]; cbn;
    eexists; (split; [reflexivity|]); repeat split; intros; try done;
    intuition congruence.
Qed.

(** *** getKeyHandler *)

(** C5. A request that succeeds -- the key is found and [authorizeRequest]
    allows reading it -- returns the key of the key manager with its ACL
    replaced by the empty ACL and every other field as it was; and these are
    the only replies of [getKeyHandler] without an error. *)
Theorem getKeyHandler_returns_key_without_acl m principal parameters w :
  (forall status key w',
     statusParameter D parameters status ->
     GetKey m (index parameters "keyID") status w = (inr key, w') ->
     authorizeRequest D key principal knox.Read = (true, None) ->
     exists key',
       getKeyHandler D m principal parameters w = (Return (KeyPtr key', None), w')
       /\ knox.key_ACL key' = Some []
       /\ knox.key_ID key' = knox.key_ID key
       /\ knox.key_VersionList key' = knox.key_VersionList key
       /\ knox.key_VersionHash key' = knox.key_VersionHash key
       /\ knox.key_TinkKeyset key' = knox.key_TinkKeyset key)
  /\ (forall v w',
        getKeyHandler D m principal parameters w = (Return (v, None), w') ->
        exists status key,
          statusParameter D parameters status
          /\ GetKey m (index parameters "keyID") status w = (inr key, w')
          /\ authorizeRequest D key principal knox.Read = (true, None)
          /\ v = KeyPtr (knox.mkKey (knox.key_ID key) (Some []) (knox.key_VersionList key)
                           (knox.key_VersionHash key) (knox.key_TinkKeyset key))).
Proof.
  split.
  - intros status key w' Hstatus Hget Hauth. eexists. split.
    + unfold getKeyHandler, statusParameter in *. rewrite bind_run.
      assert (Hs : (match parameters !! "status" with
                    | Some statusStr =>
                        try (VersionStatus_UnmarshalJSON D (bytes statusStr))
                          (fun statusErr => errF knox.BadRequestDataCode (knox.Error statusErr))
                    | None => mret knox.Active
                    end) w = (Next status, w)).
      { destruct (parameters !! "status"); [rewrite Hstatus|subst status]; reflexivity. }
      rewrite Hs, bind_run, (fetchKey_found _ _ _ _ _ _ Hget).
      rewrite bind_run, (authorize_granted _ _ _ _ _ _ Hauth). reflexivity.
    + cbn. done.
  - intros v w'. unfold getKeyHandler, statusParameter. rewrite bind_run.
    destruct (parameters !! "status") as [statusStr|] eqn:Hp.
    + destruct (VersionStatus_UnmarshalJSON D (bytes statusStr)) as [statusErr|status] eqn:Hs;
        cbn [try mret Go_ret return_ exit]; [discriminate|].
      unfold fetchKey. rewrite !bind_run. unfold call.
      destruct (GetKey m (index parameters "keyID") status w) as [[getErr|key] w1] eqn:Hget.
      { destruct (knox.is_var getErr knox.KeyIDNotFound); discriminate. }
      cbn [mret Go_ret]. unfold authorize.
      destruct (authorizeRequest D key principal knox.Read) as [[|] [authzErr|]] eqn:Hauth;
        cbn; try discriminate.
      intros [= <- <-]. exists status, key. by repeat split.
    + cbn [mret Go_ret]. unfold fetchKey. rewrite !bind_run. unfold call.
      destruct (GetKey m (index parameters "keyID") knox.Active w) as [[getErr|key] w1] eqn:Hget.
      { destruct (knox.is_var getErr knox.KeyIDNotFound); discriminate. }
      cbn [mret Go_ret]. unfold authorize.
      destruct (authorizeRequest D key principal knox.Read) as [[|] [authzErr|]] eqn:Hauth;
        cbn; try discriminate.
      intros [= <- <-]. exists knox.Active, key. by repeat split.
Qed.

(** *** getKeysHandler *)

Lemma assign_all_lookup (k k' : string) (vs : list string) (keyM : gmap string string) :
  foldl (fun keyM v => <[k:=v]> keyM) keyM vs !! k'
  = if decide (k = k') then from_option Some (keyM !! k') (last vs) else keyM !! k'.
Proof.
  induction vs as [|v vs IH] using rev_ind.
  - cbn. by case_decide.
  - rewrite foldl_app, last_snoc. cbn. case_decide as Hk.
    + subst k'. by rewrite lookup_insert_eq.
    + rewrite lookup_insert_ne by done. by rewrite IH.
Qed.

(** The two loops leave every name with the last of its values. *)
Lemma collapse_lookup (keyMap : gmap string (list string)) (k : string) :
  collapse keyMap !! k = keyMap !! k ≫= last.
Proof.
  unfold collapse. revert k.
  apply (map_fold_weak_ind (fun (keyM : gmap string string) (keyMap : gmap string (list string)) =>
           forall k, keyM !! k = keyMap !! k ≫= last)).
  - intros k. by rewrite !lookup_empty.
  - intros i vs keyMap' keyM Hfresh IH k. rewrite assign_all_lookup. case_decide as Hk.
    + subst k. rewrite lookup_insert_eq, IH, Hfresh. cbn. by destruct (last vs).
    + rewrite lookup_insert_ne by done. by rewrite IH.
Qed.

(** C9. [getKeysHandler] replies with all key IDs when the parsed query has
    no parameter, and otherwise with the updated key IDs for the map that
    binds every parameter to the last of its values.  The reply depends
    neither on the principal nor on the access callback: nothing is
    authorized on either path. *)
Theorem getKeysHandler_all_or_updated m principal parameters w :
  let keyMap := url_ParseQuery D (index parameters "queryString") in
  (keyMap = ∅ ->
   getKeysHandler D m principal parameters w
   = (Return (keyIDsReply (GetAllKeyIDs m w).1), (GetAllKeyIDs m w).2))
  /\ (keyMap <> ∅ ->
      exists keyM : gmap string string,
        (forall k, keyM !! k = keyMap !! k ≫= last)
        /\ getKeysHandler D m principal parameters w
           = (Return (keyIDsReply (GetUpdatedKeyIDs m keyM w).1), (GetUpdatedKeyIDs m keyM w).2))
  /\ (forall (D' : Deps W) principal',
        url_ParseQuery D' = url_ParseQuery D ->
        getKeysHandler D' m principal' parameters w = getKeysHandler D m principal parameters w).
Proof.
  intros keyMap. repeat split.
  - intros Hempty. unfold getKeysHandler. fold keyMap. rewrite Hempty, map_size_empty.
    rewrite bool_decide_eq_true_2 by done. rewrite bind_run. unfold call.
    destruct (GetAllKeyIDs m w) as [[err|keys] w']; reflexivity.
  - intros Hsome. exists (collapse keyMap). split; [apply collapse_lookup|].
    unfold getKeysHandler. fold keyMap.
    rewrite bool_decide_eq_false_2 by by apply map_size_non_empty_iff.
    rewrite bind_run. unfold call.
    destruct (GetUpdatedKeyIDs m (collapse keyMap) w) as [[err|keys] w']; reflexivity.
  - intros D' principal' Hsame. unfold getKeysHandler. by rewrite Hsame.
Qed.

(** *** putAccessHandler *)

Lemma requestedRules_missing parameters w :
  parameters !! "access" = None -> parameters !! "acl" = None ->
  requestedRules D parameters w
  = (Return (Nil, errF knox.BadRequestDataCode "Missing acl and access parameters"), w).
Proof. intros Haccess Hacl. unfold requestedRules. by rewrite Haccess, Hacl. Qed.

Lemma requestedRules_ignores_acl parameters :
  is_Some (parameters !! "access") ->
  requestedRules D (delete "acl" parameters) = requestedRules D parameters.
Proof.
  intros [accessStr Haccess]. unfold requestedRules.
  rewrite lookup_delete_ne by done. by rewrite Haccess.
Qed.

(** A reply of the block that reads the rules is the reply of the handler. *)
Lemma putAccessHandler_rules_return m principal parameters r w w' :
  requestedRules D parameters w = (Return r, w') ->
  putAccessHandler D m principal parameters w = (Return r, w').
Proof. intros H. unfold putAccessHandler. by rewrite bind_run, H. Qed.

(** C3, as the code has it.  One of [access] and [acl] has to be there:
    with neither the reply is BadRequestData.  With both, [access] is read
    and [acl] is ignored.  [access] is decoded as JSON first; when that fails
    it is decoded as base64url and the result as JSON, and the reply is
    BadRequestData when the base64url or the second JSON decoding fails. *)
Theorem putAccessHandler_reads_access_or_acl m principal parameters w :
  (parameters !! "access" = None -> parameters !! "acl" = None ->
   putAccessHandler D m principal parameters w
   = (Return (Nil, errF knox.BadRequestDataCode "Missing acl and access parameters"), w))
  /\ (is_Some (parameters !! "access") ->
      putAccessHandler D m principal parameters w
      = putAccessHandler D m principal (delete "acl" parameters) w)
  /\ (forall accessStr access jsonErr,
        parameters !! "access" = Some accessStr ->
        json_Unmarshal_Access D (bytes accessStr) (Access_zero D) = (access, jsonErr) ->
        (jsonErr = None -> requestedRules D parameters w = (Next (Some [access]), w))
        /\ (jsonErr <> None ->
            forall decodeErr,
              base64_RawURLEncoding_DecodeString D accessStr = inl decodeErr ->
              putAccessHandler D m principal parameters w
              = (Return (Nil, errF knox.BadRequestDataCode (knox.Error decodeErr)), w))
        /\ (jsonErr <> None ->
            forall decodedData access' jsonErr',
              base64_RawURLEncoding_DecodeString D accessStr = inr decodedData ->
              json_Unmarshal_Access D (elems decodedData) access = (access', jsonErr') ->
              match jsonErr' with
              | None => requestedRules D parameters w = (Next (Some [access']), w)
              | Some e =>
                  putAccessHandler D m principal parameters w
                  = (Return (Nil, errF knox.BadRequestDataCode (knox.Error e)), w)
              end)).
Proof.
  split; [|split].
  - intros Haccess Hacl. apply putAccessHandler_rules_return.
    by apply requestedRules_missing.
  - intros Haccess. unfold putAccessHandler.
    rewrite (requestedRules_ignores_acl _ Haccess).
    unfold index. by rewrite lookup_delete_ne by done.
  - intros accessStr access jsonErr Haccess Hjson.
    split; [|split].
    + intros ->. unfold requestedRules. by rewrite Haccess, Hjson.
    + intros Hfail decodeErr Hdecode. apply putAccessHandler_rules_return.
      unfold requestedRules. rewrite Haccess, Hjson.
      destruct jsonErr; [|done]. by rewrite bind_run, Hdecode.
    + intros Hfail decodedData access' jsonErr' Hdecode Hjson'.
      destruct jsonErr as [e0|]; [|done].
      destruct jsonErr' as [e|].
      * apply putAccessHandler_rules_return. unfold requestedRules.
        rewrite Haccess, Hjson. rewrite bind_run, Hdecode. cbn [try mret Go_ret].
        by rewrite Hjson'.
      * unfold requestedRules. rewrite Haccess, Hjson.
        rewrite bind_run, Hdecode. cbn [try mret Go_ret]. by rewrite Hjson'.
Qed.

(** *** postKeysHandler *)

(** C10. A principal that is not a user is turned away by [postKeysHandler]
    before any parameter is read: whatever the parameters hold, the reply is
    the Unauthorized error and the key manager is not called. *)
Theorem postKeysHandler_non_user_unauthorized m principal parameters w :
  auth_IsUser D principal = false ->
  postKeysHandler D m principal parameters w
  = (Return (Nil, errF knox.UnauthorizedCode
                    ("Must be a user to create keys, principal is " +:+ knox.GetID principal)), w).
Proof.
  intros Hnot. unfold postKeysHandler. rewrite bind_run.
  unfold check. rewrite Hnot. reflexivity.
Qed.

(** C4, as the code has it.  A user who sends an [id] and an empty [data]
    gets the NoKeyData error: the empty string is turned away before it is
    decoded. *)
Theorem postKeysHandler_empty_data_is_NoKeyData m principal parameters keyID w :
  auth_IsUser D principal = true ->
  parameters !! "id" = Some keyID ->
  parameters !! "data" = Some EmptyString ->
  postKeysHandler D m principal parameters w
  = (Return (Nil, errF knox.NoKeyDataCode "Parameter 'data' is empty"), w).
Proof.
  intros Huser Hid Hdata. unfold postKeysHandler.
  rewrite bind_run. unfold check at 1. rewrite Huser. cbn [negb mret Go_ret].
  rewrite bind_run, Hid. cbn [present mret Go_ret].
  rewrite bind_run, Hdata. cbn [present mret Go_ret].
  rewrite bind_run. reflexivity.
Qed.

End ServerProperties.

(** ** The daemon of the client *)

Section ClientProperties.
Import golang client wording.
Context (L : Deps) (sys : Faults).
Implicit Types (d : daemon) (w : gmap string file) (ids ks : list string).

(** *** The register file *)

Lemma buffer_lines ids (buffer : list byte) :
  foldl (fun buffer k => buffer ++ bytes k ++ [newline]) buffer ids = buffer ++ lines ids.
Proof.
  revert buffer. induction ids as [|id ids IH]; intros buffer; cbn.
  - by rewrite app_nil_r.
  - rewrite IH. unfold lines. cbn. by rewrite <- !app_assoc.
Qed.

Lemma writeKeys_lines (newKeys : gmap string bool) :
  writeKeys newKeys = lines (map_to_list newKeys).*1.
Proof. unfold writeKeys. by rewrite buffer_lines. Qed.

Lemma removeIt_elem_of (oldK : string) ks : removeIt oldK ks = true <-> oldK ∈ ks.
Proof.
  induction ks as [|k ks IH]; cbn.
  - split; [done|]. by intros ?%elem_of_nil.
  - rewrite elem_of_cons. case_bool_decide; naive_solver.
Qed.

(** The keys the loop of [Remove] keeps. *)
Lemma kept_lookup ks (oldKeys : list string) (newKeys : gmap string bool) (id : string) :
  is_Some (foldl (fun newKeys oldK => if removeIt oldK ks then newKeys else <[oldK := true]> newKeys)
             newKeys oldKeys !! id)
  <-> is_Some (newKeys !! id) \/ (id ∈ oldKeys /\ id ∉ ks).
Proof.
  revert newKeys. induction oldKeys as [|oldK oldKeys IH]; intros newKeys; cbn.
  - rewrite elem_of_nil. naive_solver.
  - rewrite IH, elem_of_cons. destruct (removeIt oldK ks) eqn:Hrm.
    + apply removeIt_elem_of in Hrm. naive_solver.
    + assert (oldK ∉ ks) by (rewrite <- removeIt_elem_of; congruence).
      rewrite lookup_insert_is_Some. destruct (decide (oldK = id)); naive_solver.
Qed.

Lemma oldKeysOf_registered (fn : string) w :
  ReadFile_fails sys = None ->
  oldKeysOf L sys (mkKeysFile fn) w = inr (registered L fn w).
Proof.
  intros Hread. unfold oldKeysOf, KeysFile_Get, os_ReadFile, registered. cbn [client.fn].
  rewrite Hread. by destruct (w !! fn).
Qed.

(** [Remove] on a file system that works: the file is written with the old
    IDs that are not removed, each once. *)
Lemma KeysFile_Remove_healthy (fn : string) ks w :
  ReadFile_fails sys = None -> WriteFile_fails sys = None ->
  exists ids perm,
    KeysFile_Remove L sys (mkKeysFile fn) ks w = (None, <[fn := mkFile (lines ids) perm]> w)
    /\ NoDup ids
    /\ forall id, id ∈ ids <-> id ∈ registered L fn w /\ id ∉ ks.
Proof.
  intros Hread Hwrite. unfold KeysFile_Remove. rewrite (oldKeysOf_registered _ _ Hread).
  unfold os_WriteFile. rewrite Hwrite. cbn [client.fn]. rewrite writeKeys_lines.
  eexists _, _. split; [reflexivity|]. split.
  - apply NoDup_fst_map_to_list.
  - intros id. rewrite list_elem_of_fmap. split.
    + intros ([id' v] & -> & Hin%elem_of_map_to_list). cbn.
      assert (Hsome : is_Some (foldl (fun newKeys oldK =>
                 if removeIt oldK ks then newKeys else <[oldK := true]> newKeys)
                 (∅ : gmap string bool) (registered L fn w) !! id')) by eauto.
      apply kept_lookup in Hsome as [Hempty|?]; [|done].
      rewrite lookup_empty in Hempty. by destruct Hempty.
    + intros Hid.
      assert (Hsome : is_Some (foldl (fun newKeys oldK =>
                 if removeIt oldK ks then newKeys else <[oldK := true]> newKeys)
                 (∅ : gmap string bool) (registered L fn w) !! id)) by (apply kept_lookup; eauto).
      destruct Hsome as [v Hv]. exists (id, v). split; [done|]. by apply elem_of_map_to_list.
Qed.

(** *** processKey: a key the server refuses *)

(** C6. When the fetch fails with one of the two messages of a refusal,
    [processKey] calls [Remove] of the register file for that ID and then
    returns the error of the fetch, wrapped.  With the register file of the
    daemon, on a file system that works, the list of the file afterwards is
    the list before without that ID.  After any other error of the fetch the
    file system, and the register file with it, is as it was. *)
Theorem processKey_forgets_refused_key d keyID err w :
  NetworkGetKey (cli d) keyID = inl err ->
  let failure :=
    Some (knox.Errorf ("Error getting key " +:+ keyID +:+ ": " +:+ knox.Error err)) in
  (refused err ->
   processKey L sys d keyID w = (Return failure, (Remove (registerKeyFile d) [keyID] w).2))
  /\ (refused err ->
      forall fn,
        registerKeyFile d = NewKeysFile L sys fn ->
        ReadFile_fails sys = None -> WriteFile_fails sys = None -> rereadsFields L ->
        let w' := (processKey L sys d keyID w).2 in
        (exists perm, w' = <[fn := mkFile (lines (registered L fn w')) perm]> w)
        /\ NoDup (registered L fn w')
        /\ forall id, id ∈ registered L fn w' <-> id ∈ registered L fn w /\ id <> keyID)
  /\ (~ refused err -> processKey L sys d keyID w = (Return failure, w)).
Proof.
  intros Hfetch failure.
  assert (Hrefused : refused err ->
    processKey L sys d keyID w = (Return failure, (Remove (registerKeyFile d) [keyID] w).2)).
  { intros Href. unfold processKey. rewrite bind_run, Hfetch, bind_run.
    assert (bool_decide (knox.Error err = "User or machine not authorized")
            || bool_decide (knox.Error err = "Key identifer does not exist") = true) as ->.
    { apply orb_true_iff. rewrite !bool_decide_eq_true. exact Href. }
    reflexivity. }
  split; [exact Hrefused|]. split.
  - intros Href fn Hreg Hread Hwrite Hfields w'. subst w'.
    rewrite (Hrefused Href), Hreg. cbn [Remove NewKeysFile snd].
    destruct (KeysFile_Remove_healthy fn [keyID] w Hread Hwrite) as (ids & perm & -> & Hnodup & Hids).
    cbn [snd].
    assert (Hlist : registered L fn (<[fn := mkFile (lines ids) perm]> w) = ids).
    { unfold registered at 1. rewrite lookup_insert_eq. cbn [data].
      destruct (w !! fn) as [f|] eqn:Hf.
      - apply (Hfields (String.string_of_list_byte (data f))).
        intros id Hid. apply Hids in Hid as [Hid _]. unfold registered in Hid. by rewrite Hf in Hid.
      - assert (ids = []) as ->.
        { destruct ids as [|id ids]; [done|].
          assert (Hin : id ∈ id :: ids) by left.
          apply Hids in Hin as [Hin _]. unfold registered in Hin. rewrite Hf in Hin.
          by apply elem_of_nil in Hin. }
        apply (Hfields EmptyString). by intros id ?%elem_of_nil. }
    rewrite Hlist. split; [by exists perm|]. split; [done|].
    intros id. rewrite Hids, list_elem_of_singleton. done.
  - intros Hnot. unfold processKey. rewrite bind_run, Hfetch, bind_run.
    assert (bool_decide (knox.Error err = "User or machine not authorized")
            || bool_decide (knox.Error err = "Key identifer does not exist") = false) as ->.
    { apply orb_false_iff. rewrite !bool_decide_eq_false. unfold refused in Hnot. tauto. }
    reflexivity.
Qed.

(** *** processKey: the key file *)

Lemma processKey_fetched d keyID b w :
  fetched L d keyID b ->
  processKey L sys d keyID w = replaceKeyFile L sys d keyID b w.
Proof.
  intros (key & Hget & (Hid & Hacl & Hversions & Hhash) & Hserialized).
  unfold processKey. rewrite bind_run, Hget. cbn [mret Go_ret].
  rewrite bind_run, !bool_decide_eq_false_2 by done. cbn [orb mret Go_ret].
  rewrite bind_run. unfold serialized in Hserialized.
  destruct (String.prefix tinkPrefix keyID).
  - destruct Hserialized as (keysetHandle & tinkKeyset & Hhandle & Hbytes & Hjson).
    rewrite bind_run, Hhandle. cbn [try mret Go_ret].
    rewrite bind_run, Hbytes. cbn [try mret Go_ret].
    rewrite bind_run, Hjson. reflexivity.
  - cbn [mret Go_ret]. rewrite bind_run, Hserialized. reflexivity.
Qed.

(** [os.CreateTemp] fails and leaves the files alone, or makes an empty file
    under a name that was free. *)
Lemma os_CreateTemp_cases (dir pattern : string) w :
  (exists e, os_CreateTemp sys dir pattern w = (inl e, w))
  \/ (exists tmpFile,
        w !! tmpFile = None
        /\ os_CreateTemp sys dir pattern w = (inr tmpFile, <[tmpFile := mkFile [] 384]> w)).
Proof.
  unfold os_CreateTemp. destruct (contains "/" pattern); [left; eauto|].
  destruct (CreateTemp_random sys) as [e|random]; [left; eauto|].
  destruct (w !! tempName dir pattern random) eqn:Hfree; [left; eauto|right; eauto].
Qed.

(** A temporary file that was written, in part or in full, and is removed
    leaves the files as they were. *)
Lemma remove_written (tmpFile : string) (bs : list byte) w :
  w !! tmpFile = None ->
  os_Remove tmpFile
    (alter (fun f => mkFile (data f ++ bs) (mode f)) tmpFile (<[tmpFile := mkFile [] 384]> w))
  = w.
Proof.
  intros Hfree. unfold os_Remove. rewrite alter_insert_eq, delete_insert_eq. by apply delete_id.
Qed.

(** What [replaceKeyFile] does once the temporary file is there. *)
Lemma replaceKeyFile_created d keyID b (tmpFile : string) w :
  w !! tmpFile = None ->
  os_CreateTemp sys (dir d) (".*." +:+ keyID +:+ ".tmp") w
  = (inr tmpFile, <[tmpFile := mkFile [] 384]> w) ->
  replaceKeyFile L sys d keyID b w
  = match Write_fails sys, Rename_fails sys, Chmod_fails sys with
    | Some s, _, _ =>
        (Return (Some (knox.Errorf ("Error writing key " +:+ keyID +:+ " to file: "
                                    +:+ knox.Error (write_err s)))), w)
    | None, Some e, _ =>
        (Return (Some (knox.Errorf ("Error renaming key " +:+ keyID +:+ " temporary file: "
                                    +:+ knox.Error e))), w)
    | None, None, Some e =>
        (Return (Some (knox.Errorf ("Failed to open up key file permissions: " +:+ knox.Error e))),
         <[keyFilename L d keyID := mkFile b 384]> w)
    | None, None, None =>
        (Return None, <[keyFilename L d keyID := mkFile b defaultFilePermission]> w)
    end.
Proof.
  intros Hfree Hcreated. unfold replaceKeyFile.
  rewrite bind_run. unfold call at 1. rewrite Hcreated.
  rewrite bind_run. cbn [try mret Go_ret]. rewrite bind_run. unfold call at 1, File_Write.
  destruct (Write_fails sys) as [s|].
  { rewrite bind_run, bind_run. unfold run. by rewrite remove_written. }
  rewrite bind_run. cbn [mret Go_ret]. rewrite bind_run. unfold call at 1, os_Rename.
  destruct (Rename_fails sys) as [e|].
  { rewrite bind_run, bind_run. unfold run. by rewrite remove_written. }
  rewrite alter_insert_eq, lookup_insert_eq, delete_insert_eq, (delete_id _ _ Hfree).
  cbn [data mode app]. rewrite bind_run. cbn [mret Go_ret].
  rewrite bind_run. unfold call, os_Chmod. rewrite lookup_insert_eq.
  destruct (Chmod_fails sys) as [e|]; cbn [data]; [done|].
  by rewrite insert_insert_eq.
Qed.

(** C7. Once the key is fetched and serialized as [b], the key file is
    replaced only by the rename of a temporary file that holds all of [b].
    When the creation of the temporary file, the write to it or the rename
    fails, [processKey] returns the error and the file system is as it was:
    the temporary file is gone and the key file has its previous content.
    When the rename succeeds the file system differs from the previous one
    in the key file only, which holds [b]. *)
Theorem processKey_replaces_key_file_by_rename d keyID b w :
  fetched L d keyID b ->
  let created := (os_CreateTemp sys (dir d) (".*." +:+ keyID +:+ ".tmp") w).1 in
  (forall e,
     created = inl e ->
     processKey L sys d keyID w
     = (Return (Some (knox.Errorf ("Error opening tmp file for key " +:+ keyID +:+ ": "
                                   +:+ knox.Error e))), w))
  /\ (forall tmpFile s,
        created = inr tmpFile -> Write_fails sys = Some s ->
        processKey L sys d keyID w
        = (Return (Some (knox.Errorf ("Error writing key " +:+ keyID +:+ " to file: "
                                      +:+ knox.Error (write_err s)))), w))
  /\ (forall tmpFile e,
        created = inr tmpFile -> Write_fails sys = None -> Rename_fails sys = Some e ->
        processKey L sys d keyID w
        = (Return (Some (knox.Errorf ("Error renaming key " +:+ keyID +:+ " temporary file: "
                                      +:+ knox.Error e))), w))
  /\ (forall tmpFile,
        created = inr tmpFile -> Write_fails sys = None -> Rename_fails sys = None ->
        exists r perm,
          processKey L sys d keyID w
          = (Return r, <[keyFilename L d keyID := mkFile b perm]> w)).
Proof.
  intros Hfetched created. subst created.
  rewrite (processKey_fetched _ _ _ _ Hfetched).
  destruct (os_CreateTemp_cases (dir d) (".*." +:+ keyID +:+ ".tmp") w)
    as [(e0 & Hfailed)|(tmp & Hfree & Hcreated)].
  - rewrite Hfailed. cbn [fst]. repeat split; [|discriminate..].
    intros e [= ->]. unfold replaceKeyFile. rewrite bind_run. unfold call. by rewrite Hfailed.
  - rewrite (replaceKeyFile_created _ _ _ _ _ Hfree Hcreated), Hcreated. cbn [fst].
    split; [discriminate|]. split; [|split].
    + intros tmpFile s _ ->. done.
    + intros tmpFile e _ -> ->. done.
    + intros tmpFile _ -> ->. destruct (Chmod_fails sys); eexists _, _; reflexivity.
Qed.

End ClientProperties.

(** ** The model of [strings.Fields] rereads its fields *)

Section FieldsProperties.
Import golang.

Lemma append_cons (c : ascii) (s1 s2 : string) : String c s1 +:+ s2 = String c (s1 +:+ s2).
Proof. reflexivity. Qed.

Lemma append_nil (s : string) : EmptyString +:+ s = s.
Proof. reflexivity. Qed.

Lemma append_assoc (s1 s2 s3 : string) : (s1 +:+ s2) +:+ s3 = s1 +:+ (s2 +:+ s3).
Proof. induction s1 as [|c s1 IH]; [done|]. by rewrite !append_cons, IH. Qed.

Lemma append_empty_r (s : string) : s +:+ EmptyString = s.
Proof. induction s as [|c s IH]; [done|]. by rewrite append_cons, IH. Qed.

Lemma spaceless_snoc (s : string) (c : ascii) :
  gostd.spaceless s = true -> gostd.asciiSpace c = false ->
  gostd.spaceless (s +:+ String c EmptyString) = true.
Proof.
  intros Hs Hc. induction s as [|a s IH].
  - rewrite append_nil. cbn. by rewrite Hc.
  - rewrite append_cons. cbn in *. apply andb_true_iff in Hs as [-> Hs]. by rewrite IH.
Qed.

(** Every field is not empty and holds no space. *)
Lemma FieldsFrom_fields (s cur : string) :
  gostd.spaceless cur = true ->
  Forall (fun t => t <> EmptyString /\ gostd.spaceless t = true) (gostd.FieldsFrom cur s).
Proof.
  revert cur. induction s as [|c s IH]; intros cur Hcur; cbn.
  - case_bool_decide; [constructor|]. by repeat constructor.
  - destruct (gostd.asciiSpace c) eqn:Hc.
    + case_bool_decide; [by apply IH|]. constructor; [done|by apply IH].
    + apply IH. by apply spaceless_snoc.
Qed.

(** Reading on through characters that are no spaces. *)
Lemma FieldsFrom_spaceless (t s cur : string) :
  gostd.spaceless t = true ->
  gostd.FieldsFrom cur (t +:+ s) = gostd.FieldsFrom (cur +:+ t) s.
Proof.
  revert cur. induction t as [|c t IH]; intros cur Ht.
  - by rewrite append_empty_r.
  - rewrite append_cons. cbn in *.
    apply andb_true_iff in Ht as [Hc Ht]. apply negb_true_iff in Hc. rewrite Hc.
    rewrite IH by done. by rewrite append_assoc.
Qed.

Lemma string_of_app (l1 l2 : list byte) :
  String.string_of_list_byte (l1 ++ l2)
  = String.string_of_list_byte l1 +:+ String.string_of_list_byte l2.
Proof.
  induction l1 as [|c l1 IH]; [done|].
  change (String.string_of_list_byte ((c :: l1) ++ l2))
    with (String (ascii_of_byte c) (String.string_of_list_byte (l1 ++ l2))).
  by rewrite IH.
Qed.

Lemma string_of_line (id : string) (rest : list byte) :
  String.string_of_list_byte ((bytes id ++ [client.newline]) ++ rest)
  = id +:+ String (ascii_of_nat 10) (String.string_of_list_byte rest).
Proof.
  unfold bytes. rewrite !string_of_app, String.string_of_list_byte_of_string.
  by rewrite append_assoc.
Qed.

Lemma Fields_lines (ids : list string) :
  Forall (fun t => t <> EmptyString /\ gostd.spaceless t = true) ids ->
  gostd.Fields (String.string_of_list_byte (wording.lines ids)) = ids.
Proof.
  induction 1 as [|id ids [Hne Hid] _ IH]; [done|].
  unfold wording.lines in *. cbn [fmap list_fmap concat]. rewrite string_of_line.
  unfold gostd.Fields in *. rewrite FieldsFrom_spaceless by done. cbn.
  rewrite bool_decide_eq_false_2 by done. by rewrite IH.
Qed.

Lemma Fields_rereads (L : client.Deps) :
  client.strings_Fields L = gostd.Fields -> wording.rereadsFields L.
Proof.
  intros HL s ids Hids. rewrite HL in *. apply Fields_lines.
  apply Forall_forall. intros id Hid.
  assert (Hall := FieldsFrom_fields s EmptyString eq_refl).
  rewrite Forall_forall in Hall. by apply Hall, Hids.
Qed.

End FieldsProperties.

(** ** [KeysFile.Add] *)

Section AddProperties.
Import golang client wording.
Context (L : Deps) (sys : Faults).




End AddProperties.

(** ** The statements on the deployment of the examples *)

Section Examples.
Import golang wording.

(** Mallory is not in the ACL and the callback panics: the read is answered
    with InternalServerError. *)
Lemma callback_panic_witness :
  callbackPanics (demo.deps (Some demo.crashing)) demo.password demo.mallory knox.Read demo.nilDereference
  /\ server.authorizeRequest (demo.deps (Some demo.crashing)) demo.password demo.mallory knox.Read
     = (false, Some (recovered demo.nilDereference))
  /\ server.getKeyHandler (demo.deps (Some demo.crashing)) demo.memory demo.mallory demo.readPassword
       demo.keys
     = (Return (internalServerError (recovered demo.nilDereference)), demo.keys).
Proof.
  assert (H : callbackPanics (demo.deps (Some demo.crashing)) demo.password demo.mallory
                knox.Read demo.nilDereference).
  { split; [reflexivity|]. exists demo.crashing. split; reflexivity. }
  split; [exact H|].
  destruct (callback_panic_is_internal_server_error _ _ _ _ _ H) as (Hauth & Hget & _).
  split; [exact Hauth|].
  apply (Hget demo.memory demo.readPassword knox.Active); reflexivity.
Defined.

(** Version 1 of the key is its primary version: making it active is a bad
    request. *)
Lemma putVersionsHandler_maps_update_errors_witness :
  versionParameters (demo.deps None) demo.demotePrimary knox.Active 1
  /\ server.GetKey demo.memory "svc.db.password" knox.Inactive demo.keys = (inr demo.password, demo.keys)
  /\ server.authorizeRequest (demo.deps None) demo.password demo.alice knox.Write = (true, None)
  /\ server.UpdateVersion demo.memory "svc.db.password" 1 knox.Active demo.keys
     = (Some demo.ErrPrimaryToActive, demo.keys)
  /\ server.putVersionsHandler (demo.deps None) demo.memory demo.alice demo.demotePrimary demo.keys
     = (Return (server.Nil, server.errF knox.BadRequestDataCode
                               (knox.Error demo.ErrPrimaryToActive)), demo.keys).
Proof.
  assert (Hparams : versionParameters (demo.deps None) demo.demotePrimary knox.Active 1).
  { split; [exists (demo.quoted "Active"); split; reflexivity|reflexivity]. }
  assert (Hget : server.GetKey demo.memory (index demo.demotePrimary "keyID") knox.Inactive demo.keys
                 = (inr demo.password, demo.keys)) by reflexivity.
  assert (Hauth : server.authorizeRequest (demo.deps None) demo.password demo.alice knox.Write
                  = (true, None)) by reflexivity.
  assert (Hupdate : server.UpdateVersion demo.memory (index demo.demotePrimary "keyID") 1 knox.Active
                      demo.keys = (Some demo.ErrPrimaryToActive, demo.keys)) by reflexivity.
  split; [exact Hparams|]. split; [exact Hget|]. split; [exact Hauth|]. split; [exact Hupdate|].
  destruct (putVersionsHandler_maps_update_errors _ _ _ _ _ _ _ _ _ _ _ Hparams Hget Hauth Hupdate)
    as (c & -> & Hbad & _).
  rewrite Hbad; [reflexivity|]. left. reflexivity.
Defined.

(** A request with both [access] and [acl] is served: the rule of [access]
    is stored and the handler replies without an error. *)
Lemma putAccessHandler_accepts_access_with_acl :
  is_Some (demo.accessAndAcl !! "access") /\ is_Some (demo.accessAndAcl !! "acl")
  /\ exists w',
       server.putAccessHandler (demo.deps None) demo.memory demo.alice demo.accessAndAcl demo.keys
       = (Return (server.Nil, None), w')
       /\ knox.key_ACL <$> w' !! "svc.db.password" = Some (Some [demo.bobReads]).
Proof.
  split; [by eexists|]. split; [by eexists|].
  eexists. split; [vm_compute; reflexivity|]. vm_compute. reflexivity.
Qed.

(** The same request without [acl] gets the same reply. *)
Lemma putAccessHandler_reads_access_or_acl_witness :
  is_Some (demo.accessAndAcl !! "access")
  /\ server.putAccessHandler (demo.deps None) demo.memory demo.alice demo.accessAndAcl demo.keys
     = server.putAccessHandler (demo.deps None) demo.memory demo.alice (delete "acl" demo.accessAndAcl)
         demo.keys.
Proof.
  assert (H : is_Some (demo.accessAndAcl !! "access")) by (by eexists).
  split; [exact H|].
  destruct (putAccessHandler_reads_access_or_acl (demo.deps None) demo.memory demo.alice
              demo.accessAndAcl demo.keys) as (_ & Hboth & _).
  exact (Hboth H).
Defined.

(** The empty string decodes to zero bytes, and alice, a user, gets NoKeyData
    for it, which is not BadRequestData. *)
Lemma postKeysHandler_empty_data_not_BadRequestData :
  server.auth_IsUser (demo.deps None) demo.alice = true
  /\ demo.emptyData !! "data" = Some EmptyString
  /\ server.base64_StdEncoding_DecodeString (demo.deps None) EmptyString = inr (Some [])
  /\ server.postKeysHandler (demo.deps None) demo.memory demo.alice demo.emptyData ∅
     = (Return (server.Nil, server.errF knox.NoKeyDataCode "Parameter 'data' is empty"), ∅)
  /\ knox.NoKeyDataCode <> knox.BadRequestDataCode.
Proof. repeat split; try reflexivity. discriminate. Qed.

Lemma postKeysHandler_empty_data_is_NoKeyData_witness :
  server.auth_IsUser (demo.deps None) demo.alice = true
  /\ demo.emptyData !! "id" = Some "k"
  /\ demo.emptyData !! "data" = Some EmptyString
  /\ server.postKeysHandler (demo.deps None) demo.memory demo.alice demo.emptyData ∅
     = (Return (server.Nil, server.errF knox.NoKeyDataCode "Parameter 'data' is empty"), ∅).
Proof.
  split; [reflexivity|]. split; [reflexivity|]. split; [reflexivity|].
  apply (postKeysHandler_empty_data_is_NoKeyData (demo.deps None) demo.memory demo.alice
           demo.emptyData "k" ∅); reflexivity.
Defined.

(** A line feed alone is not the empty string and decodes to zero bytes as
    well: the key is created, with no data. *)
Example postKeysHandler_line_feed_creates_key :
  let data := String (ascii_of_nat 10) EmptyString in
  server.base64_StdEncoding_DecodeString (demo.deps None) data = inr (Some [])
  /\ exists w',
       server.postKeysHandler (demo.deps None) demo.memory demo.alice
         {[ "id" := "k"; "data" := data ]} ∅
       = (Return (server.VersionID 1, None), w').
Proof. split; [reflexivity|]. eexists. vm_compute. reflexivity. Qed.

(** Alice reads the key: she gets it without its ACL. *)
Lemma getKeyHandler_returns_key_without_acl_witness :
  statusParameter (demo.deps None) demo.readPassword knox.Active
  /\ server.GetKey demo.memory "svc.db.password" knox.Active demo.keys = (inr demo.password, demo.keys)
  /\ server.authorizeRequest (demo.deps None) demo.password demo.alice knox.Read = (true, None)
  /\ exists key',
       server.getKeyHandler (demo.deps None) demo.memory demo.alice demo.readPassword demo.keys
       = (Return (server.KeyPtr key', None), demo.keys)
       /\ knox.key_ACL key' = Some []
       /\ knox.key_VersionList key' = knox.key_VersionList demo.password.
Proof.
  assert (Hstatus : statusParameter (demo.deps None) demo.readPassword knox.Active) by reflexivity.
  assert (Hget : server.GetKey demo.memory (index demo.readPassword "keyID") knox.Active demo.keys
                 = (inr demo.password, demo.keys)) by reflexivity.
  assert (Hauth : server.authorizeRequest (demo.deps None) demo.password demo.alice knox.Read
                  = (true, None)) by reflexivity.
  split; [exact Hstatus|]. split; [exact Hget|]. split; [exact Hauth|].
  destruct (getKeyHandler_returns_key_without_acl (demo.deps None) demo.memory demo.alice
              demo.readPassword demo.keys) as [Hok _].
  destruct (Hok _ _ _ Hstatus Hget Hauth) as (key' & Hreply & Hacl & _ & Hversions & _).
  exists key'. by repeat split.
Defined.

(** Without a query all key IDs are listed, for mallory as for anyone. *)
Lemma getKeysHandler_all_or_updated_witness :
  server.url_ParseQuery (demo.deps None) (index (∅ : gmap string string) "queryString") = ∅
  /\ server.getKeysHandler (demo.deps None) demo.memory demo.mallory ∅ demo.keys
     = (Return (server.KeyIDs ["svc.db.password"], None), demo.keys).
Proof.
  assert (H : server.url_ParseQuery (demo.deps None) (index (∅ : gmap string string) "queryString")
              = ∅) by reflexivity.
  split; [exact H|].
  destruct (getKeysHandler_all_or_updated (demo.deps None) demo.memory demo.mallory ∅ demo.keys)
    as (Hall & _).
  rewrite (Hall H). reflexivity.
Defined.

(** A machine may not create a key, even with every parameter missing. *)
Lemma postKeysHandler_non_user_unauthorized_witness :
  server.auth_IsUser (demo.deps None) demo.host = false
  /\ server.postKeysHandler (demo.deps None) demo.memory demo.host ∅ demo.keys
     = (Return (server.Nil, server.errF knox.UnauthorizedCode
                               "Must be a user to create keys, principal is web01"), demo.keys).
Proof.
  split; [reflexivity|].
  apply (postKeysHandler_non_user_unauthorized (demo.deps None) demo.memory demo.host ∅ demo.keys).
  reflexivity.
Defined.

End Examples.

(** ** The daemon on the files of the examples *)

Section DaemonExamples.
Import golang wording.

(** The server says that the key [gone] does not exist: the daemon takes it
    off the register file and keeps the other ID. *)
Lemma processKey_forgets_refused_key_witness :
  client.NetworkGetKey (client.cli (demo.knoxd demo.works)) "gone"
  = inl (knox.Errorf "Key identifer does not exist")
  /\ refused (knox.Errorf "Key identifer does not exist")
  /\ rereadsFields demo.library
  /\ ("svc.db.password"
        ∈ registered demo.library demo.registerPath
            (client.processKey demo.library demo.works (demo.knoxd demo.works) "gone" demo.disk).2)
  /\ ("gone"
        ∉ registered demo.library demo.registerPath
            (client.processKey demo.library demo.works (demo.knoxd demo.works) "gone" demo.disk).2).
Proof.
  assert (Hfetch : client.NetworkGetKey (client.cli (demo.knoxd demo.works)) "gone"
                   = inl (knox.Errorf "Key identifer does not exist")) by reflexivity.
  assert (Hrefused : refused (knox.Errorf "Key identifer does not exist")) by (right; reflexivity).
  assert (Hfields : rereadsFields demo.library) by (by apply Fields_rereads).
  split; [exact Hfetch|]. split; [exact Hrefused|]. split; [exact Hfields|].
  destruct (processKey_forgets_refused_key demo.library demo.works (demo.knoxd demo.works)
              "gone" _ demo.disk Hfetch) as (_ & Hlist & _).
  destruct (Hlist Hrefused demo.registerPath eq_refl eq_refl eq_refl Hfields) as (_ & _ & Hids).
  split.
  - apply Hids. split; [|discriminate]. left.
  - intros Hin. apply Hids in Hin as [_ Hne]. by apply Hne.
Defined.

(** The disk is full while the temporary file is written: the daemon
    returns the error, and the files, the key file with them, are as they
    were. *)
Lemma processKey_replaces_key_file_by_rename_witness :
  fetched demo.library (demo.knoxd demo.full) "svc.db.password" demo.passwordJSON
  /\ (client.os_CreateTemp demo.full "/var/lib/knox" ".*.svc.db.password.tmp" demo.disk).1
     = inr "/var/lib/knox/.1.svc.db.password.tmp"
  /\ client.Write_fails demo.full
     = Some (client.mkShortWrite 3 (knox.Errorf "write: no space left on device"))
  /\ client.processKey demo.library demo.full (demo.knoxd demo.full) "svc.db.password" demo.disk
     = (Return (Some (knox.Errorf
          "Error writing key svc.db.password to file: write: no space left on device")),
        demo.disk).
Proof.
  assert (Hfetched : fetched demo.library (demo.knoxd demo.full) "svc.db.password"
                       demo.passwordJSON).
  { exists demo.password. split; [reflexivity|]. split; [by repeat split|reflexivity]. }
  assert (Hcreated : (client.os_CreateTemp demo.full (client.dir (demo.knoxd demo.full))
                        (".*." +:+ "svc.db.password" +:+ ".tmp") demo.disk).1
                     = inr "/var/lib/knox/.1.svc.db.password.tmp")
    by (vm_compute; reflexivity).
  split; [exact Hfetched|]. split; [exact Hcreated|]. split; [reflexivity|].
  destruct (processKey_replaces_key_file_by_rename demo.library demo.full (demo.knoxd demo.full)
              "svc.db.password" demo.passwordJSON demo.disk Hfetched) as (_ & Hwrite & _).
  exact (Hwrite _ _ Hcreated eq_refl).
Defined.

(** C8. The register file holds the ID [a] on two lines.  [Add] of [b]
    finds two old IDs and a map of two keys and takes that for no change:
    nothing is written and [b] is not registered.  [Add] of [a], which
    changes nothing in the set, writes the file. *)
Theorem KeysFile_Add_compares_map_size_with_list_length :
  client.KeysFile_Get demo.library demo.works (client.mkKeysFile demo.registerPath) demo.twice
  = inr ["a"; "a"]
  /\ client.KeysFile_Add demo.library demo.works (client.mkKeysFile demo.registerPath) ["b"]
       demo.twice
     = (None, demo.twice)
  /\ ("b" ∉ registered demo.library demo.registerPath demo.twice)
  /\ client.KeysFile_Add demo.library demo.works (client.mkKeysFile demo.registerPath) ["a"]
       demo.twice
     = (None, demo.registerOf (demo.line "a"))
  /\ demo.registerOf (demo.line "a") <> demo.twice.
Proof.
  split; [reflexivity|]. split; [vm_compute; reflexivity|]. split; [|split].
  - intros Hin.
    assert (Hlist : registered demo.library demo.registerPath demo.twice = ["a"; "a"])
      by reflexivity.
    rewrite Hlist in Hin.
    apply elem_of_cons in Hin as [?|Hin]; [discriminate|].
    apply elem_of_cons in Hin as [?|Hin]; [discriminate|].
    by apply elem_of_nil in Hin.
  - vm_compute. reflexivity.
  - intros Heq. apply (f_equal (fun m => client.data <$> m !! demo.registerPath)) in Heq.
    vm_compute in Heq. discriminate.
Qed.

End DaemonExamples.

(** ** More on the handlers of the server *)

Section HandlerProperties.
Import golang server wording.
Context {W : Type} (D : Deps W).
Implicit Types (m : KeyManager W) (principal : knox.Principal) (key : knox.Key).
Implicit Types (parameters : gmap string string) (w : W).

(** *** authorizeRequest *)

Lemma authorizeRequest_run key principal access :
  authorizeRequest D key principal access
  = if knox.CanAccess principal (knox.key_ACL key) access then (true, None)
    else match accessCallback D with
         | Some callback =>
             match callback (callbackInput key principal access) with
             | Returns (allowed, e) => (allowed, e)
             | Panics r => (false, Some (recovered r))
             end
         | None => (false, None)
         end.
Proof.
  unfold authorizeRequest, authorizeRequest_body, callbackInput. cbn [allow err].
  destruct (knox.CanAccess principal (knox.key_ACL key) access); [done|]. cbn [negb].
  destruct (accessCallback D) as [callback|]; [|done].
  by destruct (callback _) as [[allowed e]|r].
Qed.

(** X1. Access is granted by the ACL or by the callback, and by nothing
    else.  What the ACL grants is granted without the callback being asked,
    so that no callback, not even one that panics, takes it back; what the
    ACL denies is decided by the callback, whose answer and error are
    returned as they are, and is denied when there is no callback. *)
Theorem authorizeRequest_grants_by_acl_or_callback key principal access :
  (knox.CanAccess principal (knox.key_ACL key) access = true ->
   authorizeRequest D key principal access = (true, None))
  /\ (knox.CanAccess principal (knox.key_ACL key) access = false ->
      accessCallback D = None ->
      authorizeRequest D key principal access = (false, None))
  /\ (forall callback allowed e,
        knox.CanAccess principal (knox.key_ACL key) access = false ->
        accessCallback D = Some callback ->
        callback (callbackInput key principal access) = Returns (allowed, e) ->
        authorizeRequest D key principal access = (allowed, e))
  /\ (forall authzErr,
        authorizeRequest D key principal access = (true, authzErr) ->
        (knox.CanAccess principal (knox.key_ACL key) access = true /\ authzErr = None)
        \/ (exists callback,
              accessCallback D = Some callback
              /\ callback (callbackInput key principal access) = Returns (true, authzErr))).
Proof.
  rewrite authorizeRequest_run. split; [|split; [|split]].
  - by intros ->.
  - by intros -> ->.
  - by intros callback allowed e -> -> ->.
  - intros authzErr.
    destruct (knox.CanAccess principal (knox.key_ACL key) access).
    + intros [= <-]. by left.
    + destruct (accessCallback D) as [callback|]; [|done].
      destruct (callback _) as [[allowed e]|r] eqn:Hcall; [|done].
      intros [= -> ->]. right. by exists callback.
Qed.

(** *** The five handlers behind [authorizeRequest] *)

Lemma authorize_refused key principal access what keyID allowed authzErr w :
  authorizeRequest D key principal access = (allowed, authzErr) ->
  (allowed, authzErr) <> (true, None) ->
  authorize D key principal access what keyID w
  = (Return (notAuthorized principal what keyID authzErr), w).
Proof.
  intros Hauth Hne. unfold authorize. rewrite Hauth.
  destruct authzErr as [e|]; [done|]. by destruct allowed.
Qed.

Lemma fetchKey_failed m keyID status getErr w w' :
  GetKey m keyID status w = (inl getErr, w') ->
  fetchKey m keyID status w = (Return (lookupFailure keyID getErr), w').
Proof.
  intros H. unfold fetchKey, lookupFailure. rewrite bind_run. unfold call. rewrite H.
  by destruct (knox.is_var getErr knox.KeyIDNotFound).
Qed.

(** The statements before the fetch, for parameters that pass them. *)
Ltac pass_status Hstatus :=
  unfold getKeyHandler, statusParameter in *; rewrite bind_run;
  destruct (_ !! "status"); [rewrite Hstatus|subst]; cbn [try mret Go_ret].

Ltac pass_data Hdata :=
  let dataStr := fresh "dataStr" in
  let Hp := fresh in let Hne := fresh in let Hdec := fresh in let Hnil := fresh in
  destruct Hdata as (dataStr & Hp & Hne & Hdec & Hnil);
  unfold postVersionHandler; rewrite bind_run, Hp; cbn [present mret Go_ret];
  rewrite bind_run; unfold check at 1; rewrite bool_decide_eq_false_2 by done;
  cbn [mret Go_ret]; rewrite bind_run, Hdec; cbn [try mret Go_ret];
  rewrite bind_run; unfold check at 1; rewrite bool_decide_eq_false_2 by done;
  cbn [mret Go_ret].

Ltac pass_version Hversion :=
  let statusStr := fresh "statusStr" in
  let Hp := fresh in let Hparse := fresh in let Hid := fresh in
  destruct Hversion as [(statusStr & Hp & Hparse) Hid];
  unfold putVersionsHandler; rewrite bind_run, Hp; cbn [present mret Go_ret];
  rewrite bind_run, Hparse; cbn [try mret Go_ret];
  rewrite bind_run, Hid; cbn [try mret Go_ret].

Ltac fetch_and_refuse Hget Hauth Hne :=
  rewrite bind_run, (fetchKey_found _ _ _ _ _ _ Hget);
  rewrite bind_run, (authorize_refused _ _ _ _ _ _ _ _ Hauth Hne); reflexivity.

(** X2. A request that [authorizeRequest] does not let through is answered
    at once, and the handler does nothing more: the reply is the error of
    [authorizeRequest] as InternalServerError when there is one -- even
    beside [allow = true] -- and Unauthorized otherwise, and the key manager
    is left as [GetKey] left it, without a call of [DeleteKey],
    [UpdateAccess], [AddVersion] or [UpdateVersion]. *)
Theorem refused_request_is_answered_without_acting key principal access allowed authzErr :
  authorizeRequest D key principal access = (allowed, authzErr) ->
  (allowed, authzErr) <> (true, None) ->
  (forall m parameters status w w',
     access = knox.Read ->
     statusParameter D parameters status ->
     GetKey m (index parameters "keyID") status w = (inr key, w') ->
     getKeyHandler D m principal parameters w
     = (Return (notAuthorized principal "read" (index parameters "keyID") authzErr), w'))
  /\ (forall m parameters w w',
        access = knox.Admin ->
        GetKey m (index parameters "keyID") knox.Primary w = (inr key, w') ->
        deleteKeyHandler D m principal parameters w
        = (Return (notAuthorized principal "delete" (index parameters "keyID") authzErr), w'))
  /\ (forall m parameters acl w w',
        access = knox.Admin ->
        requestedRules D parameters w = (Next acl, w) ->
        GetKey m (index parameters "keyID") knox.Primary w = (inr key, w') ->
        putAccessHandler D m principal parameters w
        = (Return (notAuthorized principal "update access for" (index parameters "keyID")
                     authzErr), w'))
  /\ (forall m parameters decodedData w w',
        access = knox.Write ->
        dataParameter D parameters decodedData ->
        GetKey m (index parameters "keyID") knox.Inactive w = (inr key, w') ->
        postVersionHandler D m principal parameters w
        = (Return (notAuthorized principal "write" (index parameters "keyID") authzErr), w'))
  /\ (forall m parameters status id w w',
        access = knox.Write ->
        versionParameters D parameters status id ->
        GetKey m (index parameters "keyID") knox.Inactive w = (inr key, w') ->
        putVersionsHandler D m principal parameters w
        = (Return (notAuthorized principal "write" (index parameters "keyID") authzErr), w')).
Proof.
  intros Hauth Hne. repeat split.
  - intros m parameters status w w' -> Hstatus Hget. pass_status Hstatus;
      fetch_and_refuse Hget Hauth Hne.
  - intros m parameters w w' -> Hget. unfold deleteKeyHandler. fetch_and_refuse Hget Hauth Hne.
  - intros m parameters acl w w' -> Hrules Hget. unfold putAccessHandler.
    rewrite bind_run, Hrules. fetch_and_refuse Hget Hauth Hne.
  - intros m parameters decodedData w w' -> Hdata Hget. pass_data Hdata.
    fetch_and_refuse Hget Hauth Hne.
  - intros m parameters status id w w' -> Hversion Hget. pass_version Hversion.
    fetch_and_refuse Hget Hauth Hne.
Qed.

Ltac fetch_and_fail Hget :=
  rewrite bind_run, (fetchKey_failed _ _ _ _ _ _ Hget); reflexivity.

(** X3. A key that [GetKey] does not return ends the request in each of the
    six handlers of a single key: with KeyIdentifierDoesNotExist when the
    error is ErrKeyIDNotFound and with InternalServerError for any other
    error.  Nothing is authorized and nothing is changed after the failed
    lookup. *)
Theorem missing_key_ends_the_request m principal parameters getErr w w' :
  (forall status,
     statusParameter D parameters status ->
     GetKey m (index parameters "keyID") status w = (inl getErr, w') ->
     getKeyHandler D m principal parameters w
     = (Return (lookupFailure (index parameters "keyID") getErr), w'))
  /\ (GetKey m (index parameters "keyID") knox.Primary w = (inl getErr, w') ->
      deleteKeyHandler D m principal parameters w
      = (Return (lookupFailure (index parameters "keyID") getErr), w')
      /\ getAccessHandler m principal parameters w
         = (Return (lookupFailure (index parameters "keyID") getErr), w')
      /\ forall acl,
           requestedRules D parameters w = (Next acl, w) ->
           putAccessHandler D m principal parameters w
           = (Return (lookupFailure (index parameters "keyID") getErr), w'))
  /\ (GetKey m (index parameters "keyID") knox.Inactive w = (inl getErr, w') ->
      (forall decodedData,
         dataParameter D parameters decodedData ->
         postVersionHandler D m principal parameters w
         = (Return (lookupFailure (index parameters "keyID") getErr), w'))
      /\ (forall status id,
            versionParameters D parameters status id ->
            putVersionsHandler D m principal parameters w
            = (Return (lookupFailure (index parameters "keyID") getErr), w'))).
Proof.
  split; [|split].
  - intros status Hstatus Hget. pass_status Hstatus; fetch_and_fail Hget.
  - intros Hget. split; [|split].
    + unfold deleteKeyHandler. fetch_and_fail Hget.
    + unfold getAccessHandler. fetch_and_fail Hget.
    + intros acl Hrules. unfold putAccessHandler. rewrite bind_run, Hrules. fetch_and_fail Hget.
  - intros Hget. split.
    + intros decodedData Hdata. pass_data Hdata. fetch_and_fail Hget.
    + intros status id Hversion. pass_version Hversion. fetch_and_fail Hget.
Qed.

(** X4. The ACL of a key is given to every principal: a principal whom
    [authorizeRequest] refuses the key itself, and who gets Unauthorized from
    [getKeyHandler], gets the whole ACL from [getAccessHandler]. *)
Theorem getAccessHandler_serves_the_refused m principal parameters key w w' :
  GetKey m (index parameters "keyID") knox.Primary w = (inr key, w') ->
  getAccessHandler m principal parameters w = (Return (ACLValue (knox.key_ACL key), None), w')
  /\ (parameters !! "status" = None ->
      GetKey m (index parameters "keyID") knox.Active w = (inr key, w') ->
      authorizeRequest D key principal knox.Read = (false, None) ->
      exists message,
        getKeyHandler D m principal parameters w
        = (Return (Nil, errF knox.UnauthorizedCode message), w')).
Proof.
  intros Hget. split.
  - unfold getAccessHandler. by rewrite bind_run, (fetchKey_found _ _ _ _ _ _ Hget).
  - intros Hstatus Hactive Hauth. eexists.
    unfold getKeyHandler. rewrite bind_run, Hstatus. cbn [mret Go_ret].
    rewrite bind_run, (fetchKey_found _ _ _ _ _ _ Hactive).
    rewrite bind_run, (authorize_refused _ _ _ _ _ _ _ _ Hauth) by done. reflexivity.
Qed.

End HandlerProperties.

(** ** The handlers that create and change *)

Section WriteHandlerProperties.
Import golang server wording.
Context {W : Type} (D : Deps W).
Implicit Types (m : KeyManager W) (principal : knox.Principal) (key : knox.Key).
Implicit Types (parameters : gmap string string) (w : W).

(** *** postKeysHandler *)

(** The statements of [postKeysHandler] up to the call of [newKey]. *)
Lemma postKeysHandler_validated m principal parameters keyID acl decodedData w :
  auth_IsUser D principal = true ->
  createParameters D parameters keyID acl decodedData ->
  postKeysHandler D m principal parameters w
  = (key ← call (newKey D keyID acl decodedData principal);
     '(key, err) ← call (AddNewKey m key);
     match err with
     | Some err =>
         if knox.is_var err knox.KeyExists then
           return_ Nil (errF knox.KeyIdentifierExistsCode ("Key " +:+ keyID +:+ " already exists"))
         else if knox.is_var err knox.InvalidKeyID then
           return_ Nil (errF knox.BadKeyFormatCode
                          ("KeyID includes unsupported characters " +:+ keyID))
         else return_ Nil (errF knox.InternalServerErrorCode (knox.Error err))
     | None =>
         match elems (knox.key_VersionList key) with
         | v :: _ => return_ (VersionID (knox.kv_ID v)) None
         | [] => panic "runtime error: index out of range [0] with length 0"
         end
     end) w.
Proof.
  intros Huser (Hid & (data & Hdata & Hne & Hdecode) & Hacl). unfold postKeysHandler.
  rewrite bind_run. unfold check at 1. rewrite Huser. cbn [negb mret Go_ret].
  rewrite bind_run, Hid. cbn [present mret Go_ret].
  rewrite bind_run, Hdata. cbn [present mret Go_ret].
  rewrite bind_run. unfold check at 1. rewrite bool_decide_eq_false_2 by done. cbn [mret Go_ret].
  rewrite bind_run.
  assert ((match parameters !! "acl" with
           | Some aclStr =>
               try (json_Unmarshal_ACL D (bytes aclStr))
                 (fun jsonErr => errF knox.BadRequestDataCode (knox.Error jsonErr))
           | None => mret (Some [])
           end) w = (Next acl, w)) as ->.
  { destruct (parameters !! "acl"); [by rewrite Hacl|by subst]. }
  by rewrite bind_run, Hdecode.
Qed.

(** X5. For a user, [postKeysHandler] checks its parameters in the order
    [id], [data], [acl], and only then decodes [data].  A missing [id] gives
    NoKeyID, a missing [data] NoKeyData, an [acl] that is not JSON
    BadRequestData -- whether [data] decodes or not -- and a [data] that does
    not decode BadRequestData.  None of these requests reaches [newKey] or
    the key manager. *)
Theorem postKeysHandler_checks_parameters_in_order m principal parameters w :
  auth_IsUser D principal = true ->
  (parameters !! "id" = None ->
   postKeysHandler D m principal parameters w
   = (Return (Nil, errF knox.NoKeyIDCode "Missing parameter 'id'"), w))
  /\ (is_Some (parameters !! "id") -> parameters !! "data" = None ->
      postKeysHandler D m principal parameters w
      = (Return (Nil, errF knox.NoKeyDataCode "Missing parameter 'data'"), w))
  /\ (forall data aclStr jsonErr,
        is_Some (parameters !! "id") ->
        parameters !! "data" = Some data -> data <> EmptyString ->
        parameters !! "acl" = Some aclStr ->
        json_Unmarshal_ACL D (bytes aclStr) = inl jsonErr ->
        postKeysHandler D m principal parameters w
        = (Return (Nil, errF knox.BadRequestDataCode (knox.Error jsonErr)), w))
  /\ (forall data decodeErr,
        is_Some (parameters !! "id") ->
        parameters !! "data" = Some data -> data <> EmptyString ->
        (forall aclStr, parameters !! "acl" = Some aclStr ->
                        exists acl, json_Unmarshal_ACL D (bytes aclStr) = inr acl) ->
        base64_StdEncoding_DecodeString D data = inl decodeErr ->
        postKeysHandler D m principal parameters w
        = (Return (Nil, errF knox.BadRequestDataCode (knox.Error decodeErr)), w)).
Proof.
  intros Huser.
  assert (Hstart : forall k : unit -> Go W reply Empty_set,
            (check (negb (auth_IsUser D principal))
               (errF knox.UnauthorizedCode
                  ("Must be a user to create keys, principal is " +:+ knox.GetID principal))
             ≫= k) w = k tt w).
  { intros k. rewrite bind_run. unfold check. by rewrite Huser. }
  unfold postKeysHandler. rewrite Hstart. split; [|split; [|split]].
  - intros Hid. by rewrite bind_run, Hid.
  - intros [keyID Hid] Hdata. rewrite bind_run, Hid. cbn [present mret Go_ret].
    by rewrite bind_run, Hdata.
  - intros data aclStr jsonErr [keyID Hid] Hdata Hne Hacl Hjson.
    rewrite bind_run, Hid. cbn [present mret Go_ret].
    rewrite bind_run, Hdata. cbn [present mret Go_ret].
    rewrite bind_run. unfold check. rewrite bool_decide_eq_false_2 by done. cbn [mret Go_ret].
    by rewrite bind_run, Hacl, Hjson.
  - intros data decodeErr [keyID Hid] Hdata Hne Hacl Hdecode.
    rewrite bind_run, Hid. cbn [present mret Go_ret].
    rewrite bind_run, Hdata. cbn [present mret Go_ret].
    rewrite bind_run. unfold check. rewrite bool_decide_eq_false_2 by done. cbn [mret Go_ret].
    rewrite bind_run. destruct (parameters !! "acl") as [aclStr|].
    + destruct (Hacl aclStr eq_refl) as [acl ->]. cbn [try mret Go_ret].
      by rewrite bind_run, Hdecode.
    + cbn [mret Go_ret]. by rewrite bind_run, Hdecode.
Qed.

(** X6. Once the parameters are read, the reply of [postKeysHandler] is
    made of what [AddNewKey] returns: ErrKeyExists gives KeyIdentifierExists,
    ErrInvalidKeyID BadKeyFormat and any other error InternalServerError;
    without an error the reply is the ID of the first version of the key as
    [AddNewKey] left it, and the handler panics on the index when that key
    has no version. *)
Theorem postKeysHandler_replies_from_AddNewKey
    m principal parameters keyID acl decodedData key0 key1 err w w1 w2 :
  auth_IsUser D principal = true ->
  createParameters D parameters keyID acl decodedData ->
  newKey D keyID acl decodedData principal w = (key0, w1) ->
  AddNewKey m key0 w1 = ((key1, err), w2) ->
  (forall e, err = Some e -> knox.err_id e = knox.Var knox.KeyExists ->
     postKeysHandler D m principal parameters w
     = (Return (Nil, errF knox.KeyIdentifierExistsCode ("Key " +:+ keyID +:+ " already exists")),
        w2))
  /\ (forall e, err = Some e -> knox.err_id e = knox.Var knox.InvalidKeyID ->
        postKeysHandler D m principal parameters w
        = (Return (Nil, errF knox.BadKeyFormatCode
                          ("KeyID includes unsupported characters " +:+ keyID)), w2))
  /\ (forall e, err = Some e ->
        knox.err_id e <> knox.Var knox.KeyExists ->
        knox.err_id e <> knox.Var knox.InvalidKeyID ->
        postKeysHandler D m principal parameters w
        = (Return (Nil, errF knox.InternalServerErrorCode (knox.Error e)), w2))
  /\ (forall v vs, err = None -> elems (knox.key_VersionList key1) = v :: vs ->
        postKeysHandler D m principal parameters w
        = (Return (VersionID (knox.kv_ID v), None), w2))
  /\ (err = None -> elems (knox.key_VersionList key1) = [] ->
      postKeysHandler D m principal parameters w
      = (Crash "runtime error: index out of range [0] with length 0", w2)).
Proof.
  intros Huser Hparams Hnew Hadd.
  assert (Hrun : postKeysHandler D m principal parameters w
            = (match err with
               | Some err =>
                   if knox.is_var err knox.KeyExists then
                     return_ Nil (errF knox.KeyIdentifierExistsCode
                                    ("Key " +:+ keyID +:+ " already exists"))
                   else if knox.is_var err knox.InvalidKeyID then
                     return_ Nil (errF knox.BadKeyFormatCode
                                    ("KeyID includes unsupported characters " +:+ keyID))
                   else return_ Nil (errF knox.InternalServerErrorCode (knox.Error err))
               | None =>
                   match elems (knox.key_VersionList key1) with
                   | v :: _ => return_ (VersionID (knox.kv_ID v)) None
                   | [] => panic "runtime error: index out of range [0] with length 0"
                   end
               end) w2).
  { rewrite (postKeysHandler_validated _ _ _ _ _ _ _ Huser Hparams).
    rewrite bind_run. unfold call at 1. rewrite Hnew.
    rewrite bind_run. unfold call at 1. by rewrite Hadd. }
  rewrite Hrun. unfold knox.is_var. repeat split.
  - intros e -> He. by rewrite bool_decide_eq_true_2.
  - intros e -> He. rewrite bool_decide_eq_false_2 by (rewrite He; discriminate).
    by rewrite bool_decide_eq_true_2.
  - intros e -> He1 He2. by rewrite !bool_decide_eq_false_2.
  - intros v vs -> Hv. by rewrite Hv.
  - intros -> Hv. by rewrite Hv.
Qed.

(** *** putAccessHandler *)

Lemma validatePrincipals_accepts (acl : list knox.Access) w :
  Forall (acceptable D) acl -> validatePrincipals D acl w = (Next tt, w).
Proof.
  induction 1 as [|rule acl Hrule _ IH]; [done|]. cbn [validatePrincipals].
  rewrite bind_run. unfold acceptable in Hrule.
  case_bool_decide as Hnone; [rewrite (Hrule Hnone)|]; exact IH.
Qed.

Lemma validatePrincipals_rejects (before after : list knox.Access) (rule : knox.Access) e w :
  Forall (acceptable D) before ->
  knox.acc_AccessType rule <> knox.None ->
  IsValidPrincipal D (knox.acc_Type rule) (knox.acc_ID rule) = Some e ->
  validatePrincipals D (before ++ rule :: after) w
  = (Return (Nil, errF knox.BadPrincipalIdentifier (knox.Error e)), w).
Proof.
  intros Hbefore Hnone Hinvalid. induction Hbefore as [|rule' before Hrule _ IH].
  - cbn [app validatePrincipals]. rewrite bind_run.
    by rewrite bool_decide_eq_true_2, Hinvalid.
  - cbn [app validatePrincipals]. rewrite bind_run. unfold acceptable in Hrule.
    case_bool_decide as Hnone'; [rewrite (Hrule Hnone')|]; exact IH.
Qed.

(** X7. An authorized [putAccessHandler] validates the principal of every
    rule that grants something, in order, before it changes the ACL.  The
    first rule whose principal is not valid ends the request with
    BadPrincipalIdentifier and [UpdateAccess] is not called, whatever the
    rules after it are; a rule with access type None is never validated.
    When every rule passes, [UpdateAccess] gets all the rules of the request
    and its error, if any, is an InternalServerError. *)
Theorem putAccessHandler_validates_before_updating m principal parameters acl key w w1 :
  requestedRules D parameters w = (Next acl, w) ->
  GetKey m (index parameters "keyID") knox.Primary w = (inr key, w1) ->
  authorizeRequest D key principal knox.Admin = (true, None) ->
  (forall before rule after e,
     elems acl = before ++ rule :: after ->
     Forall (acceptable D) before ->
     knox.acc_AccessType rule <> knox.None ->
     IsValidPrincipal D (knox.acc_Type rule) (knox.acc_ID rule) = Some e ->
     putAccessHandler D m principal parameters w
     = (Return (Nil, errF knox.BadPrincipalIdentifier (knox.Error e)), w1))
  /\ (Forall (acceptable D) (elems acl) ->
      putAccessHandler D m principal parameters w
      = (Return (Nil, match (UpdateAccess m (index parameters "keyID") acl w1).1 with
                      | Some updateErr =>
                          errF knox.InternalServerErrorCode (knox.Error updateErr)
                      | None => None
                      end),
         (UpdateAccess m (index parameters "keyID") acl w1).2))
  /\ (forall rule, knox.acc_AccessType rule = knox.None -> acceptable D rule).
Proof.
  intros Hrules Hget Hauth.
  assert (Hstart : putAccessHandler D m principal parameters w
            = (validatePrincipals D (elems acl);;
               updateErr ← call (UpdateAccess m (index parameters "keyID") acl);
               match updateErr with
               | Some updateErr =>
                   return_ Nil (errF knox.InternalServerErrorCode (knox.Error updateErr))
               | None => return_ Nil None
               end) w1).
  { unfold putAccessHandler. rewrite bind_run, Hrules.
    rewrite bind_run, (fetchKey_found _ _ _ _ _ _ Hget).
    by rewrite bind_run, (authorize_granted _ _ _ _ _ _ _ Hauth). }
  rewrite Hstart. split; [|split].
  - intros before rule after e -> Hbefore Hnone Hinvalid.
    by rewrite bind_run, (validatePrincipals_rejects _ _ _ _ _ Hbefore Hnone Hinvalid).
  - intros Hall. rewrite bind_run, (validatePrincipals_accepts _ _ Hall).
    rewrite bind_run. unfold call.
    by destruct (UpdateAccess m (index parameters "keyID") acl w1) as [[updateErr|] w2].
  - intros rule Hnone Hgrants. by destruct Hgrants.
Qed.

(** *** postVersionHandler *)

(** X8. [postVersionHandler] reads [data] before it looks the key up: a
    [data] that is missing, empty, not base64 or decoded to nil is a
    BadRequestData, and the key manager is not called.  On an authorized
    request the new version is made Active and the reply is the ID of the
    version as [AddVersion] left it, or InternalServerError with the error of
    [AddVersion]. *)
Theorem postVersionHandler_checks_data_then_adds m principal parameters w :
  (parameters !! "data" = None ->
   postVersionHandler D m principal parameters w
   = (Return (Nil, errF knox.BadRequestDataCode "Missing parameter 'data'"), w))
  /\ (parameters !! "data" = Some EmptyString ->
      postVersionHandler D m principal parameters w
      = (Return (Nil, errF knox.BadRequestDataCode "Parameter 'data' is empty"), w))
  /\ (forall dataStr decodeErr,
        parameters !! "data" = Some dataStr -> dataStr <> EmptyString ->
        base64_StdEncoding_DecodeString D dataStr = inl decodeErr ->
        postVersionHandler D m principal parameters w
        = (Return (Nil, errF knox.BadRequestDataCode (knox.Error decodeErr)), w))
  /\ (forall dataStr,
        parameters !! "data" = Some dataStr -> dataStr <> EmptyString ->
        base64_StdEncoding_DecodeString D dataStr = inr None ->
        postVersionHandler D m principal parameters w
        = (Return (Nil, errF knox.BadRequestDataCode "Parameter 'data' decoded to nil"), w))
  /\ (forall decodedData key version0 version1 err w1 w2 w3,
        dataParameter D parameters decodedData ->
        GetKey m (index parameters "keyID") knox.Inactive w = (inr key, w1) ->
        authorizeRequest D key principal knox.Write = (true, None) ->
        newKeyVersion D decodedData knox.Active w1 = (version0, w2) ->
        AddVersion m (index parameters "keyID") version0 w2 = ((version1, err), w3) ->
        postVersionHandler D m principal parameters w
        = (Return (match err with
                   | Some e => (Nil, errF knox.InternalServerErrorCode (knox.Error e))
                   | None => (VersionID (knox.kv_ID version1), None)
                   end), w3)).
Proof.
  split; [|split; [|split; [|split]]].
  - intros Hdata. unfold postVersionHandler. by rewrite bind_run, Hdata.
  - intros Hdata. unfold postVersionHandler. rewrite bind_run, Hdata. cbn [present mret Go_ret].
    by rewrite bind_run.
  - intros dataStr decodeErr Hdata Hne Hdecode. unfold postVersionHandler.
    rewrite bind_run, Hdata. cbn [present mret Go_ret].
    rewrite bind_run. unfold check at 1. rewrite bool_decide_eq_false_2 by done.
    cbn [mret Go_ret]. by rewrite bind_run, Hdecode.
  - intros dataStr Hdata Hne Hdecode. unfold postVersionHandler.
    rewrite bind_run, Hdata. cbn [present mret Go_ret].
    rewrite bind_run. unfold check at 1. rewrite bool_decide_eq_false_2 by done.
    cbn [mret Go_ret]. rewrite bind_run, Hdecode. cbn [try mret Go_ret].
    by rewrite bind_run.
  - intros decodedData key version0 version1 err w1 w2 w3 Hdata Hget Hauth Hnew Hadd.
    destruct Hdata as (dataStr & Hp & Hne & Hdec & Hnil).
    unfold postVersionHandler. rewrite bind_run, Hp. cbn [present mret Go_ret].
    rewrite bind_run. unfold check at 1. rewrite bool_decide_eq_false_2 by done.
    cbn [mret Go_ret]. rewrite bind_run, Hdec. cbn [try mret Go_ret].
    rewrite bind_run. unfold check at 1. rewrite bool_decide_eq_false_2 by done.
    cbn [mret Go_ret].
    rewrite bind_run, (fetchKey_found _ _ _ _ _ _ Hget).
    rewrite bind_run, (authorize_granted _ _ _ _ _ _ _ Hauth).
    rewrite bind_run. unfold call at 1. rewrite Hnew.
    rewrite bind_run. unfold call at 1. rewrite Hadd. by destruct err.
Qed.

(** *** putVersionsHandler *)

(** X9. [putVersionsHandler] reads [status] and then [versionID] before it
    looks the key up: a [status] that is missing or is not a status, and a
    [versionID] that is not an unsigned number, are each a BadRequestData,
    and the key manager is not called -- a bad [status] is reported even
    when [versionID] is bad as well.  On an authorized request that
    [UpdateVersion] accepts the reply is empty. *)
Theorem putVersionsHandler_checks_status_then_version m principal parameters w :
  (parameters !! "status" = None ->
   putVersionsHandler D m principal parameters w
   = (Return (Nil, errF knox.BadRequestDataCode "Missing parameter 'status'"), w))
  /\ (forall statusStr statusErr,
        parameters !! "status" = Some statusStr ->
        VersionStatus_UnmarshalJSON D (bytes statusStr) = inl statusErr ->
        putVersionsHandler D m principal parameters w
        = (Return (Nil, errF knox.BadRequestDataCode (knox.Error statusErr)), w))
  /\ (forall statusStr status intErr,
        parameters !! "status" = Some statusStr ->
        VersionStatus_UnmarshalJSON D (bytes statusStr) = inr status ->
        strconv_ParseUint D (index parameters "versionID") = inl intErr ->
        putVersionsHandler D m principal parameters w
        = (Return (Nil, errF knox.BadRequestDataCode (knox.Error intErr)), w))
  /\ (forall status id key w1 w2,
        versionParameters D parameters status id ->
        GetKey m (index parameters "keyID") knox.Inactive w = (inr key, w1) ->
        authorizeRequest D key principal knox.Write = (true, None) ->
        UpdateVersion m (index parameters "keyID") id status w1 = (None, w2) ->
        putVersionsHandler D m principal parameters w = (Return (Nil, None), w2)).
Proof.
  split; [|split; [|split]].
  - intros Hstatus. unfold putVersionsHandler. by rewrite bind_run, Hstatus.
  - intros statusStr statusErr Hstatus Hparse. unfold putVersionsHandler.
    rewrite bind_run, Hstatus. cbn [present mret Go_ret]. by rewrite bind_run, Hparse.
  - intros statusStr status intErr Hstatus Hparse Hid. unfold putVersionsHandler.
    rewrite bind_run, Hstatus. cbn [present mret Go_ret].
    rewrite bind_run, Hparse. cbn [try mret Go_ret]. by rewrite bind_run, Hid.
  - intros status id key w1 w2 [(statusStr & Hstatus & Hparse) Hid] Hget Hauth Hupdate.
    unfold putVersionsHandler. rewrite bind_run, Hstatus. cbn [present mret Go_ret].
    rewrite bind_run, Hparse. cbn [try mret Go_ret].
    rewrite bind_run, Hid. cbn [try mret Go_ret].
    rewrite bind_run, (fetchKey_found _ _ _ _ _ _ Hget).
    rewrite bind_run, (authorize_granted _ _ _ _ _ _ _ Hauth).
    rewrite bind_run. unfold call. by rewrite Hupdate.
Qed.

End WriteHandlerProperties.

(** ** The register file as a set of IDs *)

Section RegisterFileProperties.
Import golang client wording.
Context (L : Deps) (sys : Faults).
Implicit Types (w : gmap string file) (ids ks : list string) (fn : string).

Lemma rereadsLines_rereadsFields : rereadsLines L -> rereadsFields L.
Proof.
  intros Hlines s ids Hids. apply Hlines, Forall_forall. intros id Hid. exists s. by apply Hids.
Qed.




(** *** Overwrite *)



(** *** Read errors *)


(** *** What is read back after a write *)





End RegisterFileProperties.

(** ** processKey: what is checked before a file is written *)

Section ProcessKeyProperties.
Import golang client wording.
Context (L : Deps) (sys : Faults).
Implicit Types (d : daemon) (w : gmap string file).

Lemma contains_app (c : ascii) (s1 s2 : string) :
  contains c (s1 +:+ s2) = contains c s1 || contains c s2.
Proof.
  induction s1 as [|a s1 IH]; [done|].
  change (String a s1 +:+ s2) with (String a (s1 +:+ s2)). cbn [contains].
  by rewrite IH, orb_assoc.
Qed.

(** X14. A key of the server is checked before any file is made.  A key
    with an empty ID, no ACL, no version list or an empty version hash is
    answered with "invalid key content returned"; for an ID with the tink
    prefix a keyset handle that cannot be built or converted, and for every
    ID a key that cannot be marshalled, is answered with the error of that
    step.  In each case the files are as they were: the previous key file
    stays. *)
Theorem processKey_rejects_before_writing d keyID key w :
  NetworkGetKey (cli d) keyID = inr key ->
  let failure text err :=
    (Return (Some (knox.Errorf (text +:+ keyID +:+ ": " +:+ knox.Error err))), w) in
  (~ validKey key ->
   processKey L sys d keyID w = (Return (Some (knox.Errorf "invalid key content returned")), w))
  /\ (validKey key ->
      if String.prefix tinkPrefix keyID then
        match getTinkKeysetHandleFromKnoxVersionList L (knox.key_VersionList key) with
        | inl err =>
            processKey L sys d keyID w
            = failure "Error fetching keyset handle for this tink key " err
        | inr keysetHandle =>
            match convertTinkKeysetHandleToBytes L keysetHandle with
            | inl err =>
                processKey L sys d keyID w
                = failure "Error converting tink keyset handle to bytes " err
            | inr tinkKeyset =>
                forall err,
                  json_Marshal L
                    (knox.mkKey (knox.key_ID key) (knox.key_ACL key) (knox.key_VersionList key)
                       (knox.key_VersionHash key)
                       (base64_StdEncoding_EncodeToString L tinkKeyset))
                  = inl err ->
                  processKey L sys d keyID w = failure "Error marshalling key " err
            end
        end
      else
        forall err,
          json_Marshal L key = inl err ->
          processKey L sys d keyID w = failure "Error marshalling key " err).
Proof.
  intros Hget failure. subst failure. unfold processKey.
  rewrite bind_run, Hget. cbn [mret Go_ret]. rewrite bind_run. split.
  - intros Hinvalid.
    assert (bool_decide (knox.key_ID key = EmptyString) || bool_decide (knox.key_ACL key = None)
            || bool_decide (knox.key_VersionList key = None)
            || bool_decide (knox.key_VersionHash key = EmptyString) = true) as ->; [|done].
    rewrite !orb_true_iff, !bool_decide_eq_true.
    destruct (decide (knox.key_ID key = EmptyString)); [tauto|].
    destruct (decide (knox.key_ACL key = None)); [tauto|].
    destruct (decide (knox.key_VersionList key = None)); [tauto|].
    destruct (decide (knox.key_VersionHash key = EmptyString)); [tauto|].
    by destruct Hinvalid.
  - intros (Hid & Hacl & Hversions & Hhash).
    rewrite !bool_decide_eq_false_2 by done. cbn [orb mret Go_ret]. rewrite bind_run.
    destruct (String.prefix tinkPrefix keyID).
    + rewrite bind_run.
      destruct (getTinkKeysetHandleFromKnoxVersionList L (knox.key_VersionList key))
        as [err|keysetHandle]; [done|].
      cbn [try mret Go_ret]. rewrite bind_run.
      destruct (convertTinkKeysetHandleToBytes L keysetHandle) as [err|tinkKeyset]; [done|].
      cbn [try mret Go_ret]. intros err Hjson. by rewrite bind_run, Hjson.
    + cbn [mret Go_ret]. intros err Hjson. by rewrite bind_run, Hjson.
Qed.

(** X15. The permissions of the key file are opened last.  After the
    rename the key file holds the new content with the mode of the temporary
    file, 0600; [os.Chmod] then sets 0666 and [processKey] returns nil.
    When [os.Chmod] fails, [processKey] returns its error and the new key
    stays in place with mode 0600. *)
Theorem processKey_opens_permissions_last d keyID b tmpFile w :
  fetched L d keyID b ->
  (os_CreateTemp sys (dir d) (".*." +:+ keyID +:+ ".tmp") w).1 = inr tmpFile ->
  Write_fails sys = None -> Rename_fails sys = None ->
  processKey L sys d keyID w
  = match Chmod_fails sys with
    | None => (Return None, <[keyFilename L d keyID := mkFile b 438 (* 0666 *)]> w)
    | Some err =>
        (Return (Some (knox.Errorf ("Failed to open up key file permissions: "
                                    +:+ knox.Error err))),
         <[keyFilename L d keyID := mkFile b 384 (* 0600 *)]> w)
    end.
Proof.
  intros Hfetched Htmp Hwrite Hrename.
  rewrite (processKey_fetched _ _ _ _ _ _ Hfetched).
  destruct (os_CreateTemp_cases sys (dir d) (".*." +:+ keyID +:+ ".tmp") w)
    as [(e0 & Hfailed)|(tmp & Hfree & Hcreated)].
  { by rewrite Hfailed in Htmp. }
  rewrite (replaceKeyFile_created _ _ _ _ _ _ _ Hfree Hcreated), Hwrite, Hrename.
  by destruct (Chmod_fails sys).
Qed.

(** X16. A key whose ID holds a path separator is never written: the
    pattern of the temporary file holds the ID, [os.CreateTemp] refuses a
    pattern with a separator, and [processKey] returns that error with the
    files as they were. *)
Theorem processKey_refuses_path_separator d keyID b w :
  fetched L d keyID b ->
  contains "/" keyID = true ->
  exists err,
    processKey L sys d keyID w
    = (Return (Some (knox.Errorf ("Error opening tmp file for key " +:+ keyID +:+ ": "
                                  +:+ knox.Error err))), w).
Proof.
  intros Hfetched Hseparator.
  rewrite (processKey_fetched _ _ _ _ _ _ Hfetched).
  unfold replaceKeyFile. rewrite bind_run. unfold call at 1, os_CreateTemp.
  rewrite !contains_app, Hseparator, orb_true_r. cbn [orb].
  eexists. reflexivity.
Qed.

End ProcessKeyProperties.

(** ** update *)

Section UpdateProperties.
Import golang client wording.
Context (L : Deps) (sys : Faults) (H : Host).
Implicit Types (d : daemon) (w : gmap string file) (p : process) (keyMap : gmap string string).

Lemma replaceKeyFile_returns d keyID b w :
  exists r w', replaceKeyFile L sys d keyID b w = (Return r, w').
Proof.
  destruct (os_CreateTemp_cases sys (dir d) (".*." +:+ keyID +:+ ".tmp") w)
    as [(e & Hfailed)|(tmpFile & Hfree & Hcreated)].
  - unfold replaceKeyFile. rewrite bind_run. unfold call at 1. rewrite Hfailed. by eexists _, _.
  - rewrite (replaceKeyFile_created L sys d keyID b tmpFile w Hfree Hcreated).
    destruct (Write_fails sys), (Rename_fails sys), (Chmod_fails sys); by eexists _, _.
Qed.

(** [processKey] has no statement that panics: it returns. *)
Lemma processKey_returns d keyID w :
  exists r w', processKey L sys d keyID w = (Return r, w').
Proof.
  unfold processKey. rewrite bind_run.
  destruct (NetworkGetKey (cli d) keyID) as [err|key].
  { rewrite bind_run.
    destruct (bool_decide (knox.Error err = "User or machine not authorized")
              || bool_decide (knox.Error err = "Key identifer does not exist"));
      by eexists _, _. }
  cbn [mret Go_ret]. rewrite bind_run.
  destruct (bool_decide (knox.key_ID key = EmptyString) || bool_decide (knox.key_ACL key = None)
            || bool_decide (knox.key_VersionList key = None)
            || bool_decide (knox.key_VersionHash key = EmptyString)); [by eexists _, _|].
  cbn [mret Go_ret]. rewrite bind_run.
  destruct (String.prefix tinkPrefix keyID).
  - rewrite bind_run.
    destruct (getTinkKeysetHandleFromKnoxVersionList L (knox.key_VersionList key))
      as [err|keysetHandle]; [by eexists _, _|].
    cbn [try mret Go_ret]. rewrite bind_run.
    destruct (convertTinkKeysetHandleToBytes L keysetHandle) as [err|tinkKeyset];
      [by eexists _, _|].
    cbn [try mret Go_ret]. rewrite bind_run.
    destruct (json_Marshal L _) as [err|b]; [by eexists _, _|].
    cbn [try mret Go_ret]. apply replaceKeyFile_returns.
  - cbn [mret Go_ret]. rewrite bind_run.
    destruct (json_Marshal L key) as [err|b]; [by eexists _, _|].
    cbn [try mret Go_ret]. apply replaceKeyFile_returns.
Qed.

Lemma deleteKey_files d keyID w :
  (deleteKey L d keyID w).2 = delete (keyFilename L d keyID) w.
Proof.
  unfold deleteKey, os_Remove.
  destruct (w !! keyFilename L d keyID) eqn:Hfile; [done|]. cbn [snd]. by rewrite delete_id.
Qed.

Lemma elems_foldl_append (names : list string) (out : slice string) :
  elems (foldl append out names) = elems out ++ names.
Proof.
  revert out. induction names as [|name names IH]; intros out; cbn [foldl].
  - by rewrite app_nil_r.
  - rewrite IH. unfold append, elems. simpl. by rewrite <- app_assoc.
Qed.

(** The first loop: the map keeps its keys, the files are only deleted, and
    among them only key files of the IDs listed. *)
Lemma cachedKeys_deletes (names : list string) keyMap p :
  exists keyMap' w',
    cachedKeys L H (Some names) keyMap p = (Next keyMap', mkProcess w' (this p) (calls p))
    /\ dom keyMap' = dom keyMap
    /\ (forall id, id ∉ names -> keyMap' !! id = keyMap !! id)
    /\ w' ⊆ files p
    /\ (forall id, id ∈ names -> keyMap !! id = None ->
        w' !! keyFilename L (this p) id = None)
    /\ (forall name, (forall id, id ∈ names -> name <> keyFilename L (this p) id) ->
        w' !! name = files p !! name).
Proof.
  revert keyMap p. induction names as [|keyID names IH]; intros keyMap p.
  { exists keyMap, (files p). destruct p. repeat split; try done.
    by intros id Hid%elem_of_nil. }
  (* one turn of the loop *)
  assert (exists keyMap1 w1,
    cachedKeys L H (Some (keyID :: names)) keyMap p
    = cachedKeys L H (Some names) keyMap1 (mkProcess w1 (this p) (calls p))
    /\ dom keyMap1 = dom keyMap
    /\ (forall id, id <> keyID -> keyMap1 !! id = keyMap !! id)
    /\ (w1 = files p \/ w1 = delete (keyFilename L (this p) keyID) (files p))
    /\ (keyMap !! keyID = None -> w1 = delete (keyFilename L (this p) keyID) (files p)))
    as (keyMap1 & w1 & -> & Hdom1 & Hsame1 & Hfiles1 & Hgone1).
  { pose proof (deleteKey_files (this p) keyID (files p)) as Hdel.
    assert (Hturn : forall keyMap1 (c : Go process (option knox.error) (gmap string string)) p1,
              c p = (Next keyMap1, p1) ->
              (c ≫= fun s' => cachedKeys L H (Some names) s') p
              = cachedKeys L H (Some names) keyMap1 p1).
    { intros keyMap1 c p1 Hc. by rewrite bind_run, Hc. }
    destruct (keyMap !! keyID) as [hash|] eqn:Hpresent;
      [destruct (CacheGetKey H keyID (files p)) as [err|key] eqn:Hcache;
       [destruct (os_Stat H (keyFilename L (this p) keyID) (files p)) as [err'|] eqn:Hstat|]|].
    - exists keyMap, (files p). split; [|repeat split; auto; congruence].
      apply Hturn. rewrite Hpresent, bind_run. unfold method at 1. rewrite Hcache.
      rewrite bind_run. unfold method at 1. cbn [this files calls]. rewrite Hstat.
      by destruct p.
    - exists keyMap, (delete (keyFilename L (this p) keyID) (files p)). split; [|repeat split; auto; congruence].
      apply Hturn. rewrite Hpresent, bind_run. unfold method at 1. rewrite Hcache.
      rewrite bind_run. unfold method at 1. cbn [this files calls]. rewrite Hstat.
      rewrite bind_run. unfold method at 1, call. cbn [this files calls].
      destruct (deleteKey L (this p) keyID (files p)) as [err' w1]. cbn [snd] in Hdel.
      by subst w1.
    - exists (<[keyID := knox.key_VersionHash key]> keyMap), (files p).
      split; [|split; [|split; [|split; auto; congruence]]].
      + apply Hturn. rewrite Hpresent, bind_run. unfold method at 1. rewrite Hcache.
        by destruct p.
      + rewrite dom_insert_L. apply elem_of_dom_2 in Hpresent. set_solver.
      + intros id Hid. by rewrite lookup_insert_ne.
    - exists keyMap, (delete (keyFilename L (this p) keyID) (files p)). split; [|repeat split; auto; congruence].
      apply Hturn. rewrite Hpresent, bind_run. unfold method at 1, call.
      destruct (deleteKey L (this p) keyID (files p)) as [err' w1]. cbn [snd] in Hdel.
      by subst w1. }
  destruct (IH keyMap1 (mkProcess w1 (this p) (calls p)))
    as (keyMap' & w' & -> & Hdom & Hsame & Hsub & Hgone & Hkept).
  cbn [this files calls] in *.
  assert (Hsub1 : w1 ⊆ files p).
  { destruct Hfiles1 as [->| ->]; [done|apply delete_subseteq]. }
  exists keyMap', w'. split; [done|]. split; [congruence|]. split; [|split; [|split]].
  - intros id Hid. rewrite not_elem_of_cons in Hid. destruct Hid as [Hne Hid].
    rewrite (Hsame id Hid). by apply Hsame1.
  - by transitivity w1.
  - intros id Hid Hmissing. apply elem_of_cons in Hid as [->|Hid].
    + apply (lookup_weaken_None w' w1); [|done].
      rewrite (Hgone1 Hmissing). apply lookup_delete_eq.
    + destruct (decide (id = keyID)) as [->|Hne].
      * apply (lookup_weaken_None w' w1); [|done].
        rewrite (Hgone1 Hmissing). apply lookup_delete_eq.
      * apply Hgone; [done|]. by rewrite Hsame1.
  - intros name Hname. rewrite Hkept.
    + destruct Hfiles1 as [->| ->]; [done|].
      apply lookup_delete_ne. intros Heq. apply (Hname keyID); [left|done].
    + intros id Hid. apply Hname. by right.
Qed.

Lemma processKey_fetch_error d keyID err w :
  NetworkGetKey (cli d) keyID = inl err ->
  exists e w', processKey L sys d keyID w = (Return (Some e), w').
Proof.
  intros Hget. unfold processKey. rewrite bind_run, Hget, bind_run.
  destruct (bool_decide (knox.Error err = "User or machine not authorized")
            || bool_decide (knox.Error err = "Key identifer does not exist"));
    by eexists _, _.
Qed.

Lemma counted_zero d : (getKeyErrCount d < 2 ^ 64)%N -> counted d 0 = d.
Proof. intros Hbound. destruct d. unfold counted. cbn. by rewrite N.add_0_r, N.mod_small. Qed.

Lemma counted_more d (n : N) : counted (counted d 1) n = counted d (1 + n).
Proof.
  unfold counted. cbn. f_equal. rewrite N.Div0.add_mod_idemp_l. f_equal. lia.
Qed.

(** One turn of the second loop. *)
Lemma processKeys_turn k (updatedKeys : list string) p :
  exists r w1,
    processKey L sys (this p) k (files p) = (Return r, w1)
    /\ processKeys L sys (k :: updatedKeys) p
       = processKeys L sys updatedKeys
           (mkProcess w1 (match r with Some _ => counted (this p) 1 | None => this p end)
              (calls p)).
Proof.
  destruct (processKey_returns (this p) k (files p)) as (r & w1 & Hk).
  exists r, w1. split; [done|].
  unfold processKeys. cbn [range]. rewrite bind_run, bind_run.
  unfold method at 1, invoke. rewrite Hk. by destruct r.
Qed.

(** The second loop goes through all of [updatedKeys], whatever
    [processKey] returns, and leaves the calls as they are. *)
Lemma processKeys_returns (updatedKeys : list string) p :
  exists w' d', processKeys L sys updatedKeys p = (Next tt, mkProcess w' d' (calls p)).
Proof.
  revert p. induction updatedKeys as [|k updatedKeys IH]; intros p.
  { exists (files p), (this p). by destruct p. }
  destruct (processKeys_turn k updatedKeys p) as (r & w1 & _ & ->).
  apply (IH (mkProcess w1 _ (calls p))).
Qed.

(** It changes the daemon in its counter only, by one for each error. *)
Lemma processKeys_counts (updatedKeys : list string) p :
  (getKeyErrCount (this p) < 2 ^ 64)%N ->
  exists w' (n : N),
    processKeys L sys updatedKeys p
    = (Next tt, mkProcess w' (counted (this p) n) (calls p))
    /\ (n <= N.of_nat (length updatedKeys))%N
    /\ ((forall k, k ∈ updatedKeys -> exists err, NetworkGetKey (cli (this p)) k = inl err) ->
        n = N.of_nat (length updatedKeys)).
Proof.
  revert p. induction updatedKeys as [|k updatedKeys IH]; intros p Hbound.
  { exists (files p), 0%N. rewrite (counted_zero _ Hbound). by destruct p. }
  destruct (processKeys_turn k updatedKeys p) as (r & w1 & Hk & ->).
  destruct r as [e|].
  - destruct (IH (mkProcess w1 (counted (this p) 1) (calls p)))
      as (w' & n & -> & Hle & Hall).
    { cbn. apply N.mod_lt. done. }
    exists w', (1 + n)%N. cbn [this calls]. rewrite counted_more.
    split; [done|]. split; [cbn [length]; lia|].
    intros Hfail. rewrite Hall; [cbn [length]; lia|].
    intros k' Hk'. apply Hfail. by right.
  - destruct (IH (mkProcess w1 (this p) (calls p))) as (w' & n & -> & Hle & Hall); [done|].
    exists w', n. split; [done|]. split; [cbn [length]; lia|].
    intros Hfail. destruct (Hfail k) as [err Hget]; [left|].
    destruct (processKey_fetch_error (this p) k err (files p) Hget) as (e & w2 & Hk2).
    rewrite Hk in Hk2. discriminate.
Qed.

(** The map [update] starts from: every registered ID, with the empty
    hash. *)
Lemma keyMap_lookup (keyIDs : list string) keyMap (id : string) :
  foldl (fun keyMap k => <[k := EmptyString]> keyMap) keyMap keyIDs !! id
  = if decide (id ∈ keyIDs) then Some EmptyString else keyMap !! id.
Proof.
  revert keyMap. induction keyIDs as [|k keyIDs IH]; intros keyMap; cbn [foldl].
  { case_decide as Hin; [by apply elem_of_nil in Hin|done]. }
  rewrite IH. destruct (decide (id ∈ keyIDs)) as [Hin|Hnotin].
  - rewrite decide_True; [done|by right].
  - destruct (decide (id = k)) as [->|Hne].
    + rewrite decide_True; [|left]. by rewrite lookup_insert_eq.
    + rewrite decide_False; [by rewrite lookup_insert_ne|].
      rewrite elem_of_cons. tauto.
Qed.

Lemma keyMap_dom (keyIDs : list string) :
  dom (foldl (fun keyMap k => <[k := EmptyString]> keyMap) (∅ : gmap string string) keyIDs)
  = list_to_set keyIDs.
Proof.
  apply set_eq. intros id. rewrite elem_of_dom, keyMap_lookup, elem_of_list_to_set.
  case_decide as Hin; [by split; [|eexists]|].
  rewrite lookup_empty. split; [by intros [? ?]|done].
Qed.

Lemma keyMap_size (keyIDs : list string) keyMap :
  dom keyMap = list_to_set keyIDs -> 0 < size keyMap <-> keyIDs <> [].
Proof.
  intros Hdom. rewrite <- size_dom, Hdom. destruct keyIDs as [|k keyIDs].
  - rewrite list_to_set_nil, size_empty. split; [lia|done].
  - split; [done|]. intros _.
    assert (size (list_to_set (C := gset string) (k :: keyIDs)) <> 0); [|lia].
    rewrite size_empty_iff. set_solver.
Qed.

(** [update] once the lock is held, the register file is read and the key
    files are listed. *)
Lemma update_body_run p1 (keyIDs names : list string) :
  Get (registerKeyFile (this p1)) (files p1) = inr keyIDs ->
  os_ReadDir H (keyDir L (this p1)) (files p1) = inr names ->
  exists keyMap w2,
    (dom keyMap = list_to_set keyIDs
     /\ (forall id, id ∈ keyIDs -> id ∉ names -> keyMap !! id = Some EmptyString)
     /\ w2 ⊆ files p1
     /\ (forall id, id ∈ names -> id ∉ keyIDs -> w2 !! keyFilename L (this p1) id = None)
     /\ (forall name, (forall id, id ∈ names -> name <> keyFilename L (this p1) id) ->
         w2 !! name = files p1 !! name))
    /\ update_body L sys H p1
       = match keyIDs with
         | [] => (Return None, mkProcess w2 (this p1) (calls p1))
         | _ :: _ =>
             let p2 := mkProcess w2 (this p1) (calls p1 ++ [CallGetKeys keyMap]) in
             match GetKeys H keyMap with
             | inl err => (Return (Some err), p2)
             | inr updatedKeys => (Return None, (processKeys L sys updatedKeys p2).2)
             end
         end.
Proof.
  intros Hget Hlist.
  destruct (cachedKeys_deletes names
              (foldl (fun keyMap k => <[k := EmptyString]> keyMap) ∅ keyIDs) p1)
    as (keyMap & w2 & Hloop & Hdom & Hsame & Hsub & Hgone & Hkept).
  rewrite keyMap_dom in Hdom.
  exists keyMap, w2. split.
  { split; [done|]. split; [|split; [done|split; [|done]]].
    - intros id Hin Hnotin. rewrite (Hsame id Hnotin), keyMap_lookup. by rewrite decide_True.
    - intros id Hin Hnotin. apply Hgone; [done|].
      rewrite keyMap_lookup. by rewrite decide_False. }
  unfold update_body. rewrite bind_run. unfold method at 1. rewrite Hget.
  rewrite bind_run. cbn [try mret Go_ret]. rewrite bind_run. unfold method at 1.
  cbn [this files calls]. unfold currentRegisteredKeys. rewrite Hlist.
  rewrite bind_run. cbn [try mret Go_ret]. rewrite bind_run.
  replace (cachedKeys L H (foldl append None names)) with (cachedKeys L H (Some names)).
  2:{ unfold cachedKeys. by rewrite elems_foldl_append. }
  replace (mkProcess (files p1) (this p1) (calls p1)) with p1 by by destruct p1.
  rewrite Hloop. rewrite bind_run.
  pose proof (keyMap_size keyIDs keyMap Hdom) as Hsize.
  destruct keyIDs as [|k keyIDs].
  - rewrite bool_decide_eq_false_2; [done|]. rewrite Hsize. tauto.
  - rewrite bool_decide_eq_true_2; [|by apply Hsize].
    rewrite bind_run. unfold record at 1. cbn [this files calls]. rewrite bind_run.
    destruct (GetKeys H keyMap) as [err|updatedKeys]; [done|].
    cbn [try mret Go_ret].
    destruct (processKeys_returns updatedKeys
                (mkProcess w2 (this p1) (calls p1 ++ [CallGetKeys keyMap])))
      as (w3 & d3 & ->). done.
Qed.

Lemma update_body_Get_fails p1 err :
  Get (registerKeyFile (this p1)) (files p1) = inl err ->
  update_body L sys H p1 = (Return (Some err), p1).
Proof.
  intros Hget. unfold update_body. rewrite bind_run. unfold method at 1.
  rewrite Hget. by destruct p1.
Qed.

Lemma update_body_listing_fails p1 (keyIDs : list string) err :
  Get (registerKeyFile (this p1)) (files p1) = inr keyIDs ->
  os_ReadDir H (keyDir L (this p1)) (files p1) = inl err ->
  update_body L sys H p1 = (Return (Some err), p1).
Proof.
  intros Hget Hlist. unfold update_body. rewrite bind_run. unfold method at 1.
  rewrite Hget. rewrite bind_run. cbn [try mret Go_ret]. rewrite bind_run.
  unfold method at 1. cbn [this files calls]. unfold currentRegisteredKeys.
  rewrite Hlist. by destruct p1.
Qed.

Lemma update_run p :
  update L sys H p
  = match (Lock H (files p)).1 with
    | Some err => (Return (Some err), locked H p)
    | None =>
        let '(s, p') := update_body L sys H (locked H p) in (s, unlocked H p')
    end.
Proof.
  unfold update. rewrite bind_run. unfold Keys_Lock. rewrite bind_run.
  unfold record at 1, method at 1, call. cbn [this files calls]. unfold locked.
  destruct (Lock H (files p)) as [[err|] w1]; cbn [fst snd]; [done|].
  destruct (update_body L sys H _) as [s p']. f_equal.
  unfold Keys_Unlock, unlocked. rewrite bind_run. unfold record at 1, method, call.
  cbn [this files calls]. by destruct (Unlock H (files p')).
Qed.

(** X17. [update] returns, and when it took the lock it has released it:
    the call of [Unlock] is the last thing it does.  An error of [Lock], of
    [Get] on the register file or of the listing of the key files is
    returned as it is, before any key file is touched; after an error of
    [Lock], [Unlock] is not called. *)
Theorem update_releases_the_lock p :
  let p1 := locked H p in
  match (Lock H (files p)).1 with
  | Some err => update L sys H p = (Return (Some err), p1)
  | None =>
      match Get (registerKeyFile (this p)) (files p1) with
      | inl err => update L sys H p = (Return (Some err), unlocked H p1)
      | inr keyIDs =>
          match os_ReadDir H (keyDir L (this p)) (files p1) with
          | inl err => update L sys H p = (Return (Some err), unlocked H p1)
          | inr names => exists r p2, update L sys H p = (Return r, unlocked H p2)
          end
      end
  end.
Proof.
  intros p1. rewrite update_run. fold p1.
  destruct (Lock H (files p)).1 as [err|]; [done|].
  destruct (Get (registerKeyFile (this p)) (files p1)) as [err|keyIDs] eqn:Hget.
  { by rewrite (update_body_Get_fails p1 err Hget). }
  destruct (os_ReadDir H (keyDir L (this p)) (files p1)) as [err|names] eqn:Hlist.
  { by rewrite (update_body_listing_fails p1 keyIDs err Hget Hlist). }
  destruct (update_body_run p1 keyIDs names Hget Hlist) as (keyMap & w2 & _ & ->).
  destruct keyIDs as [|k keyIDs]; [by eexists _, _|].
  cbn zeta. destruct (GetKeys H keyMap); by eexists _, _.
Qed.

(** X18. With the lock held, the register file read and the key files
    listed, [update] asks the server at most once, between [Lock] and
    [Unlock]: not at all when no ID is registered, and else with a map whose
    keys are the registered IDs, where an ID without a key file has the
    empty hash.  An error of [GetKeys] is returned; after any other answer
    [update] returns nil, whatever [processKey] returned for the keys. *)
Theorem update_asks_the_server_once p (keyIDs names : list string) :
  let p1 := locked H p in
  (Lock H (files p)).1 = None ->
  Get (registerKeyFile (this p)) (files p1) = inr keyIDs ->
  os_ReadDir H (keyDir L (this p)) (files p1) = inr names ->
  exists (keyMap : gmap string string) p2,
    dom keyMap = list_to_set keyIDs
    /\ (forall id, id ∈ keyIDs -> id ∉ names -> keyMap !! id = Some EmptyString)
    /\ match keyIDs with
       | [] =>
           update L sys H p = (Return None, unlocked H p2)
           /\ calls p2 = calls p ++ [CallLock]
       | _ :: _ =>
           update L sys H p
           = (Return match GetKeys H keyMap with inl err => Some err | inr _ => None end,
              unlocked H p2)
           /\ calls p2 = calls p ++ [CallLock; CallGetKeys keyMap]
       end.
Proof.
  intros p1 Hlock Hget Hlist. rewrite update_run, Hlock. fold p1.
  destruct (update_body_run p1 keyIDs names Hget Hlist)
    as (keyMap & w2 & (Hdom & Hempty & _) & ->).
  exists keyMap. destruct keyIDs as [|k keyIDs].
  { eexists. split; [done|]. split; [done|]. split; [reflexivity|done]. }
  cbn zeta. destruct (GetKeys H keyMap) as [err|updatedKeys].
  { eexists. split; [done|]. split; [done|]. split; [reflexivity|].
    cbn [calls]. subst p1. unfold locked. cbn [calls]. by rewrite <- app_assoc. }
  destruct (processKeys_returns updatedKeys
              (mkProcess w2 (this p1) (calls p1 ++ [CallGetKeys keyMap])))
    as (w3 & d3 & ->).
  eexists. split; [done|]. split; [done|]. split; [reflexivity|].
  cbn [snd calls]. subst p1. unfold locked. cbn [calls]. by rewrite <- app_assoc.
Qed.

(** X19. When the server has no key to update -- [GetKeys] fails or
    returns no ID -- [update] only deletes: what is left of the files that
    [Lock] left is a part of them, without the key file of any ID that is
    listed and not registered, and with every file that is not the key file
    of a listed ID as it was. *)
Theorem update_deletes_unregistered_key_files p (keyIDs names : list string) :
  let p1 := locked H p in
  (Lock H (files p)).1 = None ->
  Get (registerKeyFile (this p)) (files p1) = inr keyIDs ->
  os_ReadDir H (keyDir L (this p)) (files p1) = inr names ->
  (forall keyMap updatedKeys, GetKeys H keyMap = inr updatedKeys -> updatedKeys = []) ->
  exists r p2,
    update L sys H p = (Return r, unlocked H p2)
    /\ this p2 = this p
    /\ files p2 ⊆ files p1
    /\ (forall id, id ∈ names -> id ∉ keyIDs -> files p2 !! keyFilename L (this p) id = None)
    /\ (forall name, (forall id, id ∈ names -> name <> keyFilename L (this p) id) ->
        files p2 !! name = files p1 !! name).
Proof.
  intros p1 Hlock Hget Hlist Hnone. rewrite update_run, Hlock. fold p1.
  destruct (update_body_run p1 keyIDs names Hget Hlist)
    as (keyMap & w2 & (_ & _ & Hsub & Hgone & Hkept) & ->).
  destruct keyIDs as [|k keyIDs]; [by eexists _, (mkProcess w2 _ _)|].
  cbn zeta. destruct (GetKeys H keyMap) as [err|updatedKeys] eqn:Hkeys.
  { by eexists _, (mkProcess w2 _ _). }
  rewrite (Hnone _ _ Hkeys). by eexists _, (mkProcess w2 _ _).
Qed.

(** X20. [update] counts the keys it could not process and goes on: with
    IDs registered and an answer [updatedKeys] of the server, it returns nil
    and [getKeyErrCount] has grown, modulo 2^64, by at most the number of
    IDs in the answer -- by exactly that number when the fetch of every one
    of them fails.  Nothing else of the daemon changes. *)
Theorem update_counts_failed_keys p (keyIDs names updatedKeys : list string) :
  let p1 := locked H p in
  (Lock H (files p)).1 = None ->
  Get (registerKeyFile (this p)) (files p1) = inr keyIDs ->
  os_ReadDir H (keyDir L (this p)) (files p1) = inr names ->
  keyIDs <> [] ->
  (forall keyMap, GetKeys H keyMap = inr updatedKeys) ->
  (getKeyErrCount (this p) < 2 ^ 64)%N ->
  exists (n : N) p2,
    update L sys H p = (Return None, unlocked H p2)
    /\ this p2 = counted (this p) n
    /\ (n <= N.of_nat (length updatedKeys))%N
    /\ ((forall k, k ∈ updatedKeys -> exists err, NetworkGetKey (cli (this p)) k = inl err) ->
        n = N.of_nat (length updatedKeys)).
Proof.
  intros p1 Hlock Hget Hlist Hregistered Hkeys Hbound. rewrite update_run, Hlock. fold p1.
  destruct (update_body_run p1 keyIDs names Hget Hlist) as (keyMap & w2 & _ & ->).
  destruct keyIDs as [|k keyIDs]; [done|].
  cbn zeta. rewrite Hkeys.
  destruct (processKeys_counts updatedKeys
              (mkProcess w2 (this p1) (calls p1 ++ [CallGetKeys keyMap])) Hbound)
    as (w3 & n & -> & Hle & Hall).
  by exists n, (mkProcess w3 (counted (this p1) n) (calls p1 ++ [CallGetKeys keyMap])).
Qed.

End UpdateProperties.

(** ** Fields written one per line *)

Section LinesProperties.


End LinesProperties.

(** ** More examples *)

Section MoreExamples.
Import golang wording.

(** *** The server *)

(** Alice is in the ACL: she reads the key, and the callback that panics is
    not asked. *)
Lemma authorizeRequest_grants_by_acl_or_callback_witness :
  knox.CanAccess demo.alice (knox.key_ACL demo.password) knox.Read = true
  /\ server.authorizeRequest (demo.deps (Some demo.crashing)) demo.password demo.alice knox.Read
     = (true, None).
Proof.
  assert (Hacl : knox.CanAccess demo.alice (knox.key_ACL demo.password) knox.Read = true)
    by reflexivity.
  split; [exact Hacl|].
  destruct (authorizeRequest_grants_by_acl_or_callback (demo.deps (Some demo.crashing))
              demo.password demo.alice knox.Read) as (Hgranted & _).
  exact (Hgranted Hacl).
Defined.

(** Mallory may not delete the key: the store is as it was. *)
Lemma refused_request_is_answered_without_acting_witness :
  server.authorizeRequest (demo.deps None) demo.password demo.mallory knox.Admin = (false, None)
  /\ (false, @None knox.error) <> (true, None)
  /\ server.deleteKeyHandler (demo.deps None) demo.memory demo.mallory demo.readPassword demo.keys
     = (Return (notAuthorized demo.mallory "delete" "svc.db.password" None), demo.keys).
Proof.
  assert (Hauth : server.authorizeRequest (demo.deps None) demo.password demo.mallory knox.Admin
                  = (false, None)) by reflexivity.
  assert (Hne : (false, @None knox.error) <> (true, None)) by discriminate.
  split; [exact Hauth|]. split; [exact Hne|].
  destruct (refused_request_is_answered_without_acting (demo.deps None) demo.password
              demo.mallory knox.Admin false None Hauth Hne) as (_ & Hdelete & _).
  exact (Hdelete demo.memory demo.readPassword demo.keys demo.keys eq_refl eq_refl).
Defined.

(** No key has the ID [absent]. *)
Lemma missing_key_ends_the_request_witness :
  server.GetKey demo.memory "absent" knox.Primary demo.keys
  = (inl demo.ErrKeyIDNotFound, demo.keys)
  /\ server.deleteKeyHandler (demo.deps None) demo.memory demo.alice {[ "keyID" := "absent" ]}
       demo.keys
     = (Return (server.Nil,
                server.errF knox.KeyIdentifierDoesNotExistCode "No such key absent"), demo.keys).
Proof.
  assert (Hget : server.GetKey demo.memory
                   (index ({[ "keyID" := "absent" ]} : gmap string string) "keyID")
                   knox.Primary demo.keys
                 = (inl demo.ErrKeyIDNotFound, demo.keys)) by reflexivity.
  split; [exact Hget|].
  destruct (missing_key_ends_the_request (demo.deps None) demo.memory demo.alice
              {[ "keyID" := "absent" ]} demo.ErrKeyIDNotFound demo.keys demo.keys)
    as (_ & Hprimary & _).
  destruct (Hprimary Hget) as (Hdelete & _).
  exact Hdelete.
Defined.

(** Mallory may not read the key, and is given its ACL. *)
Lemma getAccessHandler_serves_the_refused_witness :
  server.GetKey demo.memory "svc.db.password" knox.Primary demo.keys
  = (inr demo.password, demo.keys)
  /\ server.authorizeRequest (demo.deps None) demo.password demo.mallory knox.Read = (false, None)
  /\ server.getAccessHandler demo.memory demo.mallory demo.readPassword demo.keys
     = (Return (server.ACLValue (Some [demo.admin "alice"]), None), demo.keys)
  /\ exists message,
       server.getKeyHandler (demo.deps None) demo.memory demo.mallory demo.readPassword demo.keys
       = (Return (server.Nil, server.errF knox.UnauthorizedCode message), demo.keys).
Proof.
  assert (Hget : server.GetKey demo.memory (index demo.readPassword "keyID") knox.Primary
                   demo.keys
                 = (inr demo.password, demo.keys)) by reflexivity.
  assert (Hauth : server.authorizeRequest (demo.deps None) demo.password demo.mallory knox.Read
                  = (false, None)) by reflexivity.
  split; [exact Hget|]. split; [exact Hauth|].
  destruct (getAccessHandler_serves_the_refused (demo.deps None) demo.memory demo.mallory
              demo.readPassword demo.password demo.keys demo.keys Hget) as (Hacl & Hkey).
  split; [exact Hacl|].
  exact (Hkey eq_refl eq_refl Hauth).
Defined.

(** Alice sends no parameter at all. *)
Lemma postKeysHandler_checks_parameters_in_order_witness :
  server.auth_IsUser (demo.deps None) demo.alice = true
  /\ server.postKeysHandler (demo.deps None) demo.memory demo.alice ∅ demo.keys
     = (Return (server.Nil, server.errF knox.NoKeyIDCode "Missing parameter 'id'"), demo.keys).
Proof.
  assert (Huser : server.auth_IsUser (demo.deps None) demo.alice = true) by reflexivity.
  split; [exact Huser|].
  destruct (postKeysHandler_checks_parameters_in_order (demo.deps None) demo.memory demo.alice
              ∅ demo.keys Huser) as (Hid & _).
  exact (Hid eq_refl).
Defined.

(** Alice creates a key under an ID that is taken. *)
Lemma postKeysHandler_replies_from_AddNewKey_witness :
  server.auth_IsUser (demo.deps None) demo.alice = true
  /\ createParameters (demo.deps None) {[ "id" := "svc.db.password"; "data" := "aGk=" ]}
       "svc.db.password" (Some []) (Some (bytes "hi"))
  /\ server.postKeysHandler (demo.deps None) demo.memory demo.alice
       {[ "id" := "svc.db.password"; "data" := "aGk=" ]} demo.keys
     = (Return (server.Nil,
                server.errF knox.KeyIdentifierExistsCode "Key svc.db.password already exists"),
        demo.keys).
Proof.
  assert (Huser : server.auth_IsUser (demo.deps None) demo.alice = true) by reflexivity.
  assert (Hparameters : createParameters (demo.deps None)
                          {[ "id" := "svc.db.password"; "data" := "aGk=" ]}
                          "svc.db.password" (Some []) (Some (bytes "hi"))).
  { split; [reflexivity|]. split; [|reflexivity].
    exists "aGk=". split; [reflexivity|]. split; [discriminate|reflexivity]. }
  split; [exact Huser|]. split; [exact Hparameters|].
  destruct (postKeysHandler_replies_from_AddNewKey (demo.deps None) demo.memory demo.alice
              _ _ _ _ _ _ (Some demo.ErrKeyExists) demo.keys demo.keys demo.keys
              Huser Hparameters eq_refl eq_refl) as (Hexists & _).
  exact (Hexists demo.ErrKeyExists eq_refl eq_refl).
Defined.

(** Alice lets bob read the key. *)
Lemma putAccessHandler_validates_before_updating_witness :
  server.requestedRules (demo.deps None)
    {[ "keyID" := "svc.db.password"; "access" := demo.bobReadsJSON ]} demo.keys
  = (Next (Some [demo.bobReads]), demo.keys)
  /\ server.authorizeRequest (demo.deps None) demo.password demo.alice knox.Admin = (true, None)
  /\ Forall (acceptable (demo.deps None)) [demo.bobReads]
  /\ server.putAccessHandler (demo.deps None) demo.memory demo.alice
       {[ "keyID" := "svc.db.password"; "access" := demo.bobReadsJSON ]} demo.keys
     = (Return (server.Nil, None),
        (server.UpdateAccess demo.memory "svc.db.password" (Some [demo.bobReads]) demo.keys).2).
Proof.
  assert (Hrules : server.requestedRules (demo.deps None)
                     {[ "keyID" := "svc.db.password"; "access" := demo.bobReadsJSON ]} demo.keys
                   = (Next (Some [demo.bobReads]), demo.keys)) by (vm_compute; reflexivity).
  assert (Hauth : server.authorizeRequest (demo.deps None) demo.password demo.alice knox.Admin
                  = (true, None)) by reflexivity.
  assert (Hvalid : Forall (acceptable (demo.deps None)) [demo.bobReads]).
  { constructor; [|constructor]. intros _. reflexivity. }
  split; [exact Hrules|]. split; [exact Hauth|]. split; [exact Hvalid|].
  destruct (putAccessHandler_validates_before_updating (demo.deps None) demo.memory demo.alice
              {[ "keyID" := "svc.db.password"; "access" := demo.bobReadsJSON ]}
              (Some [demo.bobReads]) demo.password demo.keys demo.keys Hrules eq_refl Hauth)
    as (_ & Hupdate & _).
  exact (Hupdate Hvalid).
Defined.

(** A version without data is not added. *)
Lemma postVersionHandler_checks_data_then_adds_witness :
  demo.emptyData !! "data" = Some EmptyString
  /\ server.postVersionHandler (demo.deps None) demo.memory demo.alice demo.emptyData demo.keys
     = (Return (server.Nil, server.errF knox.BadRequestDataCode "Parameter 'data' is empty"),
        demo.keys).
Proof.
  assert (Hdata : demo.emptyData !! "data" = Some EmptyString) by reflexivity.
  split; [exact Hdata|].
  destruct (postVersionHandler_checks_data_then_adds (demo.deps None) demo.memory demo.alice
              demo.emptyData demo.keys) as (_ & Hempty & _).
  exact (Hempty Hdata).
Defined.

(** A request to change a version that names no status. *)
Lemma putVersionsHandler_checks_status_then_version_witness :
  demo.readPassword !! "status" = None
  /\ server.putVersionsHandler (demo.deps None) demo.memory demo.alice demo.readPassword demo.keys
     = (Return (server.Nil, server.errF knox.BadRequestDataCode "Missing parameter 'status'"),
        demo.keys).
Proof.
  assert (Hstatus : demo.readPassword !! "status" = None) by reflexivity.
  split; [exact Hstatus|].
  destruct (putVersionsHandler_checks_status_then_version (demo.deps None) demo.memory
              demo.alice demo.readPassword demo.keys) as (Hmissing & _).
  exact (Hmissing Hstatus).
Defined.

End MoreExamples.

Section MoreDaemonExamples.
Import golang wording.

(** *** The register file *)




(** *** processKey *)

(** The server sends the key without a version list: the key file stays. *)
Lemma processKey_rejects_before_writing_witness :
  client.NetworkGetKey
    (client.cli (demo.knoxdOf (demo.answering demo.unversioned) demo.works)) "svc.db.password"
  = inr demo.unversioned
  /\ ~ validKey demo.unversioned
  /\ client.processKey demo.library demo.works
       (demo.knoxdOf (demo.answering demo.unversioned) demo.works) "svc.db.password" demo.disk
     = (Return (Some (knox.Errorf "invalid key content returned")), demo.disk).
Proof.
  assert (Hget : client.NetworkGetKey
                   (client.cli (demo.knoxdOf (demo.answering demo.unversioned) demo.works))
                   "svc.db.password"
                 = inr demo.unversioned) by reflexivity.
  assert (Hinvalid : ~ validKey demo.unversioned).
  { intros (_ & _ & Hversions & _). by apply Hversions. }
  split; [exact Hget|]. split; [exact Hinvalid|].
  destruct (processKey_rejects_before_writing demo.library demo.works
              (demo.knoxdOf (demo.answering demo.unversioned) demo.works) "svc.db.password"
              demo.unversioned demo.disk Hget) as (Hrejected & _).
  exact (Hrejected Hinvalid).
Defined.

(** [os.Chmod] is not permitted: the new key is in place, with mode 0600,
    and [processKey] returns the error. *)
Lemma processKey_opens_permissions_last_witness :
  fetched demo.library (demo.knoxd demo.chmodDenied) "svc.db.password" demo.passwordJSON
  /\ (client.os_CreateTemp demo.chmodDenied "/var/lib/knox" ".*.svc.db.password.tmp"
        demo.disk).1
     = inr "/var/lib/knox/.1.svc.db.password.tmp"
  /\ client.Write_fails demo.chmodDenied = None
  /\ client.Rename_fails demo.chmodDenied = None
  /\ client.processKey demo.library demo.chmodDenied (demo.knoxd demo.chmodDenied)
       "svc.db.password" demo.disk
     = (Return (Some (knox.Errorf
          "Failed to open up key file permissions: chmod: operation not permitted")),
        <[demo.keyPath := client.mkFile demo.passwordJSON 384]> demo.disk).
Proof.
  assert (Hfetched : fetched demo.library (demo.knoxd demo.chmodDenied) "svc.db.password"
                       demo.passwordJSON).
  { exists demo.password. split; [reflexivity|]. split; [by repeat split|reflexivity]. }
  assert (Hcreated : (client.os_CreateTemp demo.chmodDenied
                        (client.dir (demo.knoxd demo.chmodDenied))
                        (".*." +:+ "svc.db.password" +:+ ".tmp") demo.disk).1
                     = inr "/var/lib/knox/.1.svc.db.password.tmp")
    by (vm_compute; reflexivity).
  split; [exact Hfetched|]. split; [exact Hcreated|]. split; [reflexivity|].
  split; [reflexivity|].
  exact (processKey_opens_permissions_last demo.library demo.chmodDenied
           (demo.knoxd demo.chmodDenied) "svc.db.password" demo.passwordJSON _ demo.disk
           Hfetched Hcreated eq_refl eq_refl).
Defined.

(** The server has a key under the ID [team/db]: the daemon cannot cache
    it. *)
Lemma processKey_refuses_path_separator_witness :
  fetched demo.library (demo.knoxdOf (demo.answering demo.password) demo.works) "team/db"
    demo.passwordJSON
  /\ client.contains "/" "team/db" = true
  /\ exists err,
       client.processKey demo.library demo.works
         (demo.knoxdOf (demo.answering demo.password) demo.works) "team/db" demo.disk
       = (Return (Some (knox.Errorf ("Error opening tmp file for key team/db: "
                                     +:+ knox.Error err))), demo.disk).
Proof.
  assert (Hfetched : fetched demo.library
                       (demo.knoxdOf (demo.answering demo.password) demo.works) "team/db"
                       demo.passwordJSON).
  { exists demo.password. split; [reflexivity|]. split; [by repeat split|reflexivity]. }
  assert (Hseparator : client.contains "/" "team/db" = true) by reflexivity.
  split; [exact Hfetched|]. split; [exact Hseparator|].
  exact (processKey_refuses_path_separator demo.library demo.works
           (demo.knoxdOf (demo.answering demo.password) demo.works) "team/db"
           demo.passwordJSON demo.disk Hfetched Hseparator).
Defined.

(** *** update *)

(** Two IDs are registered and one has a key file: the server is asked
    about both, once, and the ID without a file goes with the empty hash. *)
Lemma update_asks_the_server_once_witness :
  (client.Lock (demo.machine demo.refusing) demo.disk).1 = None
  /\ client.Get (client.registerKeyFile (demo.knoxd demo.works)) demo.disk
     = inr ["svc.db.password"; "gone"]
  /\ client.os_ReadDir (demo.machine demo.refusing) "/var/lib/knox/v0/keys" demo.disk
     = inr ["svc.db.password"]
  /\ exists (keyMap : gmap string string) p2,
       dom keyMap = list_to_set ["svc.db.password"; "gone"]
       /\ keyMap !! "gone" = Some EmptyString
       /\ client.update demo.library demo.works (demo.machine demo.refusing)
            (client.mkProcess demo.disk (demo.knoxd demo.works) [])
          = (Return None, unlocked (demo.machine demo.refusing) p2)
       /\ client.calls p2 = [client.CallLock; client.CallGetKeys keyMap].
Proof.
  assert (Hlock : (client.Lock (demo.machine demo.refusing) demo.disk).1 = None) by reflexivity.
  assert (Hget : client.Get (client.registerKeyFile (demo.knoxd demo.works)) demo.disk
                 = inr ["svc.db.password"; "gone"]) by (vm_compute; reflexivity).
  assert (Hlist : client.os_ReadDir (demo.machine demo.refusing) "/var/lib/knox/v0/keys"
                    demo.disk
                  = inr ["svc.db.password"]) by (vm_compute; reflexivity).
  split; [exact Hlock|]. split; [exact Hget|]. split; [exact Hlist|].
  destruct (update_asks_the_server_once demo.library demo.works (demo.machine demo.refusing)
              (client.mkProcess demo.disk (demo.knoxd demo.works) [])
              ["svc.db.password"; "gone"] ["svc.db.password"] Hlock Hget Hlist)
    as (keyMap & p2 & Hdom & Hempty & Hrun & Hcalls).
  exists keyMap, p2. split; [exact Hdom|]. split; [|split; [exact Hrun|exact Hcalls]].
  apply Hempty.
  - right. left.
  - intros Hin. apply elem_of_cons in Hin as [?|Hin]; [discriminate|].
    by apply elem_of_nil in Hin.
Defined.

(** The server cannot be reached: the key file of [old], which is not
    registered, is deleted all the same. *)
Lemma update_deletes_unregistered_key_files_witness :
  (client.Lock (demo.machine demo.unreachable) demo.stale).1 = None
  /\ client.Get (client.registerKeyFile (demo.knoxd demo.works)) demo.stale
     = inr ["svc.db.password"; "gone"]
  /\ client.os_ReadDir (demo.machine demo.unreachable) "/var/lib/knox/v0/keys" demo.stale
     = inr ["old"; "svc.db.password"]
  /\ (forall keyMap updatedKeys,
        client.GetKeys (demo.machine demo.unreachable) keyMap = inr updatedKeys ->
        updatedKeys = [])
  /\ exists r p2,
       client.update demo.library demo.works (demo.machine demo.unreachable)
         (client.mkProcess demo.stale (demo.knoxd demo.works) [])
       = (Return r, unlocked (demo.machine demo.unreachable) p2)
       /\ client.files p2 !! demo.oldPath = None.
Proof.
  assert (Hlock : (client.Lock (demo.machine demo.unreachable) demo.stale).1 = None)
    by reflexivity.
  assert (Hget : client.Get (client.registerKeyFile (demo.knoxd demo.works)) demo.stale
                 = inr ["svc.db.password"; "gone"]) by (vm_compute; reflexivity).
  assert (Hlist : client.os_ReadDir (demo.machine demo.unreachable) "/var/lib/knox/v0/keys"
                    demo.stale
                  = inr ["old"; "svc.db.password"]) by (vm_compute; reflexivity).
  assert (Hnone : forall keyMap updatedKeys,
             client.GetKeys (demo.machine demo.unreachable) keyMap = inr updatedKeys ->
             updatedKeys = []) by discriminate.
  split; [exact Hlock|]. split; [exact Hget|]. split; [exact Hlist|]. split; [exact Hnone|].
  destruct (update_deletes_unregistered_key_files demo.library demo.works
              (demo.machine demo.unreachable)
              (client.mkProcess demo.stale (demo.knoxd demo.works) [])
              ["svc.db.password"; "gone"] ["old"; "svc.db.password"] Hlock Hget Hlist Hnone)
    as (r & p2 & Hrun & _ & _ & Hgone & _).
  exists r, p2. split; [exact Hrun|].
  apply (Hgone "old").
  - left.
  - intros Hin. apply elem_of_cons in Hin as [?|Hin]; [discriminate|].
    apply elem_of_cons in Hin as [?|Hin]; [discriminate|].
    by apply elem_of_nil in Hin.
Defined.

(** The server reports two keys and gives neither: [update] returns nil
    and has counted two errors. *)
Lemma update_counts_failed_keys_witness :
  (client.Lock (demo.machine demo.refusing) demo.disk).1 = None
  /\ client.Get (client.registerKeyFile (demo.knoxd demo.works)) demo.disk
     = inr ["svc.db.password"; "gone"]
  /\ (forall keyMap, client.GetKeys (demo.machine demo.refusing) keyMap = inr ["gone"; "secret"])
  /\ (forall k, k ∈ ["gone"; "secret"] ->
        exists err, client.NetworkGetKey (client.cli (demo.knoxd demo.works)) k = inl err)
  /\ exists p2,
       client.update demo.library demo.works (demo.machine demo.refusing)
         (client.mkProcess demo.disk (demo.knoxd demo.works) [])
       = (Return None, unlocked (demo.machine demo.refusing) p2)
       /\ client.this p2 = counted (demo.knoxd demo.works) 2.
Proof.
  assert (Hlock : (client.Lock (demo.machine demo.refusing) demo.disk).1 = None) by reflexivity.
  assert (Hget : client.Get (client.registerKeyFile (demo.knoxd demo.works)) demo.disk
                 = inr ["svc.db.password"; "gone"]) by (vm_compute; reflexivity).
  assert (Hlist : client.os_ReadDir (demo.machine demo.refusing) "/var/lib/knox/v0/keys"
                    demo.disk
                  = inr ["svc.db.password"]) by (vm_compute; reflexivity).
  assert (Hkeys : forall keyMap,
             client.GetKeys (demo.machine demo.refusing) keyMap = inr ["gone"; "secret"])
    by reflexivity.
  assert (Hfail : forall k, k ∈ ["gone"; "secret"] ->
             exists err, client.NetworkGetKey (client.cli (demo.knoxd demo.works)) k = inl err).
  { intros k Hin. apply elem_of_cons in Hin as [->|Hin]; [eexists; vm_compute; reflexivity|].
    apply elem_of_cons in Hin as [->|Hin]; [eexists; vm_compute; reflexivity|].
    apply elem_of_nil in Hin. destruct Hin. }
  split; [exact Hlock|]. split; [exact Hget|]. split; [exact Hkeys|]. split; [exact Hfail|].
  destruct (update_counts_failed_keys demo.library demo.works (demo.machine demo.refusing)
              (client.mkProcess demo.disk (demo.knoxd demo.works) [])
              ["svc.db.password"; "gone"] ["svc.db.password"] ["gone"; "secret"]
              Hlock Hget Hlist ltac:(discriminate) Hkeys eq_refl)
    as (n & p2 & Hrun & Hthis & _ & Hall).
  exists p2. split; [exact Hrun|]. rewrite Hthis, (Hall Hfail). reflexivity.
Defined.

End MoreDaemonExamples.
